(** * The key-value store [ut_components/kv.py] and the memoization layer
      [ut_components/memoize.py], embedded and verified.

    The development follows the two Python modules:
    - [Py]: the Python values the two modules pass around, exceptions, results;
    - [Json]: [json.dumps] and [json.loads] as the store uses them;
    - [Sha1]: [hashlib.sha1(..).hexdigest()];
    - [Sqlite]: the table [kv] and the five SQL statements of [kv.py];
    - [Datetime]: [datetime.now()], [timedelta] and [timestamp()];
    - [KVStore]: the methods of class [KV];
    - [Memoize]: [hash_function_name], [hash_function_args], [memoize],
      [delete_memoized].
    Definitions come first, the theorems about them afterwards. *)

From Stdlib Require Import ZArith String Ascii List Bool Lia.
From Stdlib Require Import DecimalString DecimalZ DecimalPos DecimalFacts.
From Stdlib Require Import Sorting.Sorted Sorting.Permutation.
From Stdlib Require OrderedTypeEx.
Import ListNotations.

Local Open Scope string_scope.
Local Open Scope Z_scope.

(* ------------------------------------------------------------------------- *)
(** ** Python values, exceptions and results *)

Module Py.

(** The values [kv.py] and [memoize.py] handle.  Numbers are the integers
    (floats are left out); a Python [str] is a string of code points below
    256; a [dict] has [str] keys and keeps insertion order; [PyObject] stands
    for every object [json] has no encoding for (a [set], [bytes], an
    instance of a user class, ...). *)
#[local] Unset Elimination Schemes.
Inductive pyval : Type :=
| PyNone
| PyBool (b : bool)
| PyInt (n : Z)
| PyStr (s : string)
| PyList (l : list pyval)
| PyTuple (l : list pyval)
| PyDict (d : list (string * pyval))
| PyObject (id : nat).
#[local] Set Elimination Schemes.

(** Induction on values, through the lists they hold. *)
Section PyvalInduction.
Variable P : pyval -> Prop.
Hypothesis HNone : P PyNone.
Hypothesis HBool : forall b, P (PyBool b).
Hypothesis HInt : forall n, P (PyInt n).
Hypothesis HStr : forall s, P (PyStr s).
Hypothesis HList : forall l, Forall P l -> P (PyList l).
Hypothesis HTuple : forall l, Forall P l -> P (PyTuple l).
Hypothesis HDict : forall d, Forall (fun kv => P (snd kv)) d -> P (PyDict d).
Hypothesis HObject : forall id, P (PyObject id).

Fixpoint pyval_ind (v : pyval) : P v :=
  match v with
  | PyNone => HNone
  | PyBool b => HBool b
  | PyInt n => HInt n
  | PyStr s => HStr s
  | PyList l =>
      HList l ((fix all (l : list pyval) : Forall P l :=
                  match l with
                  | [] => Forall_nil P
                  | x :: l' => Forall_cons x (pyval_ind x) (all l')
                  end) l)
  | PyTuple l =>
      HTuple l ((fix all (l : list pyval) : Forall P l :=
                   match l with
                   | [] => Forall_nil P
                   | x :: l' => Forall_cons x (pyval_ind x) (all l')
                   end) l)
  | PyDict d =>
      HDict d ((fix all (d : list (string * pyval)) : Forall (fun kv => P (snd kv)) d :=
                  match d with
                  | [] => Forall_nil _
                  | kv :: d' => Forall_cons kv (pyval_ind (snd kv)) (all d')
                  end) d)
  | PyObject id => HObject id
  end.
End PyvalInduction.

(** The exceptions that can leave the two modules. *)
Inductive exn : Type :=
| TypeError          (* json.dumps: Object of type ... is not JSON serializable *)
| JSONDecodeError    (* json.loads on text that is not JSON *)
| AttributeError     (* .get on a decoded value that is not a dict *)
| OperationalError   (* sqlite3: the statement could not be run *)
| ProgrammingError.  (* sqlite3: wrong number or type of bindings *)

Inductive result (A : Type) : Type :=
| Ok (a : A)
| Raise (e : exn).

Arguments Ok {A} a.
Arguments Raise {A} e.

Definition bind {A B : Type} (r : result A) (k : A -> result B) : result B :=
  match r with
  | Ok a => k a
  | Raise e => Raise e
  end.

(** [dict.get(key, default)]. *)
Fixpoint dict_get (d : list (string * pyval)) (k : string) (default : pyval) : pyval :=
  match d with
  | [] => default
  | (k', v) :: d' => if String.eqb k' k then v else dict_get d' k default
  end.

(** [d[k] = v]: an existing key keeps its place, a new one goes last. *)
Fixpoint dict_set (d : list (string * pyval)) (k : string) (v : pyval)
  : list (string * pyval) :=
  match d with
  | [] => [(k, v)]
  | (k', v') :: d' =>
      if String.eqb k' k then (k', v) :: d' else (k', v') :: dict_set d' k v
  end.

(** [dict(pairs)]. *)
Definition dict_of_pairs (pairs : list (string * pyval)) : list (string * pyval) :=
  fold_left (fun d kv => dict_set d (fst kv) (snd kv)) pairs [].

(** Truth value of an [Optional[str]] ([if not result]) and of an
    [Optional[int]] ([if ttl_seconds]). *)
Definition truthy_str (r : option string) : bool :=
  match r with
  | Some (String _ _) => true
  | _ => false
  end.

(** [not v]: the values Python takes for false. *)
Definition falsy (v : pyval) : bool :=
  match v with
  | PyNone | PyBool false | PyInt 0 | PyStr EmptyString
  | PyList [] | PyTuple [] | PyDict [] => true
  | _ => false
  end.

Definition truthy_int (n : option Z) : bool :=
  match n with
  | Some z => negb (z =? 0)
  | None => false
  end.

End Py.
Export Py.

Notation "x <- r ;; k" := (bind r (fun x => k))
  (at level 61, r at next level, right associativity).

(* ------------------------------------------------------------------------- *)
(** ** [json.dumps] and [json.loads] *)

Module Json.

Definition dquote : ascii := "034"%char.
Definition backslash : ascii := "092"%char.

Definition hex_digit (n : nat) : ascii :=
  match n with
  | 0 => "0" | 1 => "1" | 2 => "2" | 3 => "3" | 4 => "4" | 5 => "5" | 6 => "6"
  | 7 => "7" | 8 => "8" | 9 => "9" | 10 => "a" | 11 => "b" | 12 => "c"
  | 13 => "d" | 14 => "e" | _ => "f"
  end%char%nat.

(** [py_encode_basestring_ascii] on one character: the short escapes, the
    printable ASCII characters as they are, everything else as [\u00xx]. *)
Definition escape_char (c : ascii) : string :=
  let n := nat_of_ascii c in
  if Ascii.eqb c dquote then String backslash (String dquote "")
  else if Ascii.eqb c backslash then String backslash (String backslash "")
  else if Nat.eqb n 10 then String backslash "n"
  else if Nat.eqb n 13 then String backslash "r"
  else if Nat.eqb n 9 then String backslash "t"
  else if Nat.eqb n 8 then String backslash "b"
  else if Nat.eqb n 12 then String backslash "f"
  else if (Nat.leb 32 n && Nat.leb n 126)%bool then String c ""
  else String backslash
         (String "u" (String "0" (String "0"
           (String (hex_digit (Nat.div n 16)) (String (hex_digit (Nat.modulo n 16)) ""))))).

Fixpoint escape (s : string) : string :=
  match s with
  | EmptyString => ""
  | String c s' => escape_char c ++ escape s'
  end.

Definition quote (s : string) : string :=
  String dquote (escape s ++ String dquote "").

(** [str(n)] for an [int]. *)
Definition str_of_int (n : Z) : string := NilZero.string_of_int (Z.to_int n).

Fixpoint join (sep : string) (l : list string) : string :=
  match l with
  | [] => ""
  | [x] => x
  | x :: l' => x ++ sep ++ join sep l'
  end.

(** [sorted(items)] on pairs with distinct keys: a stable insertion sort by
    key, keys compared code point by code point. *)
Fixpoint insert_item (kv : string * string) (l : list (string * string))
  : list (string * string) :=
  match l with
  | [] => [kv]
  | kv' :: l' =>
      if String.leb (fst kv) (fst kv') then kv :: l else kv' :: insert_item kv l'
  end.

Definition sort_items (l : list (string * string)) : list (string * string) :=
  fold_right insert_item [] l.

Definition render_item (kv : string * string) : string :=
  quote (fst kv) ++ ": " ++ snd kv.

(** Values [json.dumps] accepts (anything without an object it cannot encode). *)
Fixpoint serializable (v : pyval) : bool :=
  match v with
  | PyObject _ => false
  | PyList l | PyTuple l => forallb serializable l
  | PyDict d => forallb (fun kv => serializable (snd kv)) d
  | _ => true
  end.

(** The text [json.dumps(v, sort_keys=sort_keys)] produces for a serializable
    [v], with the default separators [", "] and [": "] and [ensure_ascii]. *)
Fixpoint text (sort_keys : bool) (v : pyval) : string :=
  match v with
  | PyNone => "null"
  | PyBool true => "true"
  | PyBool false => "false"
  | PyInt n => str_of_int n
  | PyStr s => quote s
  | PyList l | PyTuple l => "[" ++ join ", " (map (text sort_keys) l) ++ "]"
  | PyDict d =>
      let items := map (fun kv => (fst kv, text sort_keys (snd kv))) d in
      "{" ++ join ", " (map render_item (if sort_keys then sort_items items else items))
          ++ "}"
  | PyObject _ => ""
  end.

Definition dumps (sort_keys : bool) (v : pyval) : result string :=
  if serializable v then Ok (text sort_keys v) else Raise TypeError.

(** *** The decoder *)

Definition is_ws (c : ascii) : bool :=
  let n := nat_of_ascii c in
  (Nat.eqb n 32 || Nat.eqb n 9 || Nat.eqb n 10 || Nat.eqb n 13)%bool.

Fixpoint skip_ws (s : string) : string :=
  match s with
  | String c s' => if is_ws c then skip_ws s' else s
  | EmptyString => ""
  end.

Definition hex_value (c : ascii) : option nat :=
  let n := nat_of_ascii c in
  if (Nat.leb 48 n && Nat.leb n 57)%bool then Some (n - 48)%nat
  else if (Nat.leb 97 n && Nat.leb n 102)%bool then Some (n - 87)%nat
  else if (Nat.leb 65 n && Nat.leb n 70)%bool then Some (n - 55)%nat
  else None.

Definition hex4 (a b c d : ascii) : option nat :=
  match hex_value a, hex_value b, hex_value c, hex_value d with
  | Some x, Some y, Some z, Some w => Some (((x * 16 + y) * 16 + z) * 16 + w)%nat
  | _, _, _, _ => None
  end.

Definition unescape (c : ascii) : option ascii :=
  if Ascii.eqb c dquote then Some dquote
  else if Ascii.eqb c backslash then Some backslash
  else if Ascii.eqb c "/" then Some "/"%char
  else if Ascii.eqb c "b" then Some (ascii_of_nat 8)
  else if Ascii.eqb c "f" then Some (ascii_of_nat 12)
  else if Ascii.eqb c "n" then Some (ascii_of_nat 10)
  else if Ascii.eqb c "r" then Some (ascii_of_nat 13)
  else if Ascii.eqb c "t" then Some (ascii_of_nat 9)
  else None.

Definition cons_char (c : ascii) (r : option (string * string)) : option (string * string) :=
  match r with
  | Some (s, rest) => Some (String c s, rest)
  | None => None
  end.

(** [py_scanstring] in strict mode, from just after the opening quote: the
    string and the text after its closing quote.  A [\uXXXX] escape of a code
    point above 255 is outside the model's strings. *)
Fixpoint scanstring (s : string) : option (string * string) :=
  match s with
  | EmptyString => None
  | String c s1 =>
      if Ascii.eqb c dquote then Some ("", s1)
      else if Ascii.eqb c backslash then
        match s1 with
        | EmptyString => None
        | String e s2 =>
            if Ascii.eqb e "u" then
              match s2 with
              | String h1 (String h2 (String h3 (String h4 s3))) =>
                  match hex4 h1 h2 h3 h4 with
                  | Some code =>
                      if Nat.ltb code 256 then cons_char (ascii_of_nat code) (scanstring s3)
                      else None
                  | None => None
                  end
              | _ => None
              end
            else
              match unescape e with
              | Some ch => cons_char ch (scanstring s2)
              | None => None
              end
        end
      else if Nat.ltb (nat_of_ascii c) 32 then None
      else cons_char c (scanstring s1)
  end.

Definition digit_of_char (c : ascii) : option (Decimal.uint -> Decimal.uint) :=
  match nat_of_ascii c with
  | 48 => Some Decimal.D0 | 49 => Some Decimal.D1 | 50 => Some Decimal.D2
  | 51 => Some Decimal.D3 | 52 => Some Decimal.D4 | 53 => Some Decimal.D5
  | 54 => Some Decimal.D6 | 55 => Some Decimal.D7 | 56 => Some Decimal.D8
  | 57 => Some Decimal.D9 | _ => None
  end%nat.

Fixpoint scan_digits (s : string) : Decimal.uint * string :=
  match s with
  | EmptyString => (Decimal.Nil, "")
  | String c s' =>
      match digit_of_char c with
      | Some D => let (d, rest) := scan_digits s' in (D d, rest)
      | None => (Decimal.Nil, s)
      end
  end.

(** The text after the character [c] when [s] starts with it. *)
Definition next_is (c : ascii) (s : string) : option string :=
  match s with
  | String c' rest => if Ascii.eqb c' c then Some rest else None
  | EmptyString => None
  end.

(** A fraction or an exponent makes the number a float, which the value model
    leaves out: the decoder gives no result for it. *)
Definition starts_float_part (s : string) : bool :=
  match s with
  | String c _ => (Ascii.eqb c "." || Ascii.eqb c "e" || Ascii.eqb c "E")%bool
  | EmptyString => false
  end.

(** The digits of [NUMBER_RE]: a single 0, or a digit 1-9 followed by any
    digits. *)
Definition scan_magnitude (s : string) : Decimal.uint * string :=
  match next_is "0" s with
  | Some s' => (Decimal.D0 Decimal.Nil, s')
  | None => scan_digits s
  end.

(** [NUMBER_RE] without its float parts: an optional minus sign and the
    digits. *)
Definition scan_number (s : string) : option (pyval * string) :=
  let (negative, s1) :=
    match next_is "-" s with
    | Some s' => (true, s')
    | None => (false, s)
    end in
  let (digits, rest) := scan_magnitude s1 in
  match digits with
  | Decimal.Nil => None
  | _ =>
      if starts_float_part rest then None
      else Some (PyInt (Z.of_int (if negative then Decimal.Neg digits
                                  else Decimal.Pos digits)), rest)
  end.

Fixpoint strip_prefix (p s : string) : option string :=
  match p, s with
  | EmptyString, _ => Some s
  | String a p', String b s' => if Ascii.eqb a b then strip_prefix p' s' else None
  | String _ _, EmptyString => None
  end.

(** The literals and the numbers of [scan_once]. *)
Definition scan_atom (s : string) : option (pyval * string) :=
  match strip_prefix "null" s with
  | Some rest => Some (PyNone, rest)
  | None =>
      match strip_prefix "true" s with
      | Some rest => Some (PyBool true, rest)
      | None =>
          match strip_prefix "false" s with
          | Some rest => Some (PyBool false, rest)
          | None => scan_number s
          end
      end
  end.

(** [scan_once], [JSONArray] and [JSONObject]; the two loops are the functions
    [array_items] and [object_pairs].  Every call uses one unit of [fuel]. *)
Fixpoint scan_once (fuel : nat) (s : string) : option (pyval * string) :=
  match fuel with
  | O => None
  | S fuel' =>
      match next_is dquote s with
      | Some s' =>
          match scanstring s' with
          | Some (str, rest) => Some (PyStr str, rest)
          | None => None
          end
      | None =>
          match next_is "{" s with
          | Some s' =>
              match next_is "}" (skip_ws s') with
              | Some rest => Some (PyDict [], rest)
              | None =>
                  match object_pairs fuel' (skip_ws s') with
                  | Some (pairs, rest) => Some (PyDict (dict_of_pairs pairs), rest)
                  | None => None
                  end
              end
          | None =>
              match next_is "[" s with
              | Some s' =>
                  match next_is "]" (skip_ws s') with
                  | Some rest => Some (PyList [], rest)
                  | None =>
                      match array_items fuel' (skip_ws s') with
                      | Some (items, rest) => Some (PyList items, rest)
                      | None => None
                      end
                  end
              | None => scan_atom s
              end
          end
      end
  end

with array_items (fuel : nat) (s : string) : option (list pyval * string) :=
  match fuel with
  | O => None
  | S fuel' =>
      match scan_once fuel' s with
      | None => None
      | Some (v, rest) =>
          match next_is "]" (skip_ws rest) with
          | Some rest' => Some ([v], rest')
          | None =>
              match next_is "," (skip_ws rest) with
              | Some rest' =>
                  match array_items fuel' (skip_ws rest') with
                  | Some (vs, rest'') => Some (v :: vs, rest'')
                  | None => None
                  end
              | None => None
              end
          end
      end
  end

with object_pairs (fuel : nat) (s : string) : option (list (string * pyval) * string) :=
  match fuel with
  | O => None
  | S fuel' =>
      match next_is dquote s with
      | None => None
      | Some s1 =>
          match scanstring s1 with
          | None => None
          | Some (k, r) =>
              match next_is ":" (skip_ws r) with
              | None => None
              | Some r1 =>
                  match scan_once fuel' (skip_ws r1) with
                  | None => None
                  | Some (v, r2) =>
                      match next_is "}" (skip_ws r2) with
                      | Some r3 => Some ([(k, v)], r3)
                      | None =>
                          match next_is "," (skip_ws r2) with
                          | Some r3 =>
                              match object_pairs fuel' (skip_ws r3) with
                              | Some (ps, r4) => Some ((k, v) :: ps, r4)
                              | None => None
                              end
                          | None => None
                          end
                      end
                  end
              end
          end
      end
  end.

(** [json.loads]: leading blanks, one value, trailing blanks, end of text.
    No call of the decoder reads fewer than one character, so the length of
    the text bounds the fuel. *)
Definition loads (s : string) : result pyval :=
  match scan_once (S (String.length s)) (skip_ws s) with
  | Some (v, rest) =>
      match skip_ws rest with
      | EmptyString => Ok v
      | String _ _ => Raise JSONDecodeError
      end
  | None => Raise JSONDecodeError
  end.

(** The values of the store's value model: null, booleans, integers,
    strings, lists, and dicts with distinct string keys. *)
Fixpoint distinct (l : list string) : bool :=
  match l with
  | [] => true
  | x :: l' => (negb (existsb (String.eqb x) l') && distinct l')%bool
  end.

Fixpoint json_value (v : pyval) : bool :=
  match v with
  | PyNone | PyBool _ | PyInt _ | PyStr _ => true
  | PyList l => forallb json_value l
  | PyDict d => (distinct (map fst d) && forallb (fun kv => json_value (snd kv)) d)%bool
  | PyTuple _ | PyObject _ => false
  end.

(** A bound on the calls the decoder makes to read the text of [v] back. *)
Fixpoint size (v : pyval) : nat :=
  match v with
  | PyList l | PyTuple l => S (list_sum (map (fun x => S (size x)) l))
  | PyDict d => S (list_sum (map (fun kv => S (size (snd kv))) d))
  | _ => 1%nat
  end.

(** *** Notions the round trip is stated with *)

(** What may follow a value inside the text [dumps] writes: nothing, a
    comma, or a closing bracket. *)
Definition delimited (rest : string) : bool :=
  match rest with
  | EmptyString => true
  | String c _ => (Ascii.eqb c "," || Ascii.eqb c "]" || Ascii.eqb c "}")%bool
  end.

Definition number_start (c : ascii) : bool :=
  (Ascii.eqb c "-" || match digit_of_char c with Some _ => true | None => false end)%bool.

(** How the text of a value starts: not with a blank, not with a closing
    bracket. *)
Definition starts_value (s : string) : Prop :=
  skip_ws s = s /\ next_is "]" s = None /\ next_is "}" s = None.

(** The claim of the round trip for one value, as the induction carries it. *)
Definition reads_back (v : pyval) : Prop :=
  json_value v = true ->
  forall fuel rest, (size v <= fuel)%nat -> delimited rest = true ->
  scan_once fuel (text false v ++ rest) = Some (v, rest).

(** The items of a dict as [text] renders them. *)
Definition items_text (d : list (string * pyval)) : string :=
  join ", " (map render_item (map (fun kv => (fst kv, text false (snd kv))) d)).

End Json.

(* ------------------------------------------------------------------------- *)
(** ** [hashlib.sha1(text.encode()).hexdigest()] *)

Module Sha1.

(** [str.encode()]: UTF-8, one byte below 128 and two bytes from 128 to 255. *)
Fixpoint encode (s : string) : list Z :=
  match s with
  | EmptyString => []
  | String c s' =>
      let n := Z.of_nat (nat_of_ascii c) in
      if n <? 128 then n :: encode s'
      else Z.lor 192 (Z.shiftr n 6) :: Z.lor 128 (Z.land n 63) :: encode s'
  end.

Definition mask32 (x : Z) : Z := Z.land x 4294967295.
Definition add32 (a b : Z) : Z := mask32 (a + b).
Definition rotl (n x : Z) : Z := mask32 (Z.lor (Z.shiftl x n) (Z.shiftr x (32 - n))).
Definition not32 (x : Z) : Z := Z.lxor x 4294967295.

(** The big-endian bytes of [x], [n] of them. *)
Fixpoint be_bytes (n : nat) (x : Z) : list Z :=
  match n with
  | O => []
  | S n' => Z.land (Z.shiftr x (8 * Z.of_nat n')) 255 :: be_bytes n' x
  end.

(** The message, the byte 128, zero bytes up to 56 modulo 64, and the length
    in bits on eight bytes. *)
Definition pad (msg : list Z) : list Z :=
  let len := Z.of_nat (length msg) in
  let zeros := Z.to_nat ((55 - len) mod 64) in
  msg ++ 128 :: repeat 0 zeros ++ be_bytes 8 (8 * len).

Fixpoint words (bytes : list Z) : list Z :=
  match bytes with
  | a :: b :: c :: d :: rest =>
      Z.lor (Z.shiftl a 24) (Z.lor (Z.shiftl b 16) (Z.lor (Z.shiftl c 8) d)) :: words rest
  | _ => []
  end.

(** The message schedule, latest word first: [w] holds w[i-1], w[i-2], ... *)
Fixpoint schedule (n : nat) (w : list Z) : list Z :=
  match n with
  | O => w
  | S n' =>
      let x := Z.lxor (nth 2 w 0) (Z.lxor (nth 7 w 0) (Z.lxor (nth 13 w 0) (nth 15 w 0))) in
      schedule n' (rotl 1 x :: w)
  end.

Record state : Type := State { ha : Z; hb : Z; hc : Z; hd : Z; he : Z }.

Definition round (i : nat) (s : state) (w : Z) : state :=
  let '(State a b c d e) := s in
  let '(f, k) :=
    if Nat.ltb i 20 then (Z.lor (Z.land b c) (Z.land (not32 b) d), 1518500249)
    else if Nat.ltb i 40 then (Z.lxor b (Z.lxor c d), 1859775393)
    else if Nat.ltb i 60 then
      (Z.lor (Z.land b c) (Z.lor (Z.land b d) (Z.land c d)), 2400959708)
    else (Z.lxor b (Z.lxor c d), 3395469782) in
  State (add32 (add32 (add32 (add32 (rotl 5 a) f) e) k) w) a (rotl 30 b) c d.

Fixpoint rounds (i : nat) (s : state) (ws : list Z) : state :=
  match ws with
  | [] => s
  | w :: ws' => rounds (S i) (round i s w) ws'
  end.

Definition compress (h : state) (chunk : list Z) : state :=
  let ws := rev (schedule 64 (rev (words chunk))) in
  let '(State a b c d e) := rounds 0 h ws in
  State (add32 (ha h) a) (add32 (hb h) b) (add32 (hc h) c) (add32 (hd h) d)
        (add32 (he h) e).

Fixpoint chunks (n : nat) (h : state) (bytes : list Z) : state :=
  match n with
  | O => h
  | S n' => chunks n' (compress h (firstn 64 bytes)) (skipn 64 bytes)
  end.

Definition initial : state :=
  State 1732584193 4023233417 2562383102 271733878 3285377520.

Definition digest (msg : list Z) : list Z :=
  let bytes := pad msg in
  let '(State a b c d e) := chunks (Nat.div (length bytes) 64) initial bytes in
  be_bytes 4 a ++ be_bytes 4 b ++ be_bytes 4 c ++ be_bytes 4 d ++ be_bytes 4 e.

Fixpoint hex (bytes : list Z) : string :=
  match bytes with
  | [] => ""
  | b :: rest =>
      String (Json.hex_digit (Z.to_nat (Z.shiftr b 4)))
        (String (Json.hex_digit (Z.to_nat (Z.land b 15))) (hex rest))
  end.

Definition hexdigest (s : string) : string := hex (digest (encode s)).

End Sha1.

(* ------------------------------------------------------------------------- *)
(** ** The table [kv] and the SQL statements of [kv.py] *)

Module Sqlite.

(** One row of
    [CREATE TABLE kv (key TEXT PRIMARY KEY, value TEXT default '', ttl integer DEFAULT NULL)].
    [ttl = None] is SQL [NULL]. *)
Record row : Type := Row { key : string; value : string; ttl : option Z }.

(** The rows in the order a scan of the table meets them. *)
Definition table : Type := list row.

(** The database file as one connection sees it.  [writable] is false when
    sqlite3 cannot write the file (read-only, disk full, locked): every
    [INSERT] and [DELETE] then raises [OperationalError] and changes nothing.
    Every writing statement of [kv.py] is followed by [conn.commit()], so
    [rows] are the committed rows. *)
Record connection : Type := Connection { rows : table; writable : bool }.

(** A value bound to a [?] of a statement. *)
Inductive param : Type :=
| PText (s : string)
| PInteger (n : Z)
| PNull.

(** [ttl IS NULL OR ttl > ?]. *)
Definition live (now_seconds : Z) (r : row) : bool :=
  match ttl r with
  | None => true
  | Some t => now_seconds <? t
  end.

(** SQLite folds the case of the 26 ASCII letters when it compares with
    [LIKE]. *)
Definition lower (c : ascii) : ascii :=
  let n := nat_of_ascii c in
  if (Nat.leb 65 n && Nat.leb n 90)%bool then ascii_of_nat (n + 32) else c.

(** SQLite reads the pattern and the text of [LIKE] as C strings: each ends
    at its first NUL character. *)
Fixpoint c_str (s : string) : string :=
  match s with
  | EmptyString => EmptyString
  | String c s' => if Ascii.eqb c "000" then EmptyString else String c (c_str s')
  end.

(** The comparison of [LIKE], no [ESCAPE]: [%] stands for any run of
    characters, [_] for any one character, every other character for itself
    in either case. *)
Fixpoint like_chars (pattern text : string) : bool :=
  match pattern with
  | EmptyString =>
      match text with
      | EmptyString => true
      | String _ _ => false
      end
  | String p pattern' =>
      if Ascii.eqb p "%" then
        (fix any (t : string) : bool :=
           (like_chars pattern' t
            || match t with
               | EmptyString => false
               | String _ t' => any t'
               end)%bool) text
      else
        match text with
        | EmptyString => false
        | String c text' =>
            ((Ascii.eqb p "_" || Ascii.eqb (lower p) (lower c))
             && like_chars pattern' text')%bool
        end
  end.

(** [text LIKE pattern]. *)
Definition like (pattern text : string) : bool :=
  like_chars (c_str pattern) (c_str text).

(** SQLite refuses a [LIKE] pattern of more than 50000 bytes, its default
    [SQLITE_MAX_LIKE_PATTERN_LENGTH]; the pattern of [kv.py] is the beginning
    and [%], in UTF-8. *)
Definition pattern_fits (beginning : string) : bool :=
  Z.of_nat (length (Sha1.encode (beginning ++ "%"))) <=? 50000.

(** [key LIKE ? || '%']. *)
Definition key_like (beginning : string) (r : row) : bool :=
  like (beginning ++ "%") (key r).

(** [ORDER BY value]: rows with the smaller text first (the BINARY
    collation), rows with equal text in scan order. *)
Fixpoint insert_by_value (r : row) (l : list row) : list row :=
  match l with
  | [] => [r]
  | r' :: l' =>
      if String.leb (value r) (value r') then r :: l else r' :: insert_by_value r l'
  end.

Definition order_by_value (l : list row) : list row :=
  fold_right insert_by_value [] l.

(** [SELECT value FROM kv WHERE key = ? AND (ttl IS NULL OR ttl > ?)]. *)
Definition select_value (t : table) (k : string) (now_seconds : Z) : list string :=
  map value (filter (fun r => (String.eqb (key r) k && live now_seconds r)%bool) t).

(** [cursor.fetchone()]. *)
Definition fetchone {A : Type} (l : list A) : option A := hd_error l.

(** [SELECT key, value FROM kv WHERE key LIKE ? || '%' AND (ttl IS NULL OR ttl > ?) ORDER BY value]. *)
Definition select_like (t : table) (beginning : string) (now_seconds : Z)
  : list (string * string) :=
  map (fun r => (key r, value r))
      (order_by_value
         (filter (fun r => (key_like beginning r && live now_seconds r)%bool) t)).

(** One row of [INSERT OR REPLACE]: the row that holds the key, if any, is
    deleted and the new row is added at the end. *)
Definition replace_row (t : table) (r : row) : table :=
  (filter (fun r' => negb (String.eqb (key r') (key r))) t ++ [r])%list.

(** The rows a flat list of bindings fills, three bindings a row.  The
    interface of [KV] binds a text key, a text value and an integer or NULL
    ttl; other storage classes never reach the statement and the model binds
    none of them. *)
Fixpoint bind_rows (params : list param) : option (list row) :=
  match params with
  | [] => Some []
  | PText k :: PText v :: t :: params' =>
      match
        match t with
        | PInteger n => Some (Some n)
        | PNull => Some None
        | PText _ => None
        end, bind_rows params'
      with
      | Some t', Some rs => Some (Row k v t' :: rs)
      | _, _ => None
      end
  | _ => None
  end.

(** [INSERT OR REPLACE INTO kv (key, value, ttl) VALUES (?, ?, ?), ..., (?, ?, ?)]
    with [n] groups of placeholders, run as one statement: all rows or none.
    With no group the statement is not SQL; with a number of bindings other
    than three a group sqlite3 refuses them. *)
Definition insert_or_replace (c : connection) (n : nat) (params : list param)
  : result connection :=
  if Nat.eqb n 0 then Raise OperationalError
  else if negb (Nat.eqb (length params) (3 * n)) then Raise ProgrammingError
  else
    match bind_rows params with
    | None => Raise ProgrammingError
    | Some rs =>
        if writable c then Ok (Connection (fold_left replace_row rs (rows c)) true)
        else Raise OperationalError
    end.

(** SQLite gives a statement 999 host parameters by default, its
    [SQLITE_MAX_VARIABLE_NUMBER] (32766 from version 3.32 on): room for 333
    rows of three. *)
Definition parameters_fit (n : nat) : bool := Z.of_nat (3 * n) <=? 999.

(** [DELETE FROM kv WHERE key = ?]. *)
Definition delete_key (c : connection) (k : string) : result connection :=
  if writable c then
    Ok (Connection (filter (fun r => negb (String.eqb (key r) k)) (rows c)) true)
  else Raise OperationalError.

(** [DELETE FROM kv WHERE key like ? || '%']. *)
Definition delete_like (c : connection) (beginning : string) : result connection :=
  if writable c then
    Ok (Connection (filter (fun r => negb (key_like beginning r)) (rows c)) true)
  else Raise OperationalError.

End Sqlite.

(* ------------------------------------------------------------------------- *)
(** ** [datetime]: the wall clock [kv.py] computes its times on *)

Module Datetime.

(** [time.localtime], which the computations below take from the platform:
    the date and time the wall clock of the machine shows at a POSIX
    second, counted in seconds from 1970-01-01 00:00:00 on that clock. *)
Class Zone : Type := Build_Zone { localtime : Z -> Z }.

(** A naive [datetime]: the seconds and the microsecond of a wall-clock
    time, and [fold], which tells the second pass through a time the clock
    shows twice from the first. *)
Record datetime : Type := Build_datetime
  { seconds : Z;
    microsecond : Z;
    fold : bool }.

Definition max_fold_seconds : Z := 24 * 3600.

Section Platform.
Context {tz : Zone}.

(** [datetime.now()] when the system clock reads [clock] microseconds since
    the epoch: the wall-clock time, and the fold the probe a day back
    detects. *)
Definition now (clock : Z) : datetime :=
  let t := clock / 1000000 in
  let us := clock mod 1000000 in
  let result := localtime t in
  let probe1 := localtime (t - max_fold_seconds) in
  let trans := result - probe1 - max_fold_seconds in
  Build_datetime result us
    (if trans <? 0 then localtime (t + trans) =? result else false).

(** [d + timedelta(seconds=s)]: the sum is taken on the wall clock, and it
    is a new [datetime], whose [fold] is 0.  [datetime] holds the years 1 to
    9999; the sum is given for the times it holds. *)
Definition plus_seconds (d : datetime) (s : Z) : datetime :=
  Build_datetime (seconds d + s) (microsecond d) false.

(** [_mktime]: the POSIX second at which the wall clock shows [d]. *)
Definition _mktime (d : datetime) : Z :=
  let t := seconds d in
  let a := localtime t - t in
  let u1 := t - a in
  let t1 := localtime u1 in
  let other (b : Z) : Z :=
    let u2 := t - b in
    let t2 := localtime u2 in
    if t2 =? t then u2
    else if t1 =? t then u1
    else if fold d then Z.min u1 u2 else Z.max u1 u2 in
  if t1 =? t then
    let u2 := u1 + (if fold d then max_fold_seconds else - max_fold_seconds) in
    let b := localtime u2 - u2 in
    if a =? b then u1 else other b
  else other (t1 - u1).

(** [int(d.timestamp())]: [timestamp] is [_mktime() + microsecond / 1e6],
    and [int] drops the fraction.  The sum is taken as exact, which it is
    in a double up to 2^33 seconds, the year 2242. *)
Definition timestamp (d : datetime) : Z :=
  Z.quot (_mktime d * 1000000 + microsecond d) 1000000.

End Platform.

(** The clock readings, in microseconds, below 2^33 seconds. *)
Definition horizon : Z := 2 ^ 33 * 1000000.

(** A machine on UTC. *)
Definition utc : Zone := Build_Zone (fun u => u).

(** A machine whose clock is [offset] seconds ahead of UTC all year. *)
Definition fixed (offset : Z) : Zone := Build_Zone (fun u => u + offset).

(** [Europe/Berlin] in 2025: one hour ahead of UTC, two hours from
    2025-03-30 01:00:00 UTC until 2025-10-26 01:00:00 UTC. *)
Definition europe_berlin : Zone :=
  Build_Zone (fun u =>
    if ((1743296400 <=? u) && (u <? 1761440400))%bool then u + 7200 else u + 3600).

End Datetime.

(* ------------------------------------------------------------------------- *)
(** ** class [KV] *)

Module KVStore.
Import Sqlite.

Section Zoned.
Context {tz : Datetime.Zone}.

(** The fields of a [KV] object: [self.conn] (with its cursor),
    [self.cache_values] and [self.cache_row_count]. *)
Record KV : Type := Build_KV
  { conn : connection;
    cache_values : list param;
    cache_row_count : nat }.

(** A method call: the result or the exception, and the object afterwards. *)
Definition method (A : Type) : Type := KV -> result A * KV.

(** [int(datetime.now().timestamp())], when the system clock reads [t]
    microseconds since the epoch. *)
Definition timestamp (t : Z) : Z := Datetime.timestamp (Datetime.now t).

(** [int((datetime.now() + timedelta(seconds=ttl_seconds)).timestamp())]:
    the TTL is added on the wall clock. *)
Definition expiry (now ttl_seconds : Z) : Z :=
  Datetime.timestamp (Datetime.plus_seconds (Datetime.now now) ttl_seconds).

(** [KV()] on the database file [db]. *)
Definition __init__ (db : connection) : KV := Build_KV db [] 0%nat.

Definition _encode_value (v : pyval) : result string :=
  Json.dumps false (PyDict [("value", v)]).

Definition _decode_value (s : string) : result pyval :=
  v <- Json.loads s ;;
  match v with
  | PyDict d => Ok (dict_get d "value" PyNone)
  | _ => Raise AttributeError
  end.

Definition put (now : Z) (k : string) (v : pyval) (ttl_seconds : option Z) : method unit :=
  fun self =>
    let t :=
      if truthy_int ttl_seconds then
        match ttl_seconds with
        | Some s => Some (expiry now s)
        | None => None
        end
      else None in
    match _encode_value v with
    | Raise e => (Raise e, self)
    | Ok encoded =>
        let bound := [PText k; PText encoded;
                      match t with Some n => PInteger n | None => PNull end] in
        match insert_or_replace (conn self) 1 bound with
        | Raise e => (Raise e, self)
        | Ok c => (Ok tt, Build_KV c (cache_values self) (cache_row_count self))
        end
    end.

Definition get (now : Z) (k : string) (default : pyval) (save_default_if_not_set : bool)
  : method pyval :=
  fun self =>
    let now_seconds := timestamp now in
    let result := fetchone (select_value (rows (conn self)) k now_seconds) in
    if negb (truthy_str result) then
      if save_default_if_not_set then
        match put now k default None self with
        | (Raise e, self') => (Raise e, self')
        | (Ok _, self') => (Ok default, self')
        end
      else (Ok default, self)
    else
      match result with
      | Some encoded => (_decode_value encoded, self)
      | None => (Ok default, self)
      end.

(** [[(x[0], self._decode_value(x[1])) for x in result]]. *)
Fixpoint decode_rows (l : list (string * string)) : result (list (string * pyval)) :=
  match l with
  | [] => Ok []
  | (k, encoded) :: l' =>
      v <- _decode_value encoded ;;
      rest <- decode_rows l' ;;
      Ok ((k, v) :: rest)
  end.

Definition get_partial (now : Z) (beginning : string) : method (list (string * pyval)) :=
  fun self =>
    let now_seconds := timestamp now in
    (decode_rows (select_like (rows (conn self)) beginning now_seconds), self).

Definition delete (k : string) : method unit :=
  fun self =>
    match delete_key (conn self) k with
    | Raise e => (Raise e, self)
    | Ok c => (Ok tt, Build_KV c (cache_values self) (cache_row_count self))
    end.

Definition delete_partial (beginning : string) : method unit :=
  fun self =>
    match delete_like (conn self) beginning with
    | Raise e => (Raise e, self)
    | Ok c => (Ok tt, Build_KV c (cache_values self) (cache_row_count self))
    end.

(** [close()] commits and releases the connection: what is left is the
    database file. *)
Definition close (self : KV) : connection := conn self.

Definition put_cached (now : Z) (k : string) (v : pyval) (ttl_seconds : option Z)
  : method unit :=
  fun self =>
    let t :=
      if truthy_int ttl_seconds then
        match ttl_seconds with
        | Some s => Some (expiry now s)
        | None => None
        end
      else None in
    match _encode_value v with
    | Raise e => (Raise e, self)
    | Ok encoded =>
        (Ok tt,
         Build_KV (conn self)
           (cache_values self
              ++ [PText k; PText encoded;
                  match t with Some n => PInteger n | None => PNull end])%list
           (cache_row_count self + 1))
    end.

Definition commit_cached : method unit :=
  fun self =>
    match cache_values self with
    | [] => (Ok tt, self)
    | _ :: _ =>
        match insert_or_replace (conn self) (cache_row_count self) (cache_values self) with
        | Raise e => (Raise e, self)
        | Ok c => (Ok tt, Build_KV c [] 0%nat)
        end
    end.

(** *** States the methods keep *)

(** A text [_decode_value] reads without raising. *)
Definition decodable (encoded : string) : bool :=
  match _decode_value encoded with
  | Ok _ => true
  | Raise _ => false
  end.

Definition table_ok (t : table) : bool :=
  forallb (fun r => decodable (value r)) t.

(** The buffer holds whole rows, as many as [cache_row_count] says, each with
    a readable value. *)
Definition buffer_ok (self : KV) : bool :=
  match bind_rows (cache_values self) with
  | Some rs => (Nat.eqb (length rs) (cache_row_count self) && table_ok rs)%bool
  | None => false
  end.

Definition kv_ok (self : KV) : bool :=
  (table_ok (rows (conn self)) && buffer_ok self)%bool.

(** The [ttl] column [put] and [put_cached] compute. *)
Definition ttl_column (now : Z) (ttl_seconds : option Z) : option Z :=
  match ttl_seconds with
  | Some s => if s =? 0 then None else Some (expiry now s)
  | None => None
  end.

(** The row [put] and [put_cached] make of a key, a value and an expiry. *)
Definition stored (k : string) (v : pyval) (t : option Z) : row :=
  Row k (Json.text false (PyDict [("value", v)])) t.

End Zoned.

End KVStore.

(* ------------------------------------------------------------------------- *)
(** ** [memoize.py] *)

Module Memoize.
Import Sqlite KVStore.

Section Zoned.
Context {tz : Datetime.Zone}.

(** A Python function: the two names its cache key is made of, and what it
    computes from its positional and keyword arguments. *)
Record pyfunc : Type := Build_pyfunc
  { __module__ : string;
    __name__ : string;
    call : list pyval -> list (string * pyval) -> result pyval }.

Definition hash_function_name (func : pyfunc) : string :=
  let function_name := __module__ func ++ "." ++ __name__ func in
  Sha1.hexdigest function_name.

Definition hash_function_args (args : list pyval) (kwargs : list (string * pyval))
  : result string :=
  a <- Json.dumps true (PyTuple args) ;;
  k <- Json.dumps true (PyDict kwargs) ;;
  Ok (Sha1.hexdigest (a ++ "-" ++ k)).

Definition memo_key (hashed_function_name hashed_encoded_args : string) : string :=
  "memoize." ++ hashed_function_name ++ "." ++ hashed_encoded_args.

(** What a call of the wrapper can change: the database file, and the record
    of the calls of the wrapped function, oldest first. *)
Record world : Type := Build_world
  { db : connection;
    calls : list (list pyval * list (string * pyval)) }.

Definition is_none (v : pyval) : bool :=
  match v with
  | PyNone => true
  | _ => false
  end.

(** The [wrapper] that [memoize(ttl_seconds)(func)] returns, called with
    [args] and [kwargs].  The clock is read once
    by [kv.get] ([now_get]) and once by [kv.put] ([now_put]); leaving the
    [with] block closes the store on every path. *)
Definition wrapper (ttl_seconds : Z) (func : pyfunc) (now_get now_put : Z)
    (args : list pyval) (kwargs : list (string * pyval)) (w : world)
  : result pyval * world :=
  let hashed_function_name := hash_function_name func in
  match hash_function_args args kwargs with
  | Raise e => (Raise e, w)
  | Ok hashed_encoded_args =>
      let kv := __init__ (db w) in
      let k := memo_key hashed_function_name hashed_encoded_args in
      match get now_get k PyNone false kv with
      | (Raise e, kv1) => (Raise e, Build_world (close kv1) (calls w))
      | (Ok response, kv1) =>
          if negb (is_none response) then (Ok response, Build_world (close kv1) (calls w))
          else
            let called := (calls w ++ [(args, kwargs)])%list in
            match call func args kwargs with
            | Raise e => (Raise e, Build_world (close kv1) called)
            | Ok result =>
                match put now_put k result (Some ttl_seconds) kv1 with
                | (Raise e, kv2) => (Raise e, Build_world (close kv2) called)
                | (Ok _, kv2) => (Ok result, Build_world (close kv2) called)
                end
            end
      end
  end.

Definition delete_memoized (function : pyfunc) (w : world) : result unit * world :=
  let hashed_function_name := hash_function_name function in
  let kv := __init__ (db w) in
  match delete_partial ("memoize." ++ hashed_function_name) kv with
  | (Raise e, kv1) => (Raise e, Build_world (close kv1) (calls w))
  | (Ok _, kv1) => (Ok tt, Build_world (close kv1) (calls w))
  end.

End Zoned.

End Memoize.

(* ------------------------------------------------------------------------- *)
(** ** Sequences of calls on one [KV] object *)

Module Session.
Import Json Sqlite KVStore.

Section Zoned.
Context {tz : Datetime.Zone}.

(** What [json] makes of a value on the way to the store and back: a tuple
    is written as an array and read as a list. *)
Fixpoint jsonify (v : pyval) : pyval :=
  match v with
  | PyList l | PyTuple l => PyList (map jsonify l)
  | PyDict d => PyDict (map (fun kv => (fst kv, jsonify (snd kv))) d)
  | _ => v
  end.

(** In a Python dict no key comes twice, at any depth of a value. *)
Fixpoint python_value (v : pyval) : bool :=
  match v with
  | PyList l | PyTuple l => forallb python_value l
  | PyDict d => (distinct (map fst d) && forallb (fun kv => python_value (snd kv)) d)%bool
  | _ => true
  end.

(** The integers [str] writes and [int] reads: those of at most 4300
    digits, the default of [sys.set_int_max_str_digits]. *)
Fixpoint digits_fit (v : pyval) : bool :=
  match v with
  | PyInt n => Z.abs n <? 10 ^ 4300
  | PyList l | PyTuple l => forallb digits_fit l
  | PyDict d => forallb (fun kv => digits_fit (snd kv)) d
  | _ => true
  end.

(** The values of the model [json.dumps] accepts. *)
Definition storable (v : pyval) : bool := (python_value v && serializable v)%bool.

(** One call of a method of [KV], with its arguments and the reading of the
    clock. *)
Inductive kv_call : Type :=
| Put (now : Z) (k : string) (v : pyval) (ttl_seconds : option Z)
| Get (now : Z) (k : string) (default : pyval) (save_default_if_not_set : bool)
| GetPartial (now : Z) (beginning : string)
| Delete (k : string)
| DeletePartial (beginning : string)
| PutCached (now : Z) (k : string) (v : pyval) (ttl_seconds : option Z)
| CommitCached.

(** The object after the call, whether it returned or raised. *)
Definition after (self : KV) (c : kv_call) : KV :=
  match c with
  | Put now k v ttl_seconds => snd (put now k v ttl_seconds self)
  | Get now k default save => snd (get now k default save self)
  | GetPartial now beginning => snd (get_partial now beginning self)
  | Delete k => snd (delete k self)
  | DeletePartial beginning => snd (delete_partial beginning self)
  | PutCached now k v ttl_seconds => snd (put_cached now k v ttl_seconds self)
  | CommitCached => snd (commit_cached self)
  end.

Definition after_all (self : KV) (calls : list kv_call) : KV := fold_left after calls self.

(** The values a call hands to the store are Python values. *)
Definition call_ok (c : kv_call) : bool :=
  match c with
  | Put _ _ v _ | PutCached _ _ v _ => python_value v
  | Get _ _ default _ => python_value default
  | _ => true
  end.

(** The row [put_cached(k, v)] buffers. *)
Definition row_of (kv : string * pyval) : row := stored (fst kv) (snd kv) None.

(** [for k, v in items: kv.put_cached(k, v)]. *)
Definition put_all_cached (now : Z) (items : list (string * pyval)) (self : KV) : KV :=
  fold_left (fun s kv => snd (put_cached now (fst kv) (snd kv) None s)) items self.

End Zoned.

End Session.

(* ------------------------------------------------------------------------- *)
(** ** Keys without wildcards *)

Module Plain.

(** A character [LIKE] takes for itself and nothing else: no wildcard, no
    upper-case letter, not the NUL that ends the text. *)
Definition plain_char (c : ascii) : bool :=
  (negb (Ascii.eqb c "%") && negb (Ascii.eqb c "_") && Ascii.eqb (Sqlite.lower c) c
   && negb (Ascii.eqb c "000"))%bool.

Fixpoint plain (s : string) : bool :=
  match s with
  | EmptyString => true
  | String c s' => (plain_char c && plain s')%bool
  end.

End Plain.

(* ------------------------------------------------------------------------- *)
(** ** [crash.py] *)

Module Crash.
Import Sqlite KVStore.

Section Zoned.
Context {tz : Datetime.Zone}.

(** Truth value of a Python value, and [a or b]. *)
Definition truthy (v : pyval) : bool := negb (falsy v).

Definition py_or (a b : pyval) : pyval := if truthy a then a else b.

(** [set_crash_report(enabled)], on the database file. *)
Definition set_crash_report (now : Z) (enabled : bool) (db : connection)
  : result unit * connection :=
  let kv := __init__ db in
  match put now "crash.enabled" (PyBool enabled) None kv with
  | (r, kv') => (r, close kv')
  end.

(** [get_crash_report()]: [kv.get("crash.enabled", False, True) or False]. *)
Definition get_crash_report (now : Z) (db : connection) : result pyval * connection :=
  let kv := __init__ db in
  match get now "crash.enabled" (PyBool false) true kv with
  | (Ok v, kv') => (Ok (py_or v (PyBool false)), close kv')
  | (Raise e, kv') => (Raise e, close kv')
  end.

(** What a decorated function can change: the database file, and the
    reports posted so far, each with the URL it went to. *)
Record app : Type := Build_app
  { db : connection;
    posted : list (string * string) }.

(** What leaves the wrapper when it raises: an exception of the function or
    of the store, or the [AssertionError] of [assert CRASH_REPORT_URL_]. *)
Inductive raised : Type :=
| Exception (e : exn)
| AssertionError.

(** The wrapper [crash_reporter(func)] returns.  [CRASH_REPORT_URL_] is the
    name this module binds with [from . import CRASH_REPORT_URL_];
    [format_exc] is [traceback.format_exc()] for the exception being
    handled.  [http.post] catches what its request raises
    and the wrapper drops the response, so a post is the report sent. *)
Definition crash_reporter (CRASH_REPORT_URL_ : option string) (format_exc : exn -> string)
    (func : app -> result pyval * app) (now : Z) (a : app)
  : (pyval + raised) * app :=
  match func a with
  | (Ok v, a') => (inl v, a')
  | (Raise e, a') =>
      match get_crash_report now (db a') with
      | (Raise e', db') => (inr (Exception e'), Build_app db' (posted a'))
      | (Ok enabled, db') =>
          if truthy enabled then
            match CRASH_REPORT_URL_ with
            | Some (String c url) =>
                (inr (Exception e),
                 Build_app db' (posted a' ++ [(String c url, format_exc e)])%list)
            | _ => (inr AssertionError, Build_app db' (posted a'))
            end
          else (inr (Exception e), Build_app db' (posted a'))
      end
  end.

End Zoned.

End Crash.

(* ------------------------------------------------------------------------- *)
(** ** [main.py] and [bitwarden_client.py]: the callers of the store *)

Module Main.
Import Sqlite KVStore Crash.

Section Zoned.
Context {tz : Datetime.Zone}.

(** [BitwardenClientResponse] of [bitwarden_client.py]. *)
Record BitwardenClientResponse : Type := Build_BitwardenClientResponse
  { success : bool;
    data : string }.

(** What leaves [setup_bw] when it raises: an exception of the store, or its
    own [Exception] with the message. *)
Inductive setup_error : Type :=
| StoreError (e : exn)
| SetupFailed (message : string).

Definition str_of_bool (b : bool) : string := if b then "True" else "False".

Section Client.

(** The [bw] command line client: its state, and [run_bw(args)], which gives
    the output of the command or raises, and then [traceback.format_exc()]
    is the text on the left. *)
Variable cli : Type.
Variable run_bw : list string -> cli -> (string + string) * cli.

Definition bitwarden_setup (c : cli) : BitwardenClientResponse * cli :=
  match run_bw ["help"] c with
  | (inr _, c') => (Build_BitwardenClientResponse true "", c')
  | (inl traceback, c') => (Build_BitwardenClientResponse false traceback, c')
  end.

(** [setup_bw()]: [kv.put] returns [None], so [setup_done] is
    [None or False]. *)
Definition setup_bw (now_first now_second : Z) (db : connection) (c : cli)
  : (unit + setup_error) * connection * cli :=
  let kv := __init__ db in
  match put now_first "sealed.setup_done" (PyBool false) None kv with
  | (Raise e, kv') => (inr (StoreError e), close kv', c)
  | (Ok _, kv') =>
      let setup_done := py_or PyNone (PyBool false) in
      if negb (truthy setup_done) then
        match bitwarden_setup c with
        | (setup, c') =>
            if negb (success setup) then
              (inr (SetupFailed ("failed to setup (" ++ str_of_bool (success setup)
                                 ++ ") bitwarden with error: " ++ data setup)),
               close kv', c')
            else
              match put now_second "sealed.setup_done" (PyBool true) None kv' with
              | (Raise e, kv'') => (inr (StoreError e), close kv'', c')
              | (Ok _, kv'') => (inl tt, close kv'', c')
              end
        end
      else (inl tt, close kv', c)
  end.

End Client.

(** [cleanup()], decorated with [crash_reporter]. *)
Definition cleanup (CRASH_REPORT_URL_ : option string) (format_exc : exn -> string)
  : Z -> app -> (pyval + raised) * app :=
  crash_reporter CRASH_REPORT_URL_ format_exc
    (fun a =>
       let kv := __init__ (db a) in
       match delete_partial "bw" kv with
       | (Raise e, kv') => (Raise e, Build_app (close kv') (posted a))
       | (Ok _, kv') => (Ok PyNone, Build_app (close kv') (posted a))
       end).

End Zoned.

End Main.

(* ------------------------------------------------------------------------- *)
(** ** [ut_components/__init__.py] and the names its modules import *)

Module Package.

Section Zoned.
Context {tz : Datetime.Zone}.

(** The two globals of the package. *)
Record globals : Type := Build_globals
  { APP_NAME_ : option string;
    CRASH_REPORT_URL_ : option string }.

(** [APP_NAME_ = None] and [CRASH_REPORT_URL_ = None]. *)
Definition unset : globals := Build_globals None None.

(** [setup(app_name, crash_report_url)] rebinds both globals. *)
Definition setup (app_name : string) (crash_report_url : option string) (g : globals)
  : globals :=
  Build_globals (Some app_name) crash_report_url.

(** The interpreter: the namespace of the package, and for [crash.py] and
    [config.py], once they have been imported, the value the name they
    import from the package was bound to.  A module is run on its first
    import only. *)
Record interpreter : Type := Build_interpreter
  { package : globals;
    crash_module : option (option string);
    config_module : option (option string) }.

(** After [import src.ut_components]. *)
Definition python : interpreter := Build_interpreter unset None None.

(** [config.py]: [from . import APP_NAME_]. *)
Definition import_config (i : interpreter) : interpreter :=
  match config_module i with
  | Some _ => i
  | None => Build_interpreter (package i) (crash_module i) (Some (APP_NAME_ (package i)))
  end.

(** [crash.py]: [from . import CRASH_REPORT_URL_, http], then
    [from .kv import KV], and [kv.py] imports [config.py]. *)
Definition import_crash (i : interpreter) : interpreter :=
  match crash_module i with
  | Some _ => i
  | None =>
      import_config
        (Build_interpreter (package i) (Some (CRASH_REPORT_URL_ (package i)))
           (config_module i))
  end.

(** What a program does with the package before it uses it. *)
Inductive statement : Type :=
| Setup (app_name : string) (crash_report_url : option string)
| ImportCrash
| ImportConfig.

Definition execute (i : interpreter) (s : statement) : interpreter :=
  match s with
  | Setup app_name crash_report_url =>
      Build_interpreter (setup app_name crash_report_url (package i))
        (crash_module i) (config_module i)
  | ImportCrash => import_crash i
  | ImportConfig => import_config i
  end.

Definition run (program : list statement) (i : interpreter) : interpreter :=
  fold_left execute program i.

Definition imports_crash (s : statement) : bool :=
  match s with
  | ImportCrash => true
  | _ => false
  end.

Definition calls_setup (s : statement) : bool :=
  match s with
  | Setup _ _ => true
  | _ => false
  end.

(** [KV()] asks [get_config_path] for its folder, which asserts the
    [APP_NAME_] that [config.py] bound. *)
Definition opens (i : interpreter) : bool :=
  match config_module i with
  | Some (Some (String _ _)) => true
  | _ => false
  end.

(** [crash_reporter] as a program finds it in [crash.py], once imported.
    Where [KV()] cannot open, [get_crash_report] raises the
    [AssertionError] of [get_config_path] in the handler, before anything
    is read. *)
Definition crash_reporter (i : interpreter) (format_exc : exn -> string)
    (func : Crash.app -> result pyval * Crash.app) (now : Z) (a : Crash.app)
  : option ((pyval + Crash.raised) * Crash.app) :=
  match crash_module i with
  | Some url =>
      if opens i then Some (Crash.crash_reporter url format_exc func now a)
      else
        match func a with
        | (Ok v, a') => Some (inl v, a')
        | (Raise _, a') => Some (inr Crash.AssertionError, a')
        end
  | None => None
  end.

End Zoned.

End Package.

(* ------------------------------------------------------------------------- *)
(** ** Stores and functions the examples run on *)

Import Json Sqlite KVStore Memoize.

(** The examples run on a machine on UTC. *)
#[global] Existing Instance Datetime.utc.

(** The text [{"value": null}], as [json.dumps] writes it. *)
Definition wrapped_null : string :=
  "{" ++ String dquote "value" ++ String dquote ": null}".

(** A function whose result is a Python object [json] cannot encode. *)
Definition returns_object : pyfunc :=
  Build_pyfunc "app" "make_session" (fun _ _ => Ok (PyObject 0)).

Definition empty_world : world := Build_world (Connection [] true) [].

(** A function that returns its positional arguments, and one that returns
    [None]. *)
Definition echo : pyfunc := Build_pyfunc "app" "echo" (fun args _ => Ok (PyList args)).

Definition returns_none : pyfunc := Build_pyfunc "app" "notify" (fun _ _ => Ok PyNone).

(** A store with two rows waiting in the buffer. *)
Definition two_buffered : KV :=
  snd (put_cached 0 "user:2" (PyInt 2) None
         (snd (put_cached 0 "user:1" (PyInt 1) None (__init__ (Connection [] true))))).

(** A store with the keys user:1 and user:2. *)
Definition two_users : KV :=
  snd (put 0 "user:2" (PyStr "Bob") None
         (snd (put 0 "user:1" (PyStr "Alice") None (__init__ (Connection [] true))))).

(** The world after one memoized call of [echo]. *)
Definition cached_world : world :=
  snd (wrapper 60 echo 0 0 [PyInt 1] [] empty_world).

(** A store with the keys user_1, users1 and USER_2. *)
Definition users : KV :=
  snd (put 0 "USER_2" (PyInt 3) None
         (snd (put 0 "users1" (PyInt 2) None
                 (snd (put 0 "user_1" (PyInt 1) None (__init__ (Connection [] true))))))).

(** A session that writes, buffers, overwrites, fails to encode a value,
    deletes and commits. *)
Definition busy_session : list Session.kv_call :=
  [Session.Put 0 "a" (PyInt 1) None;
   Session.PutCached 0 "b" (PyTuple [PyInt 1; PyInt 2]) (Some 60);
   Session.Put 1 "a" (PyStr "x") (Some 5);
   Session.Put 2 "c" (PyObject 0) None;
   Session.Get 3 "d" (PyBool false) true;
   Session.PutCached 4 "a" PyNone None;
   Session.DeletePartial "c";
   Session.CommitCached;
   Session.Delete "d";
   Session.GetPartial 5 ""].

(** A store with a row that was inserted without a value: its text is the
    default of the column, the empty text. *)
Definition blank_row_store : KV :=
  __init__ (Connection [Row "config.theme" "" None] true).

(** A function that raises, and one that returns its arguments as a tuple. *)
Definition fails : pyfunc := Build_pyfunc "app" "fails" (fun _ _ => Raise AttributeError).

Definition pair : pyfunc := Build_pyfunc "app" "pair" (fun args _ => Ok (PyTuple args)).

(** A user who switched crash reports on, logged in and chose a server
    afterwards. *)
Definition consenting_user : Crash.app :=
  Crash.Build_app
    (Connection [stored "crash.enabled" (PyBool true) None;
                 stored "bw.session_code" (PyStr "c2Vzc2lvbg") None;
                 stored "config.server_url" (PyStr "vault.example.org") None] true) [].

(** A client whose [bw] binary is missing, counting the commands it was
    asked to run, and a store that says the set-up was done. *)
Definition missing_client (args : list string) (runs : nat) : (string + string) * nat :=
  (inl "Traceback: bw not found", S runs).

Definition set_up_store : connection :=
  Connection [stored "sealed.setup_done" (PyBool true) None] true.

(** An application that is logged in, with its settings. *)
Definition logged_in : Crash.app :=
  Crash.Build_app
    (Connection [stored "bw.session_code" (PyStr "c2Vzc2lvbg") None;
                 stored "config.server_url" (PyStr "vault.example.org") None;
                 stored "crash.enabled" (PyBool true) None] true) [].
(* ------------------------------------------------------------------------- *)
(** ** [json.loads] reads back what [json.dumps] wrote *)

Module JsonFacts.
Import Json.

Lemma append_assoc (a b c : string) : (a ++ b) ++ c = a ++ (b ++ c).
Proof. induction a as [|x a IH]; simpl; [reflexivity | now rewrite IH]. Qed.

Lemma append_empty (a : string) : a ++ "" = a.
Proof. induction a as [|x a IH]; simpl; [reflexivity | now rewrite IH]. Qed.

(** *** Strings *)

Lemma scanstring_escape_char (c : ascii) (tail : string) :
  scanstring (escape_char c ++ tail) = cons_char c (scanstring tail).
Proof.
  destruct c as [[] [] [] [] [] [] [] []]; reflexivity.
Qed.

Lemma scanstring_escape (s rest : string) :
  scanstring (escape s ++ String dquote rest) = Some (s, rest).
Proof.
  induction s as [|c s IH]; simpl.
  - reflexivity.
  - rewrite append_assoc, scanstring_escape_char, IH. reflexivity.
Qed.

Lemma scan_once_quote (fuel : nat) (s rest : string) :
  scan_once (S fuel) (quote s ++ rest) = Some (PyStr s, rest).
Proof.
  unfold quote. cbn [append scan_once next_is].
  change (Ascii.eqb dquote dquote) with true. cbv iota.
  now rewrite append_assoc; cbn [append]; rewrite scanstring_escape.
Qed.

(** *** Numbers *)

Lemma delimited_no_digit (c : ascii) (r : string) :
  delimited (String c r) = true -> digit_of_char c = None.
Proof.
  destruct c as [[] [] [] [] [] [] [] []]; simpl; intro H;
    solve [discriminate H | reflexivity].
Qed.

Lemma delimited_no_float (rest : string) :
  delimited rest = true -> starts_float_part rest = false.
Proof.
  destruct rest as [|c r]; [reflexivity|].
  destruct c as [[] [] [] [] [] [] [] []]; simpl; intro H;
    solve [discriminate H | reflexivity].
Qed.

Lemma delimited_skip_ws (rest : string) :
  delimited rest = true -> skip_ws rest = rest.
Proof.
  destruct rest as [|c r]; [reflexivity|].
  destruct c as [[] [] [] [] [] [] [] []]; simpl; intro H;
    solve [discriminate H | reflexivity].
Qed.

Lemma scan_digits_uint (d : Decimal.uint) (rest : string) :
  delimited rest = true ->
  scan_digits (NilEmpty.string_of_uint d ++ rest) = (d, rest).
Proof.
  intro H.
  induction d; cbn [NilEmpty.string_of_uint append scan_digits];
    try (change (digit_of_char _) with (Some Decimal.D0) ||
         change (digit_of_char _) with (Some Decimal.D1) ||
         change (digit_of_char _) with (Some Decimal.D2) ||
         change (digit_of_char _) with (Some Decimal.D3) ||
         change (digit_of_char _) with (Some Decimal.D4) ||
         change (digit_of_char _) with (Some Decimal.D5) ||
         change (digit_of_char _) with (Some Decimal.D6) ||
         change (digit_of_char _) with (Some Decimal.D7) ||
         change (digit_of_char _) with (Some Decimal.D8) ||
         change (digit_of_char _) with (Some Decimal.D9));
    cbv iota beta; try (rewrite IHd; reflexivity).
  destruct rest as [|c r]; [reflexivity|].
  cbn [scan_digits]. now rewrite (delimited_no_digit c r H).
Qed.

Lemma to_uint_head (p : positive) :
  Pos.to_uint p <> Decimal.Nil /\ forall d, Pos.to_uint p <> Decimal.D0 d.
Proof.
  split; [apply Unsigned.to_uint_nonnil|].
  intros d E.
  assert (U : Decimal.unorm (Pos.to_uint p) = Pos.to_uint p).
  { rewrite <- DecimalPos.Unsigned.to_of, DecimalPos.Unsigned.of_to. reflexivity. }
  destruct (Decimal.uint_eq_dec (Decimal.nzhead (Pos.to_uint p)) Decimal.Nil) as [N|N].
  - apply DecimalFacts.unorm_0 in N. rewrite U in N.
    exact (Unsigned.to_uint_nonzero p N).
  - rewrite (DecimalFacts.unorm_nzhead _ N) in U.
    rewrite E in U at 2. exact (DecimalFacts.nzhead_nonzero _ _ U).
Qed.

Lemma scan_magnitude_uint (d : Decimal.uint) (rest : string) :
  d <> Decimal.Nil -> (forall d', d <> Decimal.D0 d') ->
  delimited rest = true ->
  scan_magnitude (NilEmpty.string_of_uint d ++ rest) = (d, rest).
Proof.
  intros Hnil Hzero Hrest.
  destruct d; try (now elim Hnil); try (now elim (Hzero _ eq_refl));
    exact (scan_digits_uint _ rest Hrest).
Qed.

Lemma next_is_minus_uint (d : Decimal.uint) (rest : string) :
  d <> Decimal.Nil -> next_is "-" (NilEmpty.string_of_uint d ++ rest) = None.
Proof. destruct d; intro H; try reflexivity; now elim H. Qed.

Lemma scan_number_uint (d : Decimal.uint) (rest : string) (negative : bool) :
  d <> Decimal.Nil -> (forall d', d <> Decimal.D0 d') ->
  delimited rest = true ->
  scan_number ((if negative then "-" else "") ++ NilEmpty.string_of_uint d ++ rest)
  = Some (PyInt (Z.of_int (if negative then Decimal.Neg d else Decimal.Pos d)), rest).
Proof.
  intros Hnil Hzero Hrest. unfold scan_number.
  destruct negative; cbn [append next_is].
  - change (Ascii.eqb "-" "-") with true. cbv iota.
    rewrite (scan_magnitude_uint d rest Hnil Hzero Hrest).
    rewrite (delimited_no_float rest Hrest).
    destruct d; try reflexivity; now elim Hnil.
  - rewrite (next_is_minus_uint d rest Hnil).
    rewrite (scan_magnitude_uint d rest Hnil Hzero Hrest).
    rewrite (delimited_no_float rest Hrest).
    destruct d; try reflexivity; now elim Hnil.
Qed.

Lemma scan_number_int (n : Z) (rest : string) :
  delimited rest = true ->
  scan_number (str_of_int n ++ rest) = Some (PyInt n, rest).
Proof.
  intro Hrest. unfold str_of_int.
  rewrite <- (DecimalZ.of_to n) at 2.
  destruct n as [|p|p]; cbn [Z.to_int NilZero.string_of_int].
  - cbn. now rewrite (delimited_no_float rest Hrest).
  - destruct (to_uint_head p) as [Hnil Hzero].
    replace (NilZero.string_of_uint (Pos.to_uint p))
      with (NilEmpty.string_of_uint (Pos.to_uint p))
      by (destruct (Pos.to_uint p); try reflexivity; now elim Hnil).
    exact (scan_number_uint _ rest false Hnil Hzero Hrest).
  - destruct (to_uint_head p) as [Hnil Hzero].
    replace (NilZero.string_of_uint (Pos.to_uint p))
      with (NilEmpty.string_of_uint (Pos.to_uint p))
      by (destruct (Pos.to_uint p); try reflexivity; now elim Hnil).
    exact (scan_number_uint _ rest true Hnil Hzero Hrest).
Qed.

Lemma str_of_int_head (n : Z) :
  exists c tl, str_of_int n = String c tl /\ number_start c = true.
Proof.
  unfold str_of_int. destruct n as [|p|p]; cbn [Z.to_int NilZero.string_of_int].
  - now exists "0"%char, "".
  - destruct (to_uint_head p) as [Hnil _].
    destruct (Pos.to_uint p); try (now elim Hnil); cbn; eexists _, _; split; reflexivity.
  - eexists _, _; split; reflexivity.
Qed.

Lemma scan_once_number_start (fuel : nat) (c : ascii) (tl : string) :
  number_start c = true ->
  scan_once (S fuel) (String c tl) = scan_number (String c tl).
Proof.
  destruct c as [[] [] [] [] [] [] [] []]; intro H;
    solve [discriminate H | reflexivity].
Qed.

Lemma scan_once_int (fuel : nat) (n : Z) (rest : string) :
  delimited rest = true ->
  scan_once (S fuel) (str_of_int n ++ rest) = Some (PyInt n, rest).
Proof.
  intro Hrest. rewrite <- (scan_number_int n rest Hrest).
  destruct (str_of_int_head n) as (c & tl & -> & Hc).
  exact (scan_once_number_start fuel c (tl ++ rest) Hc).
Qed.

(** *** Values *)

Lemma next_is_same (c : ascii) (s : string) : next_is c (String c s) = Some s.
Proof. cbn [next_is]. now rewrite Ascii.eqb_refl. Qed.

Lemma next_is_other (c c' : ascii) (s : string) :
  Ascii.eqb c' c = false -> next_is c (String c' s) = None.
Proof. intro H. cbn [next_is]. now rewrite H. Qed.

Lemma skip_ws_space (s : string) : skip_ws (String " " s) = skip_ws s.
Proof. reflexivity. Qed.

Lemma skip_ws_comma (s : string) : skip_ws (String "," s) = String "," s.
Proof. reflexivity. Qed.

Lemma skip_ws_colon (s : string) : skip_ws (String ":" s) = String ":" s.
Proof. reflexivity. Qed.

Lemma skip_ws_bracket (s : string) : skip_ws (String "]" s) = String "]" s.
Proof. reflexivity. Qed.

Lemma skip_ws_brace (s : string) : skip_ws (String "}" s) = String "}" s.
Proof. reflexivity. Qed.

Lemma starts_value_char (c : ascii) (tl : string) :
  (number_start c || Ascii.eqb c dquote || Ascii.eqb c "[" || Ascii.eqb c "{"
   || Ascii.eqb c "n" || Ascii.eqb c "t" || Ascii.eqb c "f")%bool = true ->
  starts_value (String c tl).
Proof.
  destruct c as [[] [] [] [] [] [] [] []]; intro H;
    solve [discriminate H | repeat split].
Qed.

Lemma text_starts_value (sort_keys : bool) (v : pyval) (rest : string) :
  json_value v = true -> starts_value (text sort_keys v ++ rest).
Proof.
  destruct v as [|[]|n|s|l|l|d|id]; intro H; try discriminate H;
    try (apply starts_value_char; reflexivity).
  cbn [text]. destruct (str_of_int_head n) as (c & tl & -> & Hc).
  apply starts_value_char. now rewrite Hc.
Qed.

Lemma array_items_text (v : pyval) (l : list pyval) :
  Forall reads_back (v :: l) -> forallb json_value (v :: l) = true ->
  forall fuel rest,
    (list_sum (map (fun x => S (size x)) (v :: l)) <= fuel)%nat ->
    array_items fuel (join ", " (map (text false) (v :: l)) ++ "]" ++ rest)
    = Some (v :: l, rest).
Proof.
  revert v. induction l as [|v2 l IH]; intros v HF Hj fuel rest Hfuel.
  - inversion_clear HF as [|? ? Hv _].
    cbn [forallb] in Hj. apply andb_prop in Hj as [Hjv _].
    simpl in Hfuel.
    destruct fuel as [|fuel]; [lia|].
    cbn [array_items map join].
    rewrite (Hv Hjv fuel ("]" ++ rest)) by (lia || reflexivity).
    cbn [append]. rewrite skip_ws_bracket, next_is_same. reflexivity.
  - inversion_clear HF as [|? ? Hv HF'].
    cbn [forallb] in Hj. apply andb_prop in Hj as [Hjv Hj'].
    change (list_sum (map (fun x => S (size x)) (v :: v2 :: l)))
      with (S (size v) + list_sum (map (fun x => S (size x)) (v2 :: l)))%nat in Hfuel.
    destruct fuel as [|fuel]; [lia|].
    change (join ", " (map (text false) (v :: v2 :: l)))
      with (text false v ++ ", " ++ join ", " (map (text false) (v2 :: l))).
    rewrite !append_assoc.
    assert (Hs : starts_value (join ", " (map (text false) (v2 :: l)) ++ "]" ++ rest)).
    { cbn [forallb] in Hj'. apply andb_prop in Hj' as [Hj2 _].
      destruct l; cbn [map join]; rewrite ?append_assoc;
        now apply text_starts_value. }
    specialize (IH v2 HF' Hj' fuel rest).
    remember (join ", " (map (text false) (v2 :: l)) ++ "]" ++ rest) as tail eqn:Etail.
    cbn [array_items].
    rewrite (Hv Hjv fuel) by (lia || reflexivity).
    destruct Hs as (Hskip & _ & _).
    cbn [append]. rewrite skip_ws_comma.
    rewrite (next_is_other "]" ","), next_is_same by reflexivity.
    rewrite skip_ws_space, Hskip, IH by lia.
    reflexivity.
Qed.

(** [dict(pairs)] is [pairs] itself when no key comes twice. *)
Lemma distinct_NoDup (l : list string) : distinct l = true -> NoDup l.
Proof.
  induction l as [|x l IH]; cbn [distinct]; intro H; constructor.
  - apply andb_prop in H as [H _]. intro Hin.
    assert (E : existsb (String.eqb x) l = true)
      by (apply existsb_exists; exists x; split; [exact Hin | apply String.eqb_refl]).
    now rewrite E in H.
  - apply andb_prop in H as [_ H]. now apply IH.
Qed.

Lemma dict_set_new (acc : list (string * pyval)) (k : string) (v : pyval) :
  ~ In k (map fst acc) -> dict_set acc k v = (acc ++ [(k, v)])%list.
Proof.
  induction acc as [|[k' v'] acc IH]; cbn [dict_set map fst app In]; intro H.
  - reflexivity.
  - destruct (String.eqb_spec k' k) as [E|E].
    + elim H. now left.
    + rewrite IH; [reflexivity | intro; apply H; now right].
Qed.

Lemma dict_of_pairs_acc (d acc : list (string * pyval)) :
  NoDup (map fst d) ->
  (forall k, In k (map fst d) -> ~ In k (map fst acc)) ->
  fold_left (fun d kv => dict_set d (fst kv) (snd kv)) d acc = (acc ++ d)%list.
Proof.
  revert acc. induction d as [|[k v] d IH]; intros acc Hnd Hdis; cbn [fold_left fst snd].
  - now rewrite List.app_nil_r.
  - cbn [map fst] in Hnd, Hdis. inversion_clear Hnd as [|? ? Hk Hnd'].
    rewrite dict_set_new by (apply Hdis; now left).
    rewrite IH; [now rewrite <- List.app_assoc | exact Hnd' |].
    intros k' Hin. rewrite List.map_app, List.in_app_iff. cbn [map fst In].
    intros [Hacc|[<-|[]]].
    + exact (Hdis k' (or_intror Hin) Hacc).
    + exact (Hk Hin).
Qed.

Lemma dict_of_pairs_distinct (d : list (string * pyval)) :
  distinct (map fst d) = true -> dict_of_pairs d = d.
Proof.
  intro H. unfold dict_of_pairs.
  rewrite dict_of_pairs_acc; [reflexivity | now apply distinct_NoDup | intros ? _ []].
Qed.

Lemma items_text_cons (k : string) (v : pyval) (kv : string * pyval)
    (d : list (string * pyval)) :
  items_text ((k, v) :: kv :: d)
  = quote k ++ ": " ++ text false v ++ ", " ++ items_text (kv :: d).
Proof.
  unfold items_text. cbn [map join fst snd]. unfold render_item at 1. cbn [fst snd].
  now rewrite !append_assoc.
Qed.

Lemma items_text_single (k : string) (v : pyval) :
  items_text [(k, v)] = quote k ++ ": " ++ text false v.
Proof. reflexivity. Qed.

Lemma items_text_starts (kv : string * pyval) (d : list (string * pyval)) (rest : string) :
  starts_value (items_text (kv :: d) ++ rest).
Proof.
  destruct kv as [k v].
  destruct d; [rewrite items_text_single | rewrite items_text_cons];
    apply starts_value_char; reflexivity.
Qed.

Lemma object_pairs_step (fuel : nat) (k : string) (v : pyval) (tail : string) :
  reads_back v -> json_value v = true -> (size v <= fuel)%nat ->
  delimited tail = true ->
  object_pairs (S fuel) (quote k ++ ": " ++ text false v ++ tail)
  = match next_is "}" tail with
    | Some r3 => Some ([(k, v)], r3)
    | None =>
        match next_is "," tail with
        | Some r3 =>
            match object_pairs fuel (skip_ws r3) with
            | Some (ps, r4) => Some ((k, v) :: ps, r4)
            | None => None
            end
        | None => None
        end
    end.
Proof.
  intros Hv Hj Hfuel Htail.
  unfold quote. cbn [append]. rewrite append_assoc. cbn [append].
  cbn [object_pairs]. rewrite next_is_same, scanstring_escape.
  rewrite skip_ws_colon, next_is_same, skip_ws_space.
  destruct (text_starts_value false v tail Hj) as (-> & _ & _).
  rewrite (Hv Hj fuel tail Hfuel Htail).
  now rewrite (delimited_skip_ws tail Htail).
Qed.

Lemma object_pairs_text (kv : string * pyval) (d : list (string * pyval)) :
  Forall (fun kv => reads_back (snd kv)) (kv :: d) ->
  forallb (fun kv => json_value (snd kv)) (kv :: d) = true ->
  forall fuel rest,
    (list_sum (map (fun kv => S (size (snd kv))) (kv :: d)) <= fuel)%nat ->
    object_pairs fuel (items_text (kv :: d) ++ "}" ++ rest) = Some (kv :: d, rest).
Proof.
  revert kv. induction d as [|kv2 d IH]; intros [k v] HF Hj fuel rest Hfuel.
  - inversion_clear HF as [|? ? Hv _]. cbn [snd] in Hv.
    cbn [forallb snd] in Hj. apply andb_prop in Hj as [Hjv _].
    simpl in Hfuel. destruct fuel as [|fuel]; [lia|].
    rewrite items_text_single, !append_assoc.
    rewrite (object_pairs_step fuel k v) by (assumption || lia || reflexivity).
    cbn [append]. now rewrite next_is_same.
  - inversion_clear HF as [|? ? Hv HF']. cbn [snd] in Hv.
    cbn [forallb snd] in Hj. apply andb_prop in Hj as [Hjv Hj'].
    change (list_sum (map (fun kv => S (size (snd kv))) ((k, v) :: kv2 :: d)))
      with (S (size v) + list_sum (map (fun kv => S (size (snd kv))) (kv2 :: d)))%nat
      in Hfuel.
    destruct fuel as [|fuel]; [lia|].
    rewrite items_text_cons, !append_assoc.
    specialize (IH kv2 HF' Hj' fuel rest).
    destruct (items_text_starts kv2 d ("}" ++ rest)) as (Hskip & _ & _).
    remember (items_text (kv2 :: d) ++ "}" ++ rest) as tail eqn:Etail.
    rewrite (object_pairs_step fuel k v) by (assumption || lia || reflexivity).
    cbn [append]. rewrite (next_is_other "}" ","), next_is_same by reflexivity.
    rewrite skip_ws_space, Hskip, IH by lia.
    reflexivity.
Qed.

(** [scan_once] reads a value of the model back from its text. *)
Lemma scan_once_text (v : pyval) : reads_back v.
Proof.
  induction v as [|b|n|s|l IH|l IH|d IH|id] using pyval_ind;
    intros Hj fuel rest Hfuel Hrest; try discriminate Hj;
    (destruct fuel as [|fuel]; [cbn in Hfuel; lia|]).
  - reflexivity.
  - destruct b; reflexivity.
  - now apply scan_once_int.
  - apply scan_once_quote.
  - cbn [json_value] in Hj. cbn [size] in Hfuel. cbn [text].
    rewrite !append_assoc.
    destruct l as [|v l].
    + reflexivity.
    + assert (Hs : starts_value (join ", " (map (text false) (v :: l)) ++ "]" ++ rest)).
      { cbn [forallb] in Hj. apply andb_prop in Hj as [Hjv _].
        destruct l; cbn [map join]; rewrite ?append_assoc;
          now apply text_starts_value. }
      pose proof (array_items_text v l IH Hj fuel rest) as Hitems.
      remember (join ", " (map (text false) (v :: l)) ++ "]" ++ rest) as tail eqn:Etail.
      cbn [append scan_once].
      rewrite (next_is_other dquote "["), (next_is_other "{" "["), next_is_same
        by reflexivity.
      destruct Hs as (-> & -> & _).
      now rewrite Hitems by lia.
  - cbn [json_value] in Hj. apply andb_prop in Hj as [Hd Hj].
    cbn [size] in Hfuel. cbn [text].
    fold (items_text d).
    rewrite !append_assoc.
    destruct d as [|kv d].
    + reflexivity.
    + destruct (items_text_starts kv d ("}" ++ rest)) as (Hskip & _ & Hbrace).
      pose proof (object_pairs_text kv d IH Hj fuel rest) as Hpairs.
      remember (items_text (kv :: d) ++ "}" ++ rest) as tail eqn:Etail.
      cbn [append scan_once].
      rewrite (next_is_other dquote "{"), next_is_same by reflexivity.
      rewrite Hskip, Hbrace, Hpairs by lia.
      now rewrite (dict_of_pairs_distinct _ Hd).
Qed.

(** *** The fuel [loads] gives is enough *)

Lemma length_append (a b : string) :
  String.length (a ++ b) = (String.length a + String.length b)%nat.
Proof. induction a as [|c a IH]; cbn [append String.length]; [reflexivity | now rewrite IH]. Qed.

Lemma items_size_le (A : Type) (sz : A -> nat) (txt : A -> string) (l : list A) :
  Forall (fun x => (sz x <= String.length (txt x))%nat) l ->
  (list_sum (map (fun x => S (sz x)) l) <= String.length (join ", " (map txt l)) + 1)%nat.
Proof.
  induction 1 as [|x l Hx _ IH]; [cbn; lia|].
  change (list_sum (map (fun x => S (sz x)) (x :: l)))
    with (S (sz x) + list_sum (map (fun x => S (sz x)) l))%nat.
  destruct l as [|y l].
  - cbn. lia.
  - change (join ", " (map txt (x :: y :: l)))
      with (txt x ++ ", " ++ join ", " (map txt (y :: l))).
    rewrite !length_append. cbn [String.length]. lia.
Qed.

Lemma size_le_length (v : pyval) :
  json_value v = true -> (size v <= String.length (text false v))%nat.
Proof.
  induction v as [|b|n|s|l IH|l IH|d IH|id] using pyval_ind; intro Hj;
    try discriminate Hj.
  - cbn. lia.
  - destruct b; cbn; lia.
  - cbn [size text]. destruct (str_of_int_head n) as (c & tl & -> & _). cbn. lia.
  - cbn. lia.
  - cbn [json_value] in Hj. cbn [size text].
    rewrite !length_append. cbn [String.length].
    assert (H : Forall (fun x => (size x <= String.length (text false x))%nat) l).
    { rewrite Forall_forall in IH |- *. intros x Hx. apply IH; [exact Hx|].
      rewrite forallb_forall in Hj. now apply Hj. }
    pose proof (items_size_le _ size (text false) l H). lia.
  - cbn [json_value] in Hj. apply andb_prop in Hj as [_ Hj].
    cbn [size text]. rewrite !length_append. cbn [String.length].
    assert (H : Forall (fun kv => (size (snd kv)
                 <= String.length (render_item (fst kv, text false (snd kv))))%nat) d).
    { rewrite Forall_forall in IH |- *. intros x Hx.
      rewrite forallb_forall in Hj.
      unfold render_item. cbn [fst snd]. rewrite !length_append.
      specialize (IH x Hx (Hj x Hx)). lia. }
    pose proof (items_size_le _ (fun kv => size (snd kv))
                  (fun kv => render_item (fst kv, text false (snd kv))) d H) as Hle.
    rewrite map_map. lia.
Qed.

Lemma json_value_serializable (v : pyval) : json_value v = true -> serializable v = true.
Proof.
  induction v as [|b|n|s|l IH|l IH|d IH|id] using pyval_ind; intro Hj;
    try discriminate Hj; try reflexivity.
  - cbn [json_value serializable] in *. rewrite forallb_forall in *.
    rewrite Forall_forall in IH. intros x Hx. apply IH; auto.
  - cbn [json_value serializable] in *. apply andb_prop in Hj as [_ Hj].
    rewrite forallb_forall in *. rewrite Forall_forall in IH.
    intros x Hx. apply IH; auto.
Qed.

(** [json.loads(json.dumps(v)) == v] on the value model. *)
Lemma loads_text (v : pyval) : json_value v = true -> loads (text false v) = Ok v.
Proof.
  intro Hj. unfold loads.
  destruct (text_starts_value false v "" Hj) as (Hskip & _ & _).
  rewrite append_empty in Hskip. rewrite Hskip.
  pose proof (scan_once_text v Hj (S (String.length (text false v))) "") as H.
  rewrite append_empty in H. rewrite H; [reflexivity | | reflexivity].
  pose proof (size_le_length v Hj). lia.
Qed.

Lemma loads_dumps (v : pyval) :
  json_value v = true -> (s <- dumps false v ;; loads s) = Ok v.
Proof.
  intro Hj. unfold dumps. rewrite (json_value_serializable v Hj).
  cbn [bind]. now apply loads_text.
Qed.

End JsonFacts.

(* ------------------------------------------------------------------------- *)
(** ** The SQL statements *)

Module SqliteFacts.
Import Sqlite.

Lemma select_value_replaced (t : table) (r : row) (now_seconds : Z) :
  select_value (replace_row t r) (key r) now_seconds
  = if live now_seconds r then [value r] else [].
Proof.
  unfold select_value, replace_row.
  rewrite filter_app, map_app.
  replace (filter (fun r0 => (String.eqb (key r0) (key r) && live now_seconds r0)%bool)
             (filter (fun r' => negb (String.eqb (key r') (key r))) t))
    with (@nil row).
  - cbn [map filter app]. rewrite String.eqb_refl. cbn [andb].
    now destruct (live now_seconds r).
  - induction t as [|x t IH]; [reflexivity|]. cbn [filter].
    destruct (String.eqb (key x) (key r)) eqn:E; cbn [negb]; [exact IH|].
    cbn [filter]. rewrite E. exact IH.
Qed.

Lemma select_value_other (t : table) (r : row) (k : string) (now_seconds : Z) :
  key r <> k ->
  select_value (replace_row t r) k now_seconds = select_value t k now_seconds.
Proof.
  intro Hk. unfold select_value, replace_row.
  rewrite filter_app, map_app. cbn [filter].
  destruct (String.eqb_spec (key r) k) as [E|_]; [contradiction|].
  cbn [andb map]. rewrite List.app_nil_r. f_equal.
  induction t as [|x t IH]; [reflexivity|]. cbn [filter].
  destruct (String.eqb_spec (key x) (key r)) as [E|E]; cbn [negb].
  - destruct (String.eqb_spec (key x) k) as [E'|_]; [congruence|]. exact IH.
  - cbn [filter]. now rewrite IH.
Qed.

(** A key matches the pattern made of any of its prefixes. *)
Lemma like_any (pattern : string) (c : ascii) (t : string) :
  like_chars (String "%" pattern) t = true ->
  like_chars (String "%" pattern) (String c t) = true.
Proof.
  cbn [like_chars]. change (Ascii.eqb "%" "%") with true. cbv iota.
  intro H. rewrite H. now rewrite orb_true_r.
Qed.

Lemma like_here (pattern t : string) :
  like_chars pattern t = true -> like_chars (String "%" pattern) t = true.
Proof.
  intro H. cbn [like_chars]. change (Ascii.eqb "%" "%") with true. cbv iota.
  destruct t; now rewrite H.
Qed.

Lemma like_percent (t : string) : like_chars "%" t = true.
Proof.
  induction t as [|c t IH]; [reflexivity|].
  now apply like_any.
Qed.

Lemma like_prefix (p k : string) :
  String.prefix p k = true -> like (p ++ "%") k = true.
Proof.
  unfold like. revert k. induction p as [|c p IH]; intros k H.
  - apply like_percent.
  - destruct k as [|d k]; [discriminate H|].
    cbn [String.prefix] in H.
    destruct (ascii_dec c d) as [<-|]; [|discriminate H].
    specialize (IH k H).
    cbn [append c_str].
    destruct (Ascii.eqb c "000"); [reflexivity|].
    destruct (Ascii.eqb c "%") eqn:E; [|cbn [like_chars]; rewrite E].
    + apply Ascii.eqb_eq in E. subst c.
      now apply like_any, like_here.
    + now rewrite IH, Ascii.eqb_refl, orb_true_r.
Qed.

Lemma filter_none (A : Type) (f : A -> bool) (l : list A) :
  (forall x, In x l -> f x = false) -> filter f l = [].
Proof.
  induction l as [|x l IH]; intro H; [reflexivity|].
  cbn [filter]. rewrite (H x (or_introl eq_refl)). apply IH.
  intros y Hy. apply H. now right.
Qed.

Lemma filter_all (A : Type) (f : A -> bool) (l : list A) :
  (forall x, In x l -> f x = true) -> filter f l = l.
Proof.
  induction l as [|x l IH]; intro H; [reflexivity|].
  cbn [filter]. rewrite (H x (or_introl eq_refl)). f_equal. apply IH.
  intros y Hy. apply H. now right.
Qed.

Lemma prefix_append (p s : string) : String.prefix p (p ++ s) = true.
Proof.
  induction p as [|c p IH]; cbn [append String.prefix]; [now destruct s|].
  now destruct (ascii_dec c c).
Qed.

(** [ORDER BY] keeps the rows it is given. *)
Lemma insert_by_value_perm (r : row) (l : list row) :
  Permutation (r :: l) (insert_by_value r l).
Proof.
  induction l as [|x l IH]; cbn [insert_by_value]; [reflexivity|].
  destruct (String.leb (value r) (value x)); [reflexivity|].
  rewrite perm_swap. now constructor.
Qed.

Lemma order_by_value_perm (l : list row) : Permutation l (order_by_value l).
Proof.
  induction l as [|x l IH]; cbn [order_by_value fold_right]; [constructor|].
  rewrite <- insert_by_value_perm. now constructor.
Qed.

Lemma select_like_In (t : table) (beginning : string) (now_seconds : Z)
    (k encoded : string) :
  In (k, encoded) (select_like t beginning now_seconds)
  <-> exists r, In r t /\ key r = k /\ value r = encoded
                /\ key_like beginning r = true /\ live now_seconds r = true.
Proof.
  unfold select_like. rewrite in_map_iff. split.
  - intros (r & E & Hin). injection E as <- <-.
    apply (Permutation_in _ (Permutation_sym (order_by_value_perm _))) in Hin.
    apply filter_In in Hin as [Hin Hc]. apply andb_prop in Hc as [Hl Hv].
    now exists r.
  - intros (r & Hin & <- & <- & Hl & Hv). exists r. split; [reflexivity|].
    apply (Permutation_in _ (order_by_value_perm _)).
    apply filter_In. split; [exact Hin | now rewrite Hl, Hv].
Qed.

Lemma replace_row_In (t : table) (r x : row) :
  In x (replace_row t r) <-> x = r \/ (In x t /\ key x <> key r).
Proof.
  unfold replace_row. rewrite List.in_app_iff, filter_In. cbn [In]. split.
  - intros [[Hin Hk]|[<-|[]]]; [right | now left].
    split; [exact Hin|]. intro E. rewrite E, String.eqb_refl in Hk. discriminate Hk.
  - intros [->|[Hin Hk]]; [right; now left | left].
    split; [exact Hin|]. now destruct (String.eqb_spec (key x) (key r)).
Qed.

(** The rows of a list of bindings, taken apart. *)
Lemma bind_rows_inv (params : list param) (rs : list row) :
  bind_rows params = Some rs ->
  (params = [] /\ rs = [])
  \/ exists k v t params' rs',
       params = PText k :: PText v :: (match t with Some n => PInteger n | None => PNull end)
                  :: params'
       /\ bind_rows params' = Some rs' /\ rs = Row k v t :: rs'.
Proof.
  destruct params as [|[k| |] [|[v| |] [|t params']]]; cbn [bind_rows]; intro H;
    try discriminate H.
  - left. now injection H as <-.
  - right. destruct t as [s|n|]; try discriminate H;
      destruct (bind_rows params') as [rs'|] eqn:E; try discriminate H;
      injection H as <-.
    + now exists k, v, (Some n), params', rs'.
    + now exists k, v, None, params', rs'.
Qed.

Lemma bind_rows_app (rs : list row) :
  forall params more rs',
    bind_rows params = Some rs -> bind_rows more = Some rs' ->
    bind_rows (params ++ more)%list = Some (rs ++ rs')%list.
Proof.
  induction rs as [|r rs IH]; intros params more rs' H H'.
  - apply bind_rows_inv in H as [[-> _]|(k & v & t & p' & r' & _ & _ & E)];
      [exact H' | discriminate E].
  - apply bind_rows_inv in H as [[_ E]|(k & v & t & p' & r' & -> & Hb & E)];
      [discriminate E|].
    injection E as -> ->.
    cbn [app bind_rows]. rewrite (IH p' more rs' Hb H').
    now destruct t.
Qed.

Lemma bind_rows_length (rs : list row) :
  forall params, bind_rows params = Some rs -> length params = (3 * length rs)%nat.
Proof.
  induction rs as [|r rs IH]; intros params H.
  - apply bind_rows_inv in H as [[-> _]|(k & v & t & p' & r' & _ & _ & E)];
      [reflexivity | discriminate E].
  - apply bind_rows_inv in H as [[_ E]|(k & v & t & p' & r' & -> & Hb & E)];
      [discriminate E|].
    injection E as -> ->. cbn [length]. rewrite (IH p' Hb). lia.
Qed.

Lemma fold_replace_row_last (rs : list row) (r : row) (t : table) :
  fold_left replace_row (rs ++ [r])%list t = replace_row (fold_left replace_row rs t) r.
Proof. now rewrite fold_left_app. Qed.

(** After a run of [INSERT OR REPLACE], every key that was written holds one
    of the rows written for it. *)
Lemma fold_replace_row_In (rs : list row) (t : table) (r : row) :
  In r rs ->
  exists r', In r' (fold_left replace_row rs t) /\ key r' = key r /\ In r' rs.
Proof.
  revert r. induction rs as [|x rs IH] using rev_ind; intros r Hin; [destruct Hin|].
  rewrite fold_replace_row_last.
  apply List.in_app_iff in Hin as [Hin|[<-|[]]].
  - destruct (IH r Hin) as (r' & Hr' & Hk & Hrs).
    destruct (string_dec (key r') (key x)) as [E|E].
    + exists x. rewrite replace_row_In, List.in_app_iff. cbn [In].
      repeat split; [now left | congruence | right; now left].
    + exists r'. rewrite replace_row_In, List.in_app_iff.
      repeat split; [right; now split | exact Hk | now left].
  - exists x. rewrite replace_row_In, List.in_app_iff. cbn [In].
    repeat split; [now left | right; now left].
Qed.

End SqliteFacts.

(* ------------------------------------------------------------------------- *)
(** ** The methods of [KV] *)

Module KVFacts.
Import Json Sqlite KVStore JsonFacts SqliteFacts.

Section Zoned.
Context {tz : Datetime.Zone}.

Lemma encode_value_serializable (v : pyval) :
  serializable v = true ->
  _encode_value v = Ok (text false (PyDict [("value", v)])).
Proof.
  intro H. unfold _encode_value, dumps. cbn [serializable forallb snd].
  now rewrite H.
Qed.

Lemma encode_value_unserializable (v : pyval) :
  serializable v = false -> _encode_value v = Raise TypeError.
Proof.
  intro H. unfold _encode_value, dumps. cbn [serializable forallb snd].
  now rewrite H.
Qed.

Lemma decode_value_stored (v : pyval) :
  json_value v = true -> _decode_value (text false (PyDict [("value", v)])) = Ok v.
Proof.
  intro H. unfold _decode_value.
  rewrite loads_text by (cbn [json_value map fst distinct existsb forallb snd negb andb];
                         now rewrite H).
  reflexivity.
Qed.

(** The text of a stored value is never empty: it opens with a brace. *)
Lemma stored_truthy (k : string) (v : pyval) (t : option Z) :
  truthy_str (Some (value (stored k v t))) = true.
Proof. reflexivity. Qed.

Lemma ttl_column_eq (now : Z) (ttl_seconds : option Z) :
  (if truthy_int ttl_seconds then
     match ttl_seconds with
     | Some s => Some (expiry now s)
     | None => None
     end
   else None) = ttl_column now ttl_seconds.
Proof.
  destruct ttl_seconds as [s|]; [|reflexivity].
  cbn [truthy_int ttl_column]. now destruct (s =? 0).
Qed.

Lemma put_ok (now : Z) (k : string) (v : pyval) (ttl_seconds : option Z) (self : KV) :
  serializable v = true -> writable (conn self) = true ->
  put now k v ttl_seconds self
  = (Ok tt,
     Build_KV (Connection (replace_row (rows (conn self))
                             (stored k v (ttl_column now ttl_seconds))) true)
              (cache_values self) (cache_row_count self)).
Proof.
  intros Hv Hw. unfold put.
  rewrite ttl_column_eq, (encode_value_serializable v Hv).
  unfold insert_or_replace. cbn [length Nat.eqb Nat.mul Nat.add negb].
  unfold stored.
  destruct (ttl_column now ttl_seconds); cbn [bind_rows fold_left]; now rewrite Hw.
Qed.

Lemma put_raises (now : Z) (k : string) (v : pyval) (ttl_seconds : option Z) (self : KV) :
  serializable v = false -> put now k v ttl_seconds self = (Raise TypeError, self).
Proof.
  intro Hv. unfold put. now rewrite (encode_value_unserializable v Hv).
Qed.

Lemma get_found (now : Z) (k : string) (default : pyval) (save : bool) (self : KV)
    (r : row) :
  fetchone (select_value (rows (conn self)) k (timestamp now)) = Some (value r) ->
  truthy_str (Some (value r)) = true ->
  get now k default save self = (_decode_value (value r), self).
Proof.
  intros Hsel Ht. unfold get. rewrite Hsel, Ht. reflexivity.
Qed.

Lemma get_missing (now : Z) (k : string) (default : pyval) (self : KV) :
  fetchone (select_value (rows (conn self)) k (timestamp now)) = None ->
  get now k default false self = (Ok default, self).
Proof.
  intro Hsel. unfold get. rewrite Hsel. reflexivity.
Qed.

(** On a machine whose clock keeps one offset from UTC, the wall clock runs
    with the time: the second of a clock reading, and the second [put]
    stores for a TTL. *)
Lemma mktime_fixed (offset : Z) (d : Datetime.datetime) :
  Datetime.fold d = false ->
  Datetime._mktime (tz := Datetime.fixed offset) d = Datetime.seconds d - offset.
Proof.
  intro Hf. unfold Datetime._mktime, Datetime.fixed. cbn [Datetime.localtime].
  rewrite Hf.
  replace (Datetime.seconds d + offset - Datetime.seconds d) with offset by lia.
  replace (Datetime.seconds d - offset + offset) with (Datetime.seconds d) by lia.
  rewrite Z.eqb_refl.
  replace (Datetime.seconds d - offset + - Datetime.max_fold_seconds + offset
           - (Datetime.seconds d - offset + - Datetime.max_fold_seconds))
    with offset by lia.
  now rewrite Z.eqb_refl.
Qed.

Lemma now_fixed (offset t : Z) :
  Datetime.now (tz := Datetime.fixed offset) t
  = Datetime.Build_datetime (t / 1000000 + offset) (t mod 1000000) false.
Proof.
  unfold Datetime.now, Datetime.fixed. cbn [Datetime.localtime].
  replace (t / 1000000 + offset - (t / 1000000 - Datetime.max_fold_seconds + offset)
           - Datetime.max_fold_seconds) with 0 by lia.
  reflexivity.
Qed.

Lemma timestamp_fixed (offset t : Z) :
  timestamp (tz := Datetime.fixed offset) t = Z.quot t 1000000.
Proof.
  unfold timestamp, Datetime.timestamp. rewrite now_fixed, mktime_fixed by reflexivity.
  cbn [Datetime.seconds Datetime.microsecond]. f_equal.
  rewrite (Z.div_mod t 1000000) at 3 by lia. lia.
Qed.

Lemma expiry_fixed (offset now ttl_seconds : Z) :
  expiry (tz := Datetime.fixed offset) now ttl_seconds
  = Z.quot (now + ttl_seconds * 1000000) 1000000.
Proof.
  unfold expiry, Datetime.timestamp, Datetime.plus_seconds.
  rewrite now_fixed, mktime_fixed by reflexivity.
  cbn [Datetime.seconds Datetime.microsecond]. f_equal.
  rewrite (Z.div_mod now 1000000) at 3 by lia. lia.
Qed.

Lemma expiry_after (offset now ttl_seconds : Z) :
  0 <= now -> 0 <= ttl_seconds ->
  expiry (tz := Datetime.fixed offset) now ttl_seconds
  = timestamp (tz := Datetime.fixed offset) now + ttl_seconds.
Proof.
  intros Hn Ht. rewrite expiry_fixed, timestamp_fixed.
  rewrite !Z.quot_div_nonneg by lia.
  now rewrite Z.div_add by lia.
Qed.

Lemma quot_mono (a b : Z) : a <= b -> a ÷ 1000000 <= b ÷ 1000000.
Proof.
  intro H.
  destruct (Z_le_gt_dec 0 a) as [Ha|Ha].
  - rewrite !Z.quot_div_nonneg by lia. apply Z.div_le_mono; lia.
  - destruct (Z_le_gt_dec 0 b) as [Hb|Hb].
    + assert (Hqa : a ÷ 1000000 <= 0)
        by (rewrite <- (Z.opp_involutive a), Z.quot_opp_l by lia;
            pose proof (Z.quot_pos (- a) 1000000); lia).
      pose proof (Z.quot_pos b 1000000). lia.
    + rewrite <- (Z.opp_involutive a), <- (Z.opp_involutive b).
      rewrite (Z.quot_opp_l (- a)), (Z.quot_opp_l (- b)) by lia.
      rewrite (Z.quot_div_nonneg (- a)), (Z.quot_div_nonneg (- b)) by lia.
      pose proof (Z.div_le_mono (- b) (- a) 1000000). lia.
Qed.

(** *** Tables whose values can all be read *)

Lemma decodable_stored (k : string) (v : pyval) (t : option Z) :
  json_value v = true -> decodable (value (stored k v t)) = true.
Proof.
  intro H. unfold decodable. cbn [value stored]. now rewrite decode_value_stored.
Qed.

Lemma table_ok_replace_row (t : table) (r : row) :
  table_ok t = true -> decodable (value r) = true -> table_ok (replace_row t r) = true.
Proof.
  unfold table_ok. rewrite !forallb_forall. intros Ht Hr x Hx.
  apply replace_row_In in Hx as [->|[Hx _]]; [exact Hr | now apply Ht].
Qed.

Lemma table_ok_app (a b : table) :
  table_ok (a ++ b)%list = (table_ok a && table_ok b)%bool.
Proof. apply forallb_app. Qed.

Lemma table_ok_fold (rs : list row) :
  forall t, table_ok t = true -> table_ok rs = true ->
            table_ok (fold_left replace_row rs t) = true.
Proof.
  induction rs as [|r rs IH]; intros t Ht Hrs; [exact Ht|].
  cbn [fold_left]. cbn [table_ok forallb] in Hrs. apply andb_prop in Hrs as [Hr Hrs].
  apply IH; [now apply table_ok_replace_row | exact Hrs].
Qed.

Lemma decode_rows_ok (l : list (string * string)) :
  (forall k encoded, In (k, encoded) l -> decodable encoded = true) ->
  exists out,
    decode_rows l = Ok out
    /\ forall k v, In (k, v) out
                   <-> exists encoded, In (k, encoded) l /\ _decode_value encoded = Ok v.
Proof.
  induction l as [|[k e] l IH]; intro H.
  - exists []. split; [reflexivity|]. intros k v. split; [intros [] | intros (? & [] & _)].
  - destruct IH as (out & Hout & Hin); [intros k' e' He'; apply (H k' e'); now right|].
    assert (Hd := H k e (or_introl eq_refl)). unfold decodable in Hd.
    destruct (_decode_value e) as [v|] eqn:E; [|discriminate Hd].
    exists ((k, v) :: out). split.
    + cbn [decode_rows]. rewrite E. cbn [bind]. rewrite Hout. reflexivity.
    + intros k' v'. cbn [In]. rewrite Hin. split.
      * intros [Heq|(e' & He' & Hd')].
        -- injection Heq as <- <-. exists e. split; [now left | exact E].
        -- exists e'. split; [now right | exact Hd'].
      * intros (e' & [Heq|He'] & Hd').
        -- injection Heq as <- <-. left. congruence.
        -- right. now exists e'.
Qed.

(** A row without expiry is read at every time, by key and by any prefix of
    its key. *)
Lemma stored_forever (self : KV) (k : string) (v : pyval) (t : table) :
  json_value v = true -> table_ok t = true ->
  rows (conn self) = replace_row t (stored k v None) ->
  forall later,
    get later k PyNone false self = (Ok v, self)
    /\ forall beginning, String.prefix beginning k = true ->
         exists l, get_partial later beginning self = (Ok l, self) /\ In (k, v) l.
Proof.
  intros Hv Ht Hrows later. split.
  - rewrite (get_found later k PyNone false self (stored k v None)).
    + cbn [value stored]. now rewrite decode_value_stored.
    + rewrite Hrows.
      now rewrite (select_value_replaced t (stored k v None)).
    + apply (stored_truthy k v None).
  - intros beginning Hp. unfold get_partial.
    destruct (decode_rows_ok (select_like (rows (conn self)) beginning (timestamp later)))
      as (out & Hout & Hin).
    + intros k' e He. apply select_like_In in He as (r & Hr & _ & <- & _).
      assert (Hok : table_ok (rows (conn self)) = true)
        by (rewrite Hrows; apply table_ok_replace_row;
            [exact Ht | now apply decodable_stored]).
      unfold table_ok in Hok. rewrite forallb_forall in Hok. now apply Hok.
    + exists out. split; [now rewrite Hout|].
      apply Hin. exists (value (stored k v None)). split.
      * apply select_like_In. exists (stored k v None).
        rewrite Hrows, replace_row_In. repeat split; [now left|].
        now apply like_prefix.
      * cbn [value stored]. now apply decode_value_stored.
Qed.

(** *** The batched writes *)

Lemma commit_cached_ok (self : KV) (rs : list row) :
  cache_values self <> [] -> bind_rows (cache_values self) = Some rs ->
  length rs = cache_row_count self -> writable (conn self) = true ->
  commit_cached self
  = (Ok tt, Build_KV (Connection (fold_left replace_row rs (rows (conn self))) true) [] 0%nat).
Proof.
  intros Hne Hb Hlen Hw. unfold commit_cached.
  destruct (cache_values self) as [|p ps] eqn:E; [now elim Hne|].
  unfold insert_or_replace.
  assert (Hcount : cache_row_count self <> 0%nat).
  { intro Hz. rewrite Hz in Hlen. destruct rs; [|discriminate Hlen].
    apply bind_rows_inv in Hb as [[Hb _]|(? & ? & ? & ? & ? & _ & _ & Hb)];
      [congruence | discriminate Hb]. }
  apply Nat.eqb_neq in Hcount. rewrite Hcount.
  rewrite (bind_rows_length rs _ Hb), Hlen, Nat.eqb_refl, Hb, Hw.
  reflexivity.
Qed.

Lemma buffer_ok_rows (self : KV) :
  buffer_ok self = true ->
  exists rs, bind_rows (cache_values self) = Some rs
             /\ length rs = cache_row_count self /\ table_ok rs = true.
Proof.
  unfold buffer_ok. destruct (bind_rows (cache_values self)) as [rs|]; [|discriminate].
  intro H. apply andb_prop in H as [Hl Ht]. apply Nat.eqb_eq in Hl. now exists rs.
Qed.

Lemma put_cached_ok (now : Z) (k : string) (v : pyval) (ttl_seconds : option Z) (self : KV)
    (rs : list row) :
  serializable v = true -> bind_rows (cache_values self) = Some rs ->
  exists self',
    put_cached now k v ttl_seconds self = (Ok tt, self')
    /\ conn self' = conn self
    /\ cache_values self' <> []
    /\ bind_rows (cache_values self')
       = Some (rs ++ [stored k v (ttl_column now ttl_seconds)])%list
    /\ cache_row_count self' = (cache_row_count self + 1)%nat.
Proof.
  intros Hv Hb. unfold put_cached.
  rewrite ttl_column_eq, (encode_value_serializable v Hv).
  eexists. split; [reflexivity|]. cbn [conn cache_values cache_row_count].
  repeat split.
  - now destruct (cache_values self).
  - apply (bind_rows_app rs _ _ _ Hb). unfold stored.
    now destruct (ttl_column now ttl_seconds).
Qed.

End Zoned.

End KVFacts.

(* ------------------------------------------------------------------------- *)
(** ** Reading back what was written *)

(** What [get] finds after [put] wrote [v] under [k]: [v] itself while the
    row is live, whatever the default and the save flag; the default once
    the row has expired. *)
Lemma get_after_put {tz : Datetime.Zone} (self : KV) (now later : Z) (k : string) (v default : pyval)
    (ttl_seconds : option Z) (save : bool) :
  json_value v = true -> writable (conn self) = true ->
  exists self',
    put now k v ttl_seconds self = (Ok tt, self')
    /\ rows (conn self')
       = replace_row (rows (conn self)) (stored k v (ttl_column now ttl_seconds))
    /\ writable (conn self') = true
    /\ (live (timestamp later) (stored k v (ttl_column now ttl_seconds)) = true ->
        get later k default save self' = (Ok v, self'))
    /\ (live (timestamp later) (stored k v (ttl_column now ttl_seconds)) = false ->
        get later k default false self' = (Ok default, self')).
Proof.
  intros Hv Hw. eexists. split; [|split; [|split; [|split]]].
  - apply KVFacts.put_ok; [now apply JsonFacts.json_value_serializable | exact Hw].
  - reflexivity.
  - reflexivity.
  - intro Hlive.
    rewrite (KVFacts.get_found later k default save _ (stored k v (ttl_column now ttl_seconds))).
    + cbn [value stored]. now rewrite KVFacts.decode_value_stored.
    + cbn [conn rows].
      rewrite (SqliteFacts.select_value_replaced _ (stored k v (ttl_column now ttl_seconds))).
      now rewrite Hlive.
    + apply KVFacts.stored_truthy.
  - intro Hdead. apply KVFacts.get_missing. cbn [conn rows].
    rewrite (SqliteFacts.select_value_replaced _ (stored k v (ttl_column now ttl_seconds))).
    now rewrite Hdead.
Qed.

(** C1. [put] adds the TTL on the wall clock, and the claim fails where the
    wall clock does not run with the time.  On a machine in [Europe/Berlin],
    at 02:30 for the second time in the night of 2025-10-26 (01:30 UTC, half
    an hour after the clocks went back), [put(k, v, ttl_seconds=60)] stores
    as expiry the 02:31 of the first pass, 3540 seconds before the call, and
    a [get(k, default=D)] at the same clock reading returns [D], not [v].
    At 02:30 for the first time (00:30 UTC), [put(k, v, ttl_seconds=1800)]
    stores 03:00 of the second pass, 5400 seconds after the call, and [get]
    still returns [v] when the 1800 seconds have elapsed, and an hour later. *)
Theorem put_get_ttl_repeated_hour (self : KV) (k : string) (v default : pyval) :
  json_value v = true -> Session.digits_fit v = true -> writable (conn self) = true ->
  (exists self',
     put (tz := Datetime.europe_berlin) 1761442200000000 k v (Some 60) self = (Ok tt, self')
     /\ In (stored k v (Some (1761442200 - 3540))) (rows (conn self'))
     /\ get (tz := Datetime.europe_berlin) 1761442200000000 k default false self'
        = (Ok default, self'))
  /\ (exists self',
        put (tz := Datetime.europe_berlin) 1761438600000000 k v (Some 1800) self
        = (Ok tt, self')
        /\ In (stored k v (Some (1761438600 + 5400))) (rows (conn self'))
        /\ get (tz := Datetime.europe_berlin) (1761438600000000 + 1800 * 1000000)
             k default false self' = (Ok v, self')
        /\ get (tz := Datetime.europe_berlin) (1761438600000000 + 5399 * 1000000)
             k default false self' = (Ok v, self')).
Proof.
  intros Hv _ Hw. split.
  - destruct (get_after_put (tz := Datetime.europe_berlin) self 1761442200000000
                1761442200000000 k v default (Some 60) false Hv Hw)
      as (self' & Hput & Hrows & _ & _ & Hdead).
    exists self'. split; [exact Hput|]. split.
    + rewrite Hrows. apply SqliteFacts.replace_row_In. now left.
    + now apply Hdead.
  - destruct (get_after_put (tz := Datetime.europe_berlin) self 1761438600000000
                (1761438600000000 + 1800 * 1000000) k v default (Some 1800) false Hv Hw)
      as (self' & Hput & Hrows & _ & Hlive & _).
    destruct (get_after_put (tz := Datetime.europe_berlin) self 1761438600000000
                (1761438600000000 + 5399 * 1000000) k v default (Some 1800) false Hv Hw)
      as (self'' & Hput' & _ & _ & Hlive' & _).
    rewrite Hput in Hput'. injection Hput' as <-.
    exists self'. split; [exact Hput|]. split; [|split].
    + rewrite Hrows. apply SqliteFacts.replace_row_In. now left.
    + now apply Hlive.
    + now apply Hlive'.
Qed.

Lemma put_get_ttl_repeated_hour_witness :
  exists self',
    put (tz := Datetime.europe_berlin) 1761442200000000 "session:token"
        (PyStr "abc123xyz") (Some 60) (__init__ (Connection [] true)) = (Ok tt, self')
    /\ In (stored "session:token" (PyStr "abc123xyz") (Some (1761442200 - 3540)))
          (rows (conn self'))
    /\ get (tz := Datetime.europe_berlin) 1761442200000000 "session:token" PyNone false self'
       = (Ok PyNone, self').
Proof.
  apply (put_get_ttl_repeated_hour (__init__ (Connection [] true)) "session:token"
           (PyStr "abc123xyz") PyNone); reflexivity.
Defined.

(** On a machine whose clock keeps one offset from UTC, between 1970 and
    the year 2242, a TTL runs as long as it says: for every value of the
    value model with integers of at most 4300 digits, after
    [put(k, v, ttl)] with [ttl > 0], a [get(k)] at the same clock reading returns [v], and so
    does every [get] before the second of the call plus the TTL; from the
    instant of the call plus the TTL on, [get(k, default=D)] returns [D]. *)
Theorem put_get_ttl_fixed_offset (offset : Z) (self : KV) (now : Z) (k : string)
    (v : pyval) (ttl_seconds : Z) :
  json_value v = true -> Session.digits_fit v = true -> 0 < ttl_seconds -> 0 <= now ->
  now + ttl_seconds * 1000000 < Datetime.horizon -> Z.abs offset <= 86400 ->
  writable (conn self) = true ->
  exists self',
    put (tz := Datetime.fixed offset) now k v (Some ttl_seconds) self = (Ok tt, self')
    /\ In (stored k v (Some (Z.quot now 1000000 + ttl_seconds))) (rows (conn self'))
    /\ get (tz := Datetime.fixed offset) now k PyNone false self' = (Ok v, self')
    /\ (forall later,
          0 <= later -> Z.quot later 1000000 < Z.quot now 1000000 + ttl_seconds ->
          get (tz := Datetime.fixed offset) later k PyNone false self' = (Ok v, self'))
    /\ (forall later default,
          now + ttl_seconds * 1000000 <= later -> later < Datetime.horizon ->
          get (tz := Datetime.fixed offset) later k default false self'
          = (Ok default, self')).
Proof.
  intros Hv _ Httl Hnow _ _ Hw.
  assert (Hcol : ttl_column (tz := Datetime.fixed offset) now (Some ttl_seconds)
                 = Some (Z.quot now 1000000 + ttl_seconds)).
  { cbn [ttl_column]. destruct (Z.eqb_spec ttl_seconds 0); [lia|].
    now rewrite KVFacts.expiry_after, KVFacts.timestamp_fixed by lia. }
  destruct (get_after_put (tz := Datetime.fixed offset) self now now k v PyNone
              (Some ttl_seconds) false Hv Hw) as (self' & Hput & Hrows & _ & _ & _).
  assert (Hbefore : forall later,
             Z.quot later 1000000 < Z.quot now 1000000 + ttl_seconds ->
             get (tz := Datetime.fixed offset) later k PyNone false self' = (Ok v, self')).
  { intros later Hlater.
    destruct (get_after_put (tz := Datetime.fixed offset) self now later k v PyNone
                (Some ttl_seconds) false Hv Hw) as (self'' & Hput' & _ & _ & Hlive & _).
    rewrite Hput in Hput'. injection Hput' as <-.
    apply Hlive. rewrite Hcol, KVFacts.timestamp_fixed. cbn [live stored ttl].
    now apply Z.ltb_lt. }
  exists self'. split; [exact Hput|]. split; [|split; [|split]].
  - rewrite Hrows, Hcol. apply SqliteFacts.replace_row_In. now left.
  - apply Hbefore. lia.
  - intros later _ Hlater. now apply Hbefore.
  - intros later default Hlater _.
    destruct (get_after_put (tz := Datetime.fixed offset) self now later k v default
                (Some ttl_seconds) false Hv Hw) as (self'' & Hput' & _ & _ & _ & Hdead).
    rewrite Hput in Hput'. injection Hput' as <-.
    apply Hdead. rewrite Hcol, KVFacts.timestamp_fixed. cbn [live stored ttl].
    apply Z.ltb_ge.
    pose proof (KVFacts.quot_mono _ _ Hlater) as Hq.
    rewrite (Z.quot_div_nonneg (now + _)) in Hq by lia.
    rewrite Z.div_add in Hq by lia.
    rewrite <- Z.quot_div_nonneg in Hq by lia. exact Hq.
Qed.

Lemma put_get_ttl_fixed_offset_witness :
  exists self',
    put (tz := Datetime.fixed 3600) 1500000 "session:token" (PyStr "abc123xyz") (Some 3600)
        (__init__ (Connection [] true)) = (Ok tt, self')
    /\ get (tz := Datetime.fixed 3600) 1500000 "session:token" PyNone false self'
       = (Ok (PyStr "abc123xyz"), self')
    /\ get (tz := Datetime.fixed 3600) 3601500000 "session:token" PyNone false self'
       = (Ok PyNone, self').
Proof.
  destruct (put_get_ttl_fixed_offset 3600 (__init__ (Connection [] true)) 1500000
              "session:token" (PyStr "abc123xyz") 3600)
    as (self' & Hput & _ & Hget & _ & Hdead);
    [reflexivity | reflexivity | lia | lia | reflexivity | cbn; lia | reflexivity |].
  exists self'. split; [exact Hput|]. split; [exact Hget|].
  apply Hdead; [lia | reflexivity].
Defined.

(** C9. A stored null is told apart from an absent key.  [put(k, None)]
    with no TTL writes under [k] the text of the dict that wraps the value,
    [{"value": null}], which is not the empty text; so [get(k, default=D)]
    returns [None] for every [D], at every later time, whereas for a key
    with no live row, before the [put] as after it, [get] returns [D]. *)
Theorem stored_null_is_returned {tz : Datetime.Zone} (self : KV) (now : Z) (k : string) :
  writable (conn self) = true ->
  exists self',
    put now k PyNone None self = (Ok tt, self')
    /\ rows (conn self')
       = replace_row (rows (conn self)) (Row k wrapped_null None)
    /\ (forall later default save, get later k default save self' = (Ok PyNone, self'))
    /\ (forall later default,
          select_value (rows (conn self)) k (timestamp later) = [] ->
          get later k default false self = (Ok default, self))
    /\ (forall later k' default,
          k' <> k -> select_value (rows (conn self)) k' (timestamp later) = [] ->
          get later k' default false self' = (Ok default, self')).
Proof.
  intro Hw.
  destruct (get_after_put self now now k PyNone PyNone None false eq_refl Hw)
    as (self' & Hput & Hrows & _).
  exists self'. split; [exact Hput|]. split; [exact Hrows|]. split; [|split].
  - intros later default save.
    destruct (get_after_put self now later k PyNone default None save eq_refl Hw)
      as (self'' & Hput' & _ & _ & Hlive & _).
    rewrite Hput in Hput'. injection Hput' as <-.
    now apply Hlive.
  - intros later default Habsent. apply KVFacts.get_missing. now rewrite Habsent.
  - intros later k' default Hk Habsent. apply KVFacts.get_missing.
    rewrite Hrows, (SqliteFacts.select_value_other _ (stored k PyNone None));
      [now rewrite Habsent | exact (not_eq_sym Hk)].
Qed.

Lemma stored_null_is_returned_witness :
  exists self',
    put 0 "k" PyNone None (__init__ (Connection [] true)) = (Ok tt, self')
    /\ rows (conn self') = [Row "k" wrapped_null None]
    /\ get 5 "k" (PyStr "absent") false self' = (Ok PyNone, self')
    /\ get 5 "k" (PyStr "absent") false (__init__ (Connection [] true))
       = (Ok (PyStr "absent"), __init__ (Connection [] true)).
Proof.
  destruct (stored_null_is_returned (tz := Datetime.utc) (__init__ (Connection [] true))
              0 "k" eq_refl) as (self' & Hput & Hrows & Hget & Habsent & _).
  exists self'. split; [exact Hput|]. split; [exact Hrows|]. split; [apply Hget|].
  now apply Habsent.
Defined.

(** C8. For a key with no live row, [get(k, default=D, save_default_if_not_set=True)]
    returns [D] and writes [D] under [k] with no TTL; every later plain
    [get(k)] returns [D]. *)
Theorem get_saves_default {tz : Datetime.Zone} (self : KV) (now : Z) (k : string) (default : pyval) :
  json_value default = true -> writable (conn self) = true ->
  select_value (rows (conn self)) k (timestamp now) = [] ->
  exists self',
    get now k default true self = (Ok default, self')
    /\ rows (conn self') = replace_row (rows (conn self)) (stored k default None)
    /\ (forall later, get later k PyNone false self' = (Ok default, self')).
Proof.
  intros Hv Hw Habsent.
  destruct (get_after_put self now now k default PyNone None false Hv Hw)
    as (self' & Hput & Hrows & _).
  exists self'. split; [|split; [exact Hrows|]].
  - unfold get. rewrite Habsent. cbn [fetchone hd_error truthy_str negb].
    now rewrite Hput.
  - intro later.
    destruct (get_after_put self now later k default PyNone None false Hv Hw)
      as (self'' & Hput' & _ & _ & Hlive & _).
    rewrite Hput in Hput'. injection Hput' as <-.
    now apply Hlive.
Qed.

Lemma get_saves_default_witness :
  exists self',
    get 0 "missing" (PyStr "x") true (__init__ (Connection [] true)) = (Ok (PyStr "x"), self')
    /\ rows (conn self') = replace_row [] (stored "missing" (PyStr "x") None)
    /\ (forall later, get later "missing" PyNone false self' = (Ok (PyStr "x"), self')).
Proof.
  apply (get_saves_default (__init__ (Connection [] true)) 0 "missing" (PyStr "x"));
    reflexivity.
Defined.

(** C3, as the code has it. A stored falsy value is not taken for an absent
    key: while its row is live, [get(k, default=D, save_default_if_not_set=b)]
    returns the stored value and leaves the store as it is, for both [b]. *)
Theorem falsy_value_is_returned {tz : Datetime.Zone} (self : KV) (now later : Z) (k : string)
    (v default : pyval) (ttl_seconds : option Z) (save : bool) :
  json_value v = true -> falsy v = true -> writable (conn self) = true ->
  live (timestamp later) (stored k v (ttl_column now ttl_seconds)) = true ->
  exists self',
    put now k v ttl_seconds self = (Ok tt, self')
    /\ get later k default save self' = (Ok v, self').
Proof.
  intros Hv _ Hw Hlive.
  destruct (get_after_put self now later k v default ttl_seconds save Hv Hw)
    as (self' & Hput & _ & _ & Hget & _).
  exists self'. split; [exact Hput | now apply Hget].
Qed.

Lemma falsy_value_is_returned_witness :
  exists self',
    put 0 "count" (PyInt 0) None (__init__ (Connection [] true)) = (Ok tt, self')
    /\ get 5 "count" (PyInt 7) true self' = (Ok (PyInt 0), self').
Proof.
  apply (falsy_value_is_returned (__init__ (Connection [] true)) 0 5 "count"
           (PyInt 0) (PyInt 7) None true); reflexivity.
Defined.

(** C3, as stated, fails: with 0 stored under "count", the read with default
    7 and the save flag returns 0, not 7, and overwrites nothing. *)
Lemma falsy_value_counterexample :
  let kv := snd (put 0 "count" (PyInt 0) None (__init__ (Connection [] true))) in
  get 5 "count" (PyInt 7) true kv = (Ok (PyInt 0), kv)
  /\ fst (get 5 "count" (PyInt 7) true kv) <> Ok (PyInt 7).
Proof.
  split; [reflexivity | discriminate].
Qed.

(** C10. A TTL of zero is no TTL: [put(k, v, ttl_seconds=0)], and
    [put_cached(k, v, ttl_seconds=0)] once committed, store the row without
    expiry, and [get] and [get_partial] return it at every later time. *)
Theorem zero_ttl_never_expires {tz : Datetime.Zone} (self : KV) (now : Z) (k : string) (v : pyval) :
  json_value v = true -> writable (conn self) = true -> kv_ok self = true ->
  (exists self',
     put now k v (Some 0) self = (Ok tt, self')
     /\ In (stored k v None) (rows (conn self'))
     /\ forall later,
          get later k PyNone false self' = (Ok v, self')
          /\ forall beginning, String.prefix beginning k = true ->
               exists l, get_partial later beginning self' = (Ok l, self') /\ In (k, v) l)
  /\ (exists self1 self2,
        put_cached now k v (Some 0) self = (Ok tt, self1)
        /\ commit_cached self1 = (Ok tt, self2)
        /\ In (stored k v None) (rows (conn self2))
        /\ forall later,
             get later k PyNone false self2 = (Ok v, self2)
             /\ forall beginning, String.prefix beginning k = true ->
                  exists l, get_partial later beginning self2 = (Ok l, self2)
                            /\ In (k, v) l).
Proof.
  intros Hv Hw Hok. apply andb_prop in Hok as [Ht Hbuf].
  pose proof (JsonFacts.json_value_serializable v Hv) as Hs.
  split.
  - eexists. split; [now apply KVFacts.put_ok|]. cbn [conn rows ttl_column Z.eqb].
    split; [apply SqliteFacts.replace_row_In; now left|].
    now apply (KVFacts.stored_forever _ k v (rows (conn self))).
  - destruct (KVFacts.buffer_ok_rows self Hbuf) as (rs & Hb & Hlen & Hrs).
    destruct (KVFacts.put_cached_ok now k v (Some 0) self rs Hs Hb)
      as (self1 & Hput & Hconn & Hne & Hb1 & Hcount).
    cbn [ttl_column Z.eqb] in Hb1.
    exists self1. eexists. split; [exact Hput|]. split.
    + apply (KVFacts.commit_cached_ok self1 _ Hne Hb1).
      * rewrite Hcount, <- Hlen, length_app. reflexivity.
      * now rewrite Hconn.
    + cbn [conn rows]. rewrite SqliteFacts.fold_replace_row_last.
      split; [apply SqliteFacts.replace_row_In; now left|].
      apply (KVFacts.stored_forever _ k v (fold_left replace_row rs (rows (conn self1))));
        [exact Hv | | reflexivity].
      apply KVFacts.table_ok_fold; [now rewrite Hconn | exact Hrs].
Qed.

Lemma zero_ttl_never_expires_witness :
  (exists self',
     put 0 "k" (PyInt 1) (Some 0) (__init__ (Connection [] true)) = (Ok tt, self')
     /\ In (stored "k" (PyInt 1) None) (rows (conn self'))
     /\ forall later,
          get later "k" PyNone false self' = (Ok (PyInt 1), self')
          /\ forall beginning, String.prefix beginning "k" = true ->
               exists l, get_partial later beginning self' = (Ok l, self')
                         /\ In ("k", PyInt 1) l)
  /\ (exists self1 self2,
        put_cached 0 "k" (PyInt 1) (Some 0) (__init__ (Connection [] true)) = (Ok tt, self1)
        /\ commit_cached self1 = (Ok tt, self2)
        /\ In (stored "k" (PyInt 1) None) (rows (conn self2))
        /\ forall later,
             get later "k" PyNone false self2 = (Ok (PyInt 1), self2)
             /\ forall beginning, String.prefix beginning "k" = true ->
                  exists l, get_partial later beginning self2 = (Ok l, self2)
                            /\ In ("k", PyInt 1) l).
Proof.
  apply (zero_ttl_never_expires (__init__ (Connection [] true)) 0 "k" (PyInt 1));
    reflexivity.
Defined.

(** C5. [commit_cached] can be called again and again: on an empty buffer it
    does nothing; when it succeeds it has written the buffered rows in one
    statement and emptied the buffer, so the next call writes nothing; when
    it raises, the buffer and the table are as they were. *)
Theorem commit_cached_repeatable (self : KV) :
  (cache_values self = [] -> commit_cached self = (Ok tt, self))
  /\ (cache_values self <> [] ->
      forall self', commit_cached self = (Ok tt, self') ->
        exists rs,
          bind_rows (cache_values self) = Some rs
          /\ rows (conn self') = fold_left replace_row rs (rows (conn self))
          /\ (forall r, In r rs ->
                exists r', In r' (rows (conn self')) /\ key r' = key r /\ In r' rs)
          /\ cache_values self' = [] /\ cache_row_count self' = 0%nat
          /\ commit_cached self' = (Ok tt, self'))
  /\ (forall e self', commit_cached self = (Raise e, self') -> self' = self)
  /\ (buffer_ok self = true -> writable (conn self) = true ->
      exists self', commit_cached self = (Ok tt, self'))
  /\ (cache_values self <> [] -> writable (conn self) = false ->
      exists e, commit_cached self = (Raise e, self)).
Proof.
  split; [|split; [|split; [|split]]].
  - intro E. unfold commit_cached. now rewrite E.
  - intros Hne self' H. unfold commit_cached, insert_or_replace in H.
    destruct (cache_values self) as [|p ps] eqn:E; [now elim Hne|].
    destruct (Nat.eqb _ 0); [discriminate H|].
    destruct (negb _); [discriminate H|].
    destruct (bind_rows (p :: ps)) as [rs|]; [|discriminate H].
    destruct (writable (conn self)); [|discriminate H].
    injection H as <-. exists rs. cbn [conn rows cache_values cache_row_count].
    repeat split. apply SqliteFacts.fold_replace_row_In.
  - intros e self' H. unfold commit_cached in H.
    destruct (cache_values self); [discriminate H|].
    destruct (insert_or_replace _ _ _); [discriminate H|].
    now injection H as _ <-.
  - intros Hbuf Hw.
    destruct (KVFacts.buffer_ok_rows self Hbuf) as (rs & Hb & Hlen & _).
    destruct (cache_values self) as [|p ps] eqn:E.
    + exists self. unfold commit_cached. now rewrite E.
    + eexists. apply (KVFacts.commit_cached_ok self rs); try assumption.
      * rewrite E. discriminate.
      * now rewrite E.
  - intros Hne Hw. unfold commit_cached, insert_or_replace.
    destruct (cache_values self) as [|p ps] eqn:E; [now elim Hne|].
    destruct (Nat.eqb _ 0); [now eexists|].
    destruct (negb _); [now eexists|].
    destruct (bind_rows (p :: ps)); [|now eexists].
    rewrite Hw. now eexists.
Qed.

(* ------------------------------------------------------------------------- *)
(** ** The memoizing wrapper *)

Module MemoizeFacts.
Import Json Sqlite KVStore Memoize.

Section Zoned.
Context {tz : Datetime.Zone}.

Lemma get_no_save (now : Z) (k : string) (default : pyval) (self : KV) :
  snd (get now k default false self) = self.
Proof.
  unfold get. destruct (negb _); [reflexivity|].
  now destruct (fetchone _).
Qed.

Lemma world_eta (w : world) : Build_world (db w) (calls w) = w.
Proof. now destruct w. Qed.

(** A cached value other than [None] is returned and nothing else happens. *)
Lemma wrapper_hit (ttl_seconds : Z) (func : pyfunc) (now_get now_put : Z)
    (args : list pyval) (kwargs : list (string * pyval)) (w : world)
    (h : string) (response : pyval) :
  hash_function_args args kwargs = Ok h ->
  fst (get now_get (memo_key (hash_function_name func) h) PyNone false (__init__ (db w)))
  = Ok response ->
  is_none response = false ->
  wrapper ttl_seconds func now_get now_put args kwargs w = (Ok response, w).
Proof.
  intros Hh Hget Hnone. unfold wrapper. rewrite Hh.
  pose proof (get_no_save now_get (memo_key (hash_function_name func) h) PyNone
                (__init__ (db w))) as Hself.
  destruct (get now_get _ PyNone false (__init__ (db w))) as [res kv1].
  cbn [fst snd] in Hget, Hself. subst res kv1.
  rewrite Hnone. cbn [negb close __init__ conn]. now rewrite world_eta.
Qed.

(** On [None] from the store the function is called and its result is put. *)
Lemma wrapper_miss (ttl_seconds : Z) (func : pyfunc) (now_get now_put : Z)
    (args : list pyval) (kwargs : list (string * pyval)) (w : world)
    (h : string) (result : pyval) :
  hash_function_args args kwargs = Ok h ->
  fst (get now_get (memo_key (hash_function_name func) h) PyNone false (__init__ (db w)))
  = Ok PyNone ->
  call func args kwargs = Ok result ->
  wrapper ttl_seconds func now_get now_put args kwargs w
  = let called := (calls w ++ [(args, kwargs)])%list in
    match put now_put (memo_key (hash_function_name func) h) result (Some ttl_seconds)
            (__init__ (db w)) with
    | (Raise e, kv2) => (Raise e, Build_world (close kv2) called)
    | (Ok _, kv2) => (Ok result, Build_world (close kv2) called)
    end.
Proof.
  intros Hh Hget Hcall. unfold wrapper. rewrite Hh.
  pose proof (get_no_save now_get (memo_key (hash_function_name func) h) PyNone
                (__init__ (db w))) as Hself.
  destruct (get now_get _ PyNone false (__init__ (db w))) as [res kv1].
  cbn [fst snd] in Hget, Hself. subst res kv1.
  cbn [is_none negb]. now rewrite Hcall.
Qed.

Lemma append_inj (p a b : string) : p ++ a = p ++ b -> a = b.
Proof.
  induction p as [|c p IH]; cbn [append]; intro H; [exact H|].
  injection H as H. now apply IH.
Qed.

Lemma memo_key_inj (name h h' : string) : memo_key name h = memo_key name h' -> h = h'.
Proof.
  unfold memo_key. intro H.
  now apply append_inj, append_inj, append_inj in H.
Qed.

(** What the store answers for one key does not depend on a row put under
    another key. *)
Lemma get_other_key (now : Z) (k : string) (default : pyval) (db db' : connection)
    (r : row) :
  key r <> k -> rows db' = replace_row (rows db) r ->
  fst (get now k default false (__init__ db')) = fst (get now k default false (__init__ db)).
Proof.
  intros Hk Hrows. unfold get. cbn [__init__ conn]. rewrite Hrows.
  rewrite (SqliteFacts.select_value_other _ r k _ Hk).
  destruct (negb _); [reflexivity|]. now destruct (fetchone _).
Qed.

End Zoned.

End MemoizeFacts.

(** C2, as the code has it. When the result of the wrapped function cannot be
    serialized, the wrapper has called the function, stores nothing and
    raises [TypeError]: the computed result does not reach the caller. *)
Theorem unserializable_result_raises {tz : Datetime.Zone} (ttl_seconds : Z) (func : pyfunc)
    (now_get now_put : Z) (args : list pyval) (kwargs : list (string * pyval))
    (w : world) (h : string) (result : pyval) :
  hash_function_args args kwargs = Ok h ->
  fst (get now_get (memo_key (hash_function_name func) h) PyNone false (__init__ (db w)))
  = Ok PyNone ->
  call func args kwargs = Ok result ->
  serializable result = false ->
  wrapper ttl_seconds func now_get now_put args kwargs w
  = (Raise TypeError, Build_world (db w) (calls w ++ [(args, kwargs)])%list).
Proof.
  intros Hh Hmiss Hcall Hs.
  rewrite (MemoizeFacts.wrapper_miss ttl_seconds func now_get now_put args kwargs w h result
             Hh Hmiss Hcall).
  cbv zeta. now rewrite (KVFacts.put_raises _ _ _ _ _ Hs).
Qed.

Lemma unserializable_result_raises_witness :
  wrapper 60 returns_object 0 0 [PyInt 1] [] empty_world
  = (Raise TypeError, Build_world (db empty_world) (calls empty_world ++ [([PyInt 1], [])])%list).
Proof.
  apply (unserializable_result_raises 60 returns_object 0 0 [PyInt 1] [] empty_world
           (Sha1.hexdigest "[1]-{}") (PyObject 0)); reflexivity.
Defined.

(** C2, as stated, fails: the function returns an object, and the wrapper
    raises instead of returning it. *)
Lemma unserializable_result_counterexample :
  call returns_object [PyInt 1] [] = Ok (PyObject 0)
  /\ fst (wrapper 60 returns_object 0 0 [PyInt 1] [] empty_world) = Raise TypeError
  /\ fst (wrapper 60 returns_object 0 0 [PyInt 1] [] empty_world) <> Ok (PyObject 0).
Proof.
  split; [reflexivity|]. split; [vm_compute; reflexivity | vm_compute; discriminate].
Qed.

(** C4, as the code has it. On a miss the function is called once and its
    result stored. If the result is a value of the model other than [None],
    a second call with the same arguments within the TTL returns it from the
    store and calls nothing. If the result is [None], the second call calls
    the function again. A call whose arguments hash to another key, with no
    live entry of its own, calls the function. *)
Theorem memoized_calls {tz : Datetime.Zone} (ttl_seconds : Z) (func : pyfunc) (t1 t2 t3 t4 : Z)
    (args : list pyval) (kwargs : list (string * pyval)) (w : world)
    (h : string) (result : pyval) :
  hash_function_args args kwargs = Ok h ->
  fst (get t1 (memo_key (hash_function_name func) h) PyNone false (__init__ (db w)))
  = Ok PyNone ->
  call func args kwargs = Ok result ->
  json_value result = true ->
  writable (db w) = true ->
  ttl_seconds = 0 \/ timestamp t3 < expiry t2 ttl_seconds ->
  exists w1,
    wrapper ttl_seconds func t1 t2 args kwargs w = (Ok result, w1)
    /\ calls w1 = (calls w ++ [(args, kwargs)])%list
    /\ (is_none result = false ->
        wrapper ttl_seconds func t3 t4 args kwargs w1 = (Ok result, w1))
    /\ (is_none result = true ->
        exists w2,
          wrapper ttl_seconds func t3 t4 args kwargs w1 = (Ok result, w2)
          /\ calls w2 = (calls w1 ++ [(args, kwargs)])%list)
    /\ (forall args' kwargs' h' outcome,
          hash_function_args args' kwargs' = Ok h' -> h' <> h ->
          fst (get t3 (memo_key (hash_function_name func) h') PyNone false (__init__ (db w)))
          = Ok PyNone ->
          call func args' kwargs' = outcome ->
          fst (wrapper ttl_seconds func t3 t4 args' kwargs' w1)
          = match outcome with
            | Ok r => if serializable r then Ok r else Raise TypeError
            | Raise e => Raise e
            end
          /\ calls (snd (wrapper ttl_seconds func t3 t4 args' kwargs' w1))
             = (calls w1 ++ [(args', kwargs')])%list).
Proof.
  intros Hh Hmiss Hcall Hv Hw Httl.
  pose proof (JsonFacts.json_value_serializable result Hv) as Hs.
  set (k := memo_key (hash_function_name func) h) in *.
  set (r := stored k result (ttl_column t2 (Some ttl_seconds))).
  set (w1 := Build_world (Connection (replace_row (rows (db w)) r) true)
                         (calls w ++ [(args, kwargs)])%list).
  assert (Hfirst : wrapper ttl_seconds func t1 t2 args kwargs w = (Ok result, w1)).
  { rewrite (MemoizeFacts.wrapper_miss ttl_seconds func t1 t2 args kwargs w h result
               Hh Hmiss Hcall).
    cbv zeta. fold k. now rewrite KVFacts.put_ok. }
  assert (Hlive : live (timestamp t3) r = true).
  { unfold r. cbn [ttl_column stored live ttl].
    destruct (Z.eqb_spec ttl_seconds 0) as [E|E]; [reflexivity|].
    cbn [ttl]. apply Z.ltb_lt. now destruct Httl. }
  assert (Hget : get t3 k PyNone false (__init__ (db w1)) = (Ok result, __init__ (db w1))).
  { rewrite (KVFacts.get_found t3 k PyNone false _ r).
    - unfold r. cbn [value stored]. now rewrite KVFacts.decode_value_stored.
    - cbn [__init__ conn db w1 rows].
      change k with (key r) at 1.
      now rewrite SqliteFacts.select_value_replaced, Hlive.
    - apply KVFacts.stored_truthy. }
  exists w1. split; [exact Hfirst|]. split; [reflexivity|]. split; [|split].
  - intro Hnone.
    apply (MemoizeFacts.wrapper_hit ttl_seconds func t3 t4 args kwargs w1 h result Hh);
      [fold k; now rewrite Hget | exact Hnone].
  - intro Hnone. destruct result; try discriminate Hnone.
    rewrite (MemoizeFacts.wrapper_miss ttl_seconds func t3 t4 args kwargs w1 h PyNone
               Hh); [|fold k; now rewrite Hget | exact Hcall].
    cbv zeta. rewrite KVFacts.put_ok by reflexivity.
    eexists. split; reflexivity.
  - intros args' kwargs' h' outcome Hh' Hne Hmiss' Hcall'.
    set (k' := memo_key (hash_function_name func) h') in *.
    assert (Hk : key r <> k').
    { intro E. apply Hne. symmetry. exact (MemoizeFacts.memo_key_inj _ _ _ E). }
    assert (Hmiss1 : fst (get t3 k' PyNone false (__init__ (db w1))) = Ok PyNone).
    { rewrite (MemoizeFacts.get_other_key t3 k' PyNone (db w) (db w1) r Hk eq_refl).
      exact Hmiss'. }
    split.
    + destruct outcome as [r'|e].
      * rewrite (MemoizeFacts.wrapper_miss ttl_seconds func t3 t4 args' kwargs' w1 h' r'
                   Hh' Hmiss1 Hcall').
        cbv zeta. fold k'. destruct (serializable r') eqn:Es.
        -- now rewrite KVFacts.put_ok.
        -- now rewrite KVFacts.put_raises.
      * unfold wrapper. rewrite Hh'. fold k'.
        pose proof (MemoizeFacts.get_no_save t3 k' PyNone (__init__ (db w1))) as Hself.
        destruct (get t3 k' PyNone false (__init__ (db w1))) as [res kv1].
        cbn [fst snd] in Hmiss1, Hself. subst res kv1.
        cbn [is_none negb]. now rewrite Hcall'.
    + destruct outcome as [r'|e].
      * rewrite (MemoizeFacts.wrapper_miss ttl_seconds func t3 t4 args' kwargs' w1 h' r'
                   Hh' Hmiss1 Hcall').
        cbv zeta. fold k'. destruct (serializable r') eqn:Es.
        -- now rewrite KVFacts.put_ok.
        -- now rewrite KVFacts.put_raises.
      * unfold wrapper. rewrite Hh'. fold k'.
        pose proof (MemoizeFacts.get_no_save t3 k' PyNone (__init__ (db w1))) as Hself.
        destruct (get t3 k' PyNone false (__init__ (db w1))) as [res kv1].
        cbn [fst snd] in Hmiss1, Hself. subst res kv1.
        cbn [is_none negb]. now rewrite Hcall'.
Qed.

Lemma memoized_calls_witness :
  exists w1,
    wrapper 60 echo 0 0 [PyInt 1] [] empty_world = (Ok (PyList [PyInt 1]), w1)
    /\ calls w1 = [([PyInt 1], [])]
    /\ wrapper 60 echo 59999999 59999999 [PyInt 1] [] w1 = (Ok (PyList [PyInt 1]), w1).
Proof.
  destruct (memoized_calls (tz := Datetime.utc) 60 echo 0 0 59999999 59999999 [PyInt 1] [] empty_world
              (Sha1.hexdigest "[1]-{}") (PyList [PyInt 1])
              eq_refl eq_refl eq_refl eq_refl eq_refl (or_intror eq_refl))
    as (w1 & H1 & Hcalls & Hhit & _).
  exists w1. split; [exact H1|]. split; [exact Hcalls|]. now apply Hhit.
Defined.

(** C4, as stated, fails twice. A function that returns [None] is called by
    each of two successive calls with the same arguments; and after a call
    with the list [1], a call with the tuple (1,), a different argument, is
    served from the store without a call of the function. *)
Lemma memoized_calls_counterexample :
  (let w1 := snd (wrapper 60 returns_none 0 0 [PyInt 1] [] empty_world) in
   let w2 := snd (wrapper 60 returns_none 1 1 [PyInt 1] [] w1) in
   calls w2 = [([PyInt 1], []); ([PyInt 1], [])])
  /\ (let w1 := snd (wrapper 60 echo 0 0 [PyList [PyInt 1]] [] empty_world) in
      let w2 := snd (wrapper 60 echo 1 1 [PyTuple [PyInt 1]] [] w1) in
      calls w2 = [([PyList [PyInt 1]], [])]
      /\ PyList [PyInt 1] <> PyTuple [PyInt 1]).
Proof.
  split; [vm_compute; reflexivity|]. split; [vm_compute; reflexivity | discriminate].
Qed.

Lemma commit_cached_repeatable_witness :
  exists self',
    commit_cached two_buffered = (Ok tt, self')
    /\ rows (conn self') = [stored "user:1" (PyInt 1) None; stored "user:2" (PyInt 2) None]
    /\ cache_values self' = []
    /\ commit_cached self' = (Ok tt, self').
Proof.
  destruct (commit_cached_repeatable two_buffered) as (_ & Hdone & _ & Hruns & _).
  destruct (Hruns eq_refl eq_refl) as (self' & Hcommit).
  exists self'. split; [exact Hcommit|].
  destruct (Hdone ltac:(discriminate) self' Hcommit) as (rs & Hb & Hrows & _ & Hvals & _ & Hagain).
  injection Hb as <-.
  repeat split; assumption.
Defined.

(** C6 at an input where the code leaves the claim. The store holds the keys
    user_1, users1 and USER_2; the prefix user_ is a prefix of the first
    alone, and [get_partial] returns all three: the underscore of the prefix
    matches any character, and [LIKE] does not tell the cases apart. *)

Lemma get_partial_matches_more :
  fst (get_partial 0 "user_" users)
  = Ok [("user_1", PyInt 1); ("users1", PyInt 2); ("USER_2", PyInt 3)]
  /\ String.prefix "user_" "users1" = false
  /\ String.prefix "user_" "USER_2" = false.
Proof. repeat split. Qed.

(** C7 at the same input: [delete_partial] with the prefix user_ deletes the
    three rows, two of them under keys that do not start with it. *)
Lemma delete_partial_deletes_more :
  delete_partial "user_" users = (Ok tt, __init__ (Connection [] true))
  /\ String.prefix "user_" "users1" = false
  /\ String.prefix "user_" "USER_2" = false.
Proof. repeat split. Qed.

(* ------------------------------------------------------------------------- *)
(** ** Further properties of the prefix operations and of the cache *)

Lemma insert_by_value_sorted (r : row) (l : list row) :
  Sorted (fun a b => String.leb (value a) (value b) = true) l ->
  Sorted (fun a b => String.leb (value a) (value b) = true) (insert_by_value r l).
Proof.
  induction l as [|x l IH]; intro Hs; cbn [insert_by_value].
  - repeat constructor.
  - destruct (String.leb (value r) (value x)) eqn:E.
    + constructor; [exact Hs | now constructor].
    + inversion_clear Hs as [|? ? Hl Hhd].
      constructor; [now apply IH|].
      assert (Hx : String.leb (value x) (value r) = true)
        by (destruct (String.leb_total (value x) (value r)); congruence).
      destruct l as [|y l]; cbn [insert_by_value]; [now constructor|].
      destruct (String.leb (value r) (value y)); constructor;
        [exact Hx | now inversion_clear Hhd].
Qed.

Lemma order_by_value_sorted (l : list row) :
  Sorted (fun a b => String.leb (value a) (value b) = true) (order_by_value l).
Proof.
  induction l as [|x l IH]; cbn [order_by_value fold_right]; [constructor|].
  now apply insert_by_value_sorted.
Qed.

(** What [get_partial] returns, in the terms of its SQL, for a pattern of
    the length SQLite takes: the live rows whose key matches
    [beginning || '%'] under [LIKE], each once and decoded, in the order of
    their stored texts; among them every live row whose key starts with
    [beginning]; nothing when no key matches. *)
Theorem get_partial_like {tz : Datetime.Zone} (self : KV) (now : Z) (beginning : string) :
  pattern_fits beginning = true ->
  table_ok (rows (conn self)) = true ->
  exists selected l,
    get_partial now beginning self = (Ok l, self)
    /\ Permutation selected
         (filter (fun r => (key_like beginning r && live (timestamp now) r)%bool)
                 (rows (conn self)))
    /\ Sorted (fun a b => String.leb (value a) (value b) = true) selected
    /\ Forall2 (fun r kv => fst kv = key r /\ _decode_value (value r) = Ok (snd kv))
               selected l
    /\ (forall r, In r (rows (conn self)) -> String.prefix beginning (key r) = true ->
                  live (timestamp now) r = true -> In r selected)
    /\ ((forall r, In r (rows (conn self)) -> key_like beginning r = false) -> l = []).
Proof.
  intros _ Hok. unfold get_partial, select_like.
  set (matching := filter (fun r => (key_like beginning r && live (timestamp now) r)%bool)
                          (rows (conn self))).
  assert (Hdec : Forall (fun r => decodable (value r) = true) (order_by_value matching)).
  { rewrite Forall_forall. intros r Hr.
    apply (Permutation_in _ (Permutation_sym (SqliteFacts.order_by_value_perm _))) in Hr.
    apply filter_In in Hr as [Hr _].
    unfold table_ok in Hok. rewrite forallb_forall in Hok. now apply Hok. }
  assert (Hrows : exists l,
             decode_rows (map (fun r => (key r, value r)) (order_by_value matching)) = Ok l
             /\ Forall2 (fun r kv => fst kv = key r /\ _decode_value (value r) = Ok (snd kv))
                        (order_by_value matching) l).
  { induction Hdec as [|r rs Hr _ IH]; [exists []; split; constructor|].
    destruct IH as (l & Hl & HF). unfold decodable in Hr.
    destruct (_decode_value (value r)) as [v|] eqn:E; [|discriminate Hr].
    exists ((key r, v) :: l). cbn [map decode_rows]. rewrite E. cbn [bind].
    rewrite Hl. split; [reflexivity | now constructor]. }
  destruct Hrows as (l & Hl & HF).
  exists (order_by_value matching), l. rewrite Hl.
  split; [reflexivity|]. split; [symmetry; apply SqliteFacts.order_by_value_perm|].
  split; [apply order_by_value_sorted|]. split; [exact HF|]. split.
  - intros r Hr Hp Hlive.
    apply (Permutation_in _ (SqliteFacts.order_by_value_perm _)).
    apply filter_In. split; [exact Hr|].
    unfold key_like. now rewrite SqliteFacts.like_prefix, Hlive.
  - intro Hnone.
    assert (Hm : matching = []).
    { apply SqliteFacts.filter_none. intros r Hr. now rewrite (Hnone r Hr). }
    rewrite Hm in HF. now inversion HF.
Qed.

Lemma get_partial_like_witness :
  exists selected l,
    get_partial 0 "user:" two_users = (Ok l, two_users)
    /\ Permutation selected
         (filter (fun r => (key_like "user:" r && live (timestamp 0) r)%bool)
                 (rows (conn two_users)))
    /\ Sorted (fun a b => String.leb (value a) (value b) = true) selected
    /\ Forall2 (fun r kv => fst kv = key r /\ _decode_value (value r) = Ok (snd kv))
               selected l
    /\ (forall r, In r (rows (conn two_users)) -> String.prefix "user:" (key r) = true ->
                  live (timestamp 0) r = true -> In r selected)
    /\ ((forall r, In r (rows (conn two_users)) -> key_like "user:" r = false) -> l = []).
Proof.
  apply (get_partial_like two_users 0 "user:"); reflexivity.
Defined.

(** What [delete_partial] removes, in the terms of its SQL, for a pattern of
    the length SQLite takes: the rows, expired or not, whose key matches
    [beginning || '%'] under [LIKE]; among them every row whose key starts
    with [beginning]; the other rows stay as they are and in their order;
    nothing changes when no key matches. *)
Theorem delete_partial_like (self : KV) (beginning : string) :
  pattern_fits beginning = true ->
  writable (conn self) = true ->
  exists self',
    delete_partial beginning self = (Ok tt, self')
    /\ rows (conn self') = filter (fun r => negb (key_like beginning r)) (rows (conn self))
    /\ cache_values self' = cache_values self
    /\ (forall r, In r (rows (conn self)) -> String.prefix beginning (key r) = true ->
                  ~ In r (rows (conn self')))
    /\ (forall r, In r (rows (conn self)) -> key_like beginning r = false ->
                  In r (rows (conn self')))
    /\ ((forall r, In r (rows (conn self)) -> key_like beginning r = false) ->
        rows (conn self') = rows (conn self)).
Proof.
  intros _ Hw. unfold delete_partial, delete_like. rewrite Hw.
  eexists. split; [reflexivity|]. cbn [conn rows cache_values].
  split; [reflexivity|]. split; [reflexivity|]. split; [|split].
  - intros r _ Hp Hin. apply filter_In in Hin as [_ Hin].
    unfold key_like in Hin. now rewrite SqliteFacts.like_prefix in Hin.
  - intros r Hr Hl. apply filter_In. now rewrite Hl.
  - intro Hnone. apply SqliteFacts.filter_all. intros r Hr. now rewrite (Hnone r Hr).
Qed.

Lemma delete_partial_like_witness :
  exists self',
    delete_partial "user:1" two_users = (Ok tt, self')
    /\ rows (conn self') = filter (fun r => negb (key_like "user:1" r)) (rows (conn two_users))
    /\ cache_values self' = cache_values two_users
    /\ (forall r, In r (rows (conn two_users)) -> String.prefix "user:1" (key r) = true ->
                  ~ In r (rows (conn self')))
    /\ (forall r, In r (rows (conn two_users)) -> key_like "user:1" r = false ->
                  In r (rows (conn self')))
    /\ ((forall r, In r (rows (conn two_users)) -> key_like "user:1" r = false) ->
        rows (conn self') = rows (conn two_users)).
Proof.
  apply (delete_partial_like two_users "user:1"); reflexivity.
Defined.

(** After [delete_memoized(F)] the next call of the wrapper calls [F],
    whatever was cached for it and however much of its TTL was left. *)
Theorem delete_memoized_forces_call {tz : Datetime.Zone} (ttl_seconds : Z) (func : pyfunc) (now_get now_put : Z)
    (args : list pyval) (kwargs : list (string * pyval)) (w : world) (h : string) :
  hash_function_args args kwargs = Ok h ->
  writable (db w) = true ->
  exists w1,
    delete_memoized func w = (Ok tt, w1)
    /\ calls w1 = calls w
    /\ calls (snd (wrapper ttl_seconds func now_get now_put args kwargs w1))
       = (calls w ++ [(args, kwargs)])%list.
Proof.
  intros Hh Hw. unfold delete_memoized, delete_partial, delete_like.
  cbn [__init__ conn]. rewrite Hw. eexists. split; [reflexivity|].
  cbn [calls close conn]. split; [reflexivity|].
  set (t := filter _ (rows (db w))).
  assert (Hmiss : select_value t (memo_key (hash_function_name func) h) (timestamp now_get)
                  = []).
  { unfold select_value. rewrite SqliteFacts.filter_none; [reflexivity|].
    intros x Hx. apply filter_In in Hx as [_ Hx].
    destruct (String.eqb_spec (key x) (memo_key (hash_function_name func) h)) as [E|_];
      [|reflexivity].
    unfold key_like in Hx. rewrite E, SqliteFacts.like_prefix in Hx; [discriminate Hx|].
    unfold memo_key. rewrite <- JsonFacts.append_assoc.
    apply SqliteFacts.prefix_append. }
  unfold wrapper. rewrite Hh. unfold get. cbn [__init__ conn db rows].
  rewrite Hmiss. cbn [fetchone hd_error truthy_str negb is_none calls close conn].
  destruct (call func args kwargs) as [r|e]; [|reflexivity].
  now destruct (put now_put _ r (Some ttl_seconds) _) as [[[]|e] kv2].
Qed.

Lemma delete_memoized_forces_call_witness :
  exists w1,
    delete_memoized echo cached_world = (Ok tt, w1)
    /\ calls w1 = calls cached_world
    /\ calls (snd (wrapper 60 echo 1 1 [PyInt 1] [] w1))
       = (calls cached_world ++ [([PyInt 1], [])])%list.
Proof.
  apply (delete_memoized_forces_call 60 echo 1 1 [PyInt 1] [] cached_world
           (Sha1.hexdigest "[1]-{}")); reflexivity.
Defined.

(* ------------------------------------------------------------------------- *)
(** ** Further properties of the store *)

Module SessionFacts.
Import Json Sqlite KVStore Session.

Section Zoned.
Context {tz : Datetime.Zone}.

(** *** Tuples come back as lists *)

Lemma text_jsonify (sort_keys : bool) (v : pyval) :
  text sort_keys (jsonify v) = text sort_keys v.
Proof.
  induction v as [|b|n|s|l IH|l IH|d IH|id] using pyval_ind; try reflexivity.
  - cbn [jsonify text]. do 2 f_equal. rewrite map_map. f_equal.
    induction IH as [|x l Hx _ IHl]; cbn [map]; [reflexivity | now rewrite Hx, IHl].
  - cbn [jsonify text]. do 2 f_equal. rewrite map_map. f_equal.
    induction IH as [|x l Hx _ IHl]; cbn [map]; [reflexivity | now rewrite Hx, IHl].
  - cbn [jsonify text]. rewrite map_map. cbn [fst snd].
    replace (map (fun x => (fst x, text sort_keys (jsonify (snd x)))) d)
      with (map (fun kv => (fst kv, text sort_keys (snd kv))) d); [reflexivity|].
    induction IH as [|x l Hx _ IHl]; cbn [map]; [reflexivity | now rewrite Hx, IHl].
Qed.

Lemma json_value_jsonify (v : pyval) :
  storable v = true -> json_value (jsonify v) = true.
Proof.
  unfold storable. intro H. apply andb_prop in H as [Hp Hs]. revert Hp Hs.
  induction v as [|b|n|s|l IH|l IH|d IH|id] using pyval_ind; intros Hp Hs;
    try reflexivity; try discriminate Hs.
  - cbn [python_value serializable jsonify json_value] in *.
    rewrite forallb_forall in *. rewrite Forall_forall in IH.
    intros y Hy. apply in_map_iff in Hy as (x & <- & Hx). now apply IH; auto.
  - cbn [python_value serializable jsonify json_value] in *.
    rewrite forallb_forall in *. rewrite Forall_forall in IH.
    intros y Hy. apply in_map_iff in Hy as (x & <- & Hx). now apply IH; auto.
  - cbn [python_value serializable jsonify json_value] in *.
    apply andb_prop in Hp as [Hd Hp].
    replace (map fst (map (fun kv => (fst kv, jsonify (snd kv))) d)) with (map fst d)
      by (rewrite map_map; apply map_ext; reflexivity).
    rewrite Hd. cbn [andb].
    rewrite forallb_forall in *. rewrite Forall_forall in IH.
    intros y Hy. apply in_map_iff in Hy as (x & <- & Hx). cbn [snd]. now apply IH; auto.
Qed.

Lemma jsonify_json_value (v : pyval) : json_value v = true -> jsonify v = v.
Proof.
  induction v as [|b|n|s|l IH|l IH|d IH|id] using pyval_ind; intro H;
    try reflexivity; try discriminate H.
  - cbn [json_value jsonify] in *. f_equal. rewrite forallb_forall in H.
    induction IH as [|x l Hx _ IHl]; cbn [map]; [reflexivity|].
    rewrite Hx by (apply H; now left). rewrite IHl; [reflexivity|].
    intros y Hy. apply H. now right.
  - cbn [json_value jsonify] in *. apply andb_prop in H as [_ H]. f_equal.
    rewrite forallb_forall in H.
    induction IH as [|[k x] l Hx _ IHl]; cbn [map fst snd]; [reflexivity|].
    cbn [snd] in Hx. rewrite Hx by (apply (H (k, x)); now left).
    rewrite IHl; [reflexivity|]. intros y Hy. apply H. now right.
Qed.

Lemma storable_stored (v : pyval) :
  storable v = true -> storable (PyDict [("value", v)]) = true.
Proof.
  unfold storable. intro H. apply andb_prop in H as [Hp Hs].
  cbn [python_value serializable map fst snd distinct existsb forallb negb andb].
  now rewrite Hp, Hs.
Qed.

Lemma decode_value_storable (v : pyval) :
  storable v = true ->
  _decode_value (text false (PyDict [("value", v)])) = Ok (jsonify v).
Proof.
  intro H. unfold _decode_value.
  rewrite <- (text_jsonify false (PyDict [("value", v)])).
  rewrite JsonFacts.loads_text by (apply json_value_jsonify; now apply storable_stored).
  reflexivity.
Qed.

Lemma decodable_storable (k : string) (v : pyval) (t : option Z) :
  storable v = true -> decodable (value (stored k v t)) = true.
Proof.
  intro H. unfold decodable. cbn [value stored]. now rewrite decode_value_storable.
Qed.

(** *** Keys stay distinct and values readable *)

Lemma keys_filter (f : row -> bool) (t : table) :
  NoDup (map key t) -> NoDup (map key (filter f t)).
Proof.
  induction t as [|x t IH]; cbn [map filter]; intro H; [constructor|].
  inversion_clear H as [|? ? Hx Ht].
  destruct (f x); cbn [map]; [|now apply IH].
  constructor; [|now apply IH].
  intro Hin. apply Hx. apply in_map_iff in Hin as (y & E & Hy).
  apply filter_In in Hy as [Hy _]. apply in_map_iff. now exists y.
Qed.

Lemma keys_replace_row (t : table) (r : row) :
  NoDup (map key t) -> NoDup (map key (replace_row t r)).
Proof.
  intro H. unfold replace_row. rewrite List.map_app. cbn [map].
  apply NoDup_app; [now apply keys_filter | repeat constructor; intros [] |].
  intros a Ha [<-|[]].
  apply in_map_iff in Ha as (y & E & Hy). apply filter_In in Hy as [_ Hy].
  rewrite E, String.eqb_refl in Hy. discriminate Hy.
Qed.

Lemma keys_fold (rs : list row) :
  forall t, NoDup (map key t) -> NoDup (map key (fold_left replace_row rs t)).
Proof.
  induction rs as [|r rs IH]; intros t H; [exact H|].
  cbn [fold_left]. apply IH. now apply keys_replace_row.
Qed.

Lemma table_ok_filter (f : row -> bool) (t : table) :
  table_ok t = true -> table_ok (filter f t) = true.
Proof.
  unfold table_ok. rewrite !forallb_forall. intros H x Hx.
  apply filter_In in Hx as [Hx _]. now apply H.
Qed.

Lemma replace_row_twice (t : table) (r1 r2 : row) :
  key r1 = key r2 -> replace_row (replace_row t r1) r2 = replace_row t r2.
Proof.
  intro E. unfold replace_row. rewrite filter_app. cbn [filter].
  rewrite E, String.eqb_refl. cbn [negb]. rewrite List.app_nil_r. f_equal.
  induction t as [|x t IH]; [reflexivity|]. cbn [filter].
  destruct (String.eqb (key x) (key r2)) eqn:Ex; cbn [negb filter]; [exact IH|].
  rewrite Ex. cbn [negb]. now rewrite IH.
Qed.

Lemma one_row_per_key (t : table) (r : row) :
  length (filter (fun x => String.eqb (key x) (key r)) (replace_row t r)) = 1%nat.
Proof.
  unfold replace_row. rewrite filter_app. cbn [filter]. rewrite String.eqb_refl.
  rewrite length_app. cbn [length].
  rewrite SqliteFacts.filter_none; [reflexivity|].
  intros x Hx. apply filter_In in Hx as [_ Hx].
  now destruct (String.eqb (key x) (key r)).
Qed.

(** [put], as far as the object goes: it is left alone when the call raises,
    and holds the new row otherwise. *)
Lemma put_cases (now : Z) (k : string) (v : pyval) (ttl_seconds : option Z) (self : KV) :
  (exists e, put now k v ttl_seconds self = (Raise e, self))
  \/ (serializable v = true /\ writable (conn self) = true
      /\ put now k v ttl_seconds self
         = (Ok tt,
            Build_KV (Connection (replace_row (rows (conn self))
                                    (stored k v (ttl_column now ttl_seconds))) true)
                     (cache_values self) (cache_row_count self))).
Proof.
  destruct (serializable v) eqn:Hs.
  - destruct (writable (conn self)) eqn:Hw.
    + right. repeat split. now apply KVFacts.put_ok.
    + left. exists OperationalError. unfold put.
      rewrite KVFacts.ttl_column_eq, (KVFacts.encode_value_serializable v Hs).
      unfold insert_or_replace. cbn [length Nat.eqb Nat.mul Nat.add negb].
      destruct (ttl_column now ttl_seconds); cbn [bind_rows]; now rewrite Hw.
  - left. exists TypeError. now apply KVFacts.put_raises.
Qed.

(** *** Rows written in one statement *)

Lemma select_value_fold_others (rs : list row) (k : string) (now_seconds : Z) :
  forall t, (forall x, In x rs -> key x <> k) ->
            select_value (fold_left replace_row rs t) k now_seconds
            = select_value t k now_seconds.
Proof.
  induction rs as [|r rs IH]; intros t H; [reflexivity|].
  cbn [fold_left]. rewrite IH by (intros x Hx; apply H; now right).
  apply SqliteFacts.select_value_other. apply H. now left.
Qed.

Lemma select_value_fold_last (before after : list row) (r : row) (t : table)
    (now_seconds : Z) :
  (forall x, In x after -> key x <> key r) ->
  select_value (fold_left replace_row (before ++ r :: after)%list t) (key r) now_seconds
  = if live now_seconds r then [value r] else [].
Proof.
  intro H. rewrite fold_left_app. cbn [fold_left].
  rewrite select_value_fold_others by exact H.
  apply SqliteFacts.select_value_replaced.
Qed.

(** With one row a key, the statement of [get] finds the row of the key. *)
Lemma select_value_in (t : table) (r : row) (now_seconds : Z) :
  NoDup (map key t) -> In r t ->
  select_value t (key r) now_seconds = if live now_seconds r then [value r] else [].
Proof.
  intros Hnd Hin. unfold select_value.
  induction t as [|x t IH]; [destruct Hin|].
  cbn [map] in Hnd. inversion_clear Hnd as [|? ? Hx Hnd'].
  cbn [filter]. destruct Hin as [->|Hin].
  - rewrite String.eqb_refl. cbn [andb].
    rewrite (SqliteFacts.filter_none _ _ t).
    + now destruct (live now_seconds r).
    + intros y Hy. destruct (String.eqb_spec (key y) (key r)) as [E|_]; [|reflexivity].
      elim Hx. rewrite <- E. now apply in_map.
  - destruct (String.eqb_spec (key x) (key r)) as [E|_]; cbn [andb].
    + elim Hx. rewrite E. now apply in_map.
    + now apply IH.
Qed.

Lemma put_all_cached_ok (now : Z) (items : list (string * pyval)) :
  forall (self : KV) (rs : list row),
    bind_rows (cache_values self) = Some rs ->
    forallb (fun kv => serializable (snd kv)) items = true ->
    conn (put_all_cached now items self) = conn self
    /\ bind_rows (cache_values (put_all_cached now items self))
       = Some (rs ++ map row_of items)%list
    /\ cache_row_count (put_all_cached now items self)
       = (cache_row_count self + length items)%nat
    /\ (items <> [] -> cache_values (put_all_cached now items self) <> []).
Proof.
  induction items as [|[k v] items IH]; intros self rs Hb Hs.
  - cbn [put_all_cached fold_left map length]. rewrite List.app_nil_r, Nat.add_0_r.
    repeat split; [exact Hb | intro H; now elim H].
  - cbn [forallb snd] in Hs. apply andb_prop in Hs as [Hv Hs].
    destruct (KVFacts.put_cached_ok now k v None self rs Hv Hb)
      as (self1 & Hput & Hconn & Hne & Hb1 & Hcount).
    change (put_all_cached now ((k, v) :: items) self)
      with (put_all_cached now items (snd (put_cached now k v None self))).
    rewrite Hput. cbn [snd].
    destruct (IH self1 _ Hb1 Hs) as (Hc & Hbind & Hn & Hnonempty).
    rewrite Hc, Hbind, Hn, Hconn, Hcount, <- List.app_assoc. cbn [length map app].
    repeat split; [lia|]. intros _.
    destruct items as [|kv items]; [exact Hne | apply Hnonempty; discriminate].
Qed.

End Zoned.

End SessionFacts.

Import Session.

(** What [put] writes is what [get] reads, up to [json]: for every value
    made of [None], booleans, integers of at most 4300 digits, strings,
    lists, tuples and dicts with string keys, [get] returns the value with
    its tuples turned into lists while the row is live, and the value itself
    when it holds no tuple. *)
Theorem put_get_jsonify {tz : Datetime.Zone} (self : KV) (now later : Z) (k : string) (v default : pyval)
    (ttl_seconds : option Z) (save : bool) :
  storable v = true -> digits_fit v = true -> writable (conn self) = true ->
  live (timestamp later) (stored k v (ttl_column now ttl_seconds)) = true ->
  exists self',
    put now k v ttl_seconds self = (Ok tt, self')
    /\ get later k default save self' = (Ok (jsonify v), self')
    /\ (json_value v = true -> jsonify v = v).
Proof.
  intros Hv _ Hw Hlive.
  assert (Hs : serializable v = true) by (unfold storable in Hv; now apply andb_prop in Hv).
  eexists. split; [now apply KVFacts.put_ok|]. split; [|apply SessionFacts.jsonify_json_value].
  rewrite (KVFacts.get_found later k default save _ (stored k v (ttl_column now ttl_seconds))).
  - cbn [value stored]. now rewrite SessionFacts.decode_value_storable.
  - cbn [conn rows].
    rewrite (SqliteFacts.select_value_replaced _ (stored k v (ttl_column now ttl_seconds))).
    now rewrite Hlive.
  - apply KVFacts.stored_truthy.
Qed.

Lemma put_get_jsonify_witness :
  exists self',
    put 0 "point" (PyTuple [PyInt 1; PyInt 2]) None (__init__ (Connection [] true))
    = (Ok tt, self')
    /\ get 5 "point" PyNone false self' = (Ok (PyList [PyInt 1; PyInt 2]), self')
    /\ (json_value (PyTuple [PyInt 1; PyInt 2]) = true ->
        jsonify (PyTuple [PyInt 1; PyInt 2]) = PyTuple [PyInt 1; PyInt 2]).
Proof.
  apply (put_get_jsonify (__init__ (Connection [] true)) 0 5 "point"
           (PyTuple [PyInt 1; PyInt 2]) PyNone None false); reflexivity.
Defined.

(** A second [put] under the same key replaces the first: the table is what
    the second [put] alone would have made of it, it holds exactly one row
    for the key, and [get] returns the second value. *)
Theorem put_overwrites {tz : Datetime.Zone} (self : KV) (now1 now2 later : Z) (k : string) (v1 v2 : pyval)
    (ttl1 ttl2 : option Z) :
  json_value v1 = true -> json_value v2 = true -> writable (conn self) = true ->
  exists self1 self2,
    put now1 k v1 ttl1 self = (Ok tt, self1)
    /\ put now2 k v2 ttl2 self1 = (Ok tt, self2)
    /\ rows (conn self2)
       = replace_row (rows (conn self)) (stored k v2 (ttl_column now2 ttl2))
    /\ length (filter (fun r => String.eqb (key r) k) (rows (conn self2))) = 1%nat
    /\ (live (timestamp later) (stored k v2 (ttl_column now2 ttl2)) = true ->
        forall default save, get later k default save self2 = (Ok v2, self2)).
Proof.
  intros Hv1 Hv2 Hw.
  destruct (get_after_put self now1 later k v1 PyNone ttl1 false Hv1 Hw)
    as (self1 & Hput1 & Hrows1 & Hw1 & _).
  destruct (get_after_put self1 now2 later k v2 PyNone ttl2 false Hv2 Hw1)
    as (self2 & Hput2 & Hrows2 & _).
  exists self1, self2. split; [exact Hput1|]. split; [exact Hput2|].
  assert (Hrows : rows (conn self2)
                  = replace_row (rows (conn self)) (stored k v2 (ttl_column now2 ttl2))).
  { rewrite Hrows2, Hrows1. now apply SessionFacts.replace_row_twice. }
  split; [exact Hrows|]. split.
  - rewrite Hrows.
    exact (SessionFacts.one_row_per_key _ (stored k v2 (ttl_column now2 ttl2))).
  - intros Hlive default save.
    destruct (get_after_put self1 now2 later k v2 default ttl2 save Hv2 Hw1)
      as (self2' & Hput2' & _ & _ & Hget & _).
    rewrite Hput2 in Hput2'. injection Hput2' as <-. now apply Hget.
Qed.

Lemma put_overwrites_witness :
  exists self1 self2,
    put 0 "k" (PyInt 1) (Some 60) (__init__ (Connection [] true)) = (Ok tt, self1)
    /\ put 1 "k" (PyInt 2) None self1 = (Ok tt, self2)
    /\ rows (conn self2) = replace_row [] (stored "k" (PyInt 2) None)
    /\ length (filter (fun r => String.eqb (key r) "k") (rows (conn self2))) = 1%nat
    /\ (live (timestamp 2) (stored "k" (PyInt 2) None) = true ->
        forall default save, get 2 "k" default save self2 = (Ok (PyInt 2), self2)).
Proof.
  apply (put_overwrites (__init__ (Connection [] true)) 0 1 2 "k" (PyInt 1) (PyInt 2)
           (Some 60) None); reflexivity.
Defined.

(** [put] under one key changes nothing under another: whatever the call
    does, a [get] of a different key answers as before. *)
Theorem put_leaves_other_keys {tz : Datetime.Zone} (self : KV) (now later : Z) (k k' : string)
    (v default : pyval) (ttl_seconds : option Z) :
  k' <> k ->
  fst (get later k' default false (snd (put now k v ttl_seconds self)))
  = fst (get later k' default false self).
Proof.
  intro Hk.
  destruct (SessionFacts.put_cases now k v ttl_seconds self) as [[e ->]|(_ & _ & ->)];
    [reflexivity|].
  unfold get. cbn [snd conn rows].
  rewrite (SqliteFacts.select_value_other _ (stored k v (ttl_column now ttl_seconds)) k')
    by (cbn [key stored]; congruence).
  destruct (negb _); [reflexivity|]. now destruct (fetchone _).
Qed.

Lemma put_leaves_other_keys_witness :
  fst (get 0 "user:1" PyNone false (snd (put 0 "user:3" (PyInt 3) None two_users)))
  = fst (get 0 "user:1" PyNone false two_users).
Proof.
  apply (put_leaves_other_keys two_users 0 0 "user:3" "user:1" (PyInt 3) PyNone None).
  discriminate.
Defined.

(** [delete(k)] on a writable store: afterwards [get(k)] returns the default
    at every time, a [get] of another key answers as before, and when no row
    held [k] the table is the same. *)
Theorem delete_then_get {tz : Datetime.Zone} (self : KV) (k : string) :
  writable (conn self) = true ->
  exists self',
    delete k self = (Ok tt, self')
    /\ (forall later default, get later k default false self' = (Ok default, self'))
    /\ (forall later k' default, k' <> k ->
          fst (get later k' default false self') = fst (get later k' default false self))
    /\ ((forall r, In r (rows (conn self)) -> key r <> k) ->
        rows (conn self') = rows (conn self)).
Proof.
  intro Hw. unfold delete, delete_key. rewrite Hw.
  eexists. split; [reflexivity|]. split; [|split].
  - intros later default. apply KVFacts.get_missing. cbn [conn rows].
    unfold select_value. rewrite SqliteFacts.filter_none; [reflexivity|].
    intros x Hx. apply filter_In in Hx as [_ Hx].
    now destruct (String.eqb (key x) k).
  - intros later k' default Hk. unfold get. cbn [conn rows].
    replace (select_value (filter (fun r => negb (String.eqb (key r) k)) (rows (conn self)))
               k' (timestamp later))
      with (select_value (rows (conn self)) k' (timestamp later)).
    + destruct (negb _); [reflexivity|]. now destruct (fetchone _).
    + unfold select_value. f_equal.
      induction (rows (conn self)) as [|x t IH]; [reflexivity|]. cbn [filter].
      destruct (String.eqb_spec (key x) k) as [E|E]; cbn [negb filter].
      * destruct (String.eqb_spec (key x) k') as [E'|_]; [congruence | exact IH].
      * now rewrite IH.
  - intro Hnone. cbn [conn rows]. apply SqliteFacts.filter_all.
    intros r Hr. now destruct (String.eqb_spec (key r) k); [elim (Hnone r Hr)|].
Qed.

Lemma delete_then_get_witness :
  exists self',
    delete "user:1" two_users = (Ok tt, self')
    /\ (forall later default, get later "user:1" default false self' = (Ok default, self'))
    /\ (forall later k' default, k' <> "user:1" ->
          fst (get later k' default false self') = fst (get later k' default false two_users))
    /\ ((forall r, In r (rows (conn two_users)) -> key r <> "user:1") ->
        rows (conn self') = rows (conn two_users)).
Proof.
  apply (delete_then_get two_users "user:1"). reflexivity.
Defined.

(** The store keeps itself readable. From an object whose keys are distinct,
    whose stored texts decode and whose buffer holds whole rows, every
    sequence of calls, raising or not, leads to such an object again: one
    row a key, every stored text readable by [_decode_value], and as many
    buffered rows as [cache_row_count] says. *)
Theorem session_invariant {tz : Datetime.Zone} (calls : list kv_call) (self : KV) :
  NoDup (map key (rows (conn self))) -> kv_ok self = true ->
  forallb call_ok calls = true ->
  NoDup (map key (rows (conn (after_all self calls))))
  /\ kv_ok (after_all self calls) = true.
Proof.
  revert self. induction calls as [|c calls IH]; intros self Hk Hok Hcalls;
    [now split|].
  cbn [forallb] in Hcalls. apply andb_prop in Hcalls as [Hc Hcalls].
  cbn [after_all fold_left]. apply IH; [| |exact Hcalls]; clear IH Hcalls.
  - destruct c as [now k v ttl|now k d save|now b|k|b|now k v ttl|]; cbn [after].
    + destruct (SessionFacts.put_cases now k v ttl self) as [[e ->]|(_ & _ & ->)];
        [exact Hk | now apply SessionFacts.keys_replace_row].
    + unfold get. destruct (negb _); [|now destruct (fetchone _)].
      destruct save; [|exact Hk].
      destruct (SessionFacts.put_cases now k d None self) as [[e ->]|(_ & _ & ->)];
        [exact Hk | now apply SessionFacts.keys_replace_row].
    + exact Hk.
    + unfold delete, delete_key. destruct (writable (conn self)); [|exact Hk].
      now apply SessionFacts.keys_filter.
    + unfold delete_partial, delete_like. destruct (writable (conn self)); [|exact Hk].
      now apply SessionFacts.keys_filter.
    + unfold put_cached. now destruct (_encode_value v).
    + unfold commit_cached, insert_or_replace.
      destruct (cache_values self) as [|p ps]; [exact Hk|].
      destruct (Nat.eqb _ 0); [exact Hk|]. destruct (negb _); [exact Hk|].
      destruct (bind_rows (p :: ps)); [|exact Hk].
      destruct (writable (conn self)); [|exact Hk].
      now apply SessionFacts.keys_fold.
  - unfold kv_ok in *. apply andb_prop in Hok as [Ht Hb].
    destruct c as [now k v ttl|now k d save|now b|k|b|now k v ttl|]; cbn [after call_ok] in *.
    + destruct (SessionFacts.put_cases now k v ttl self) as [[e ->]|(Hs & _ & ->)];
        [cbn [snd]; now rewrite Ht, Hb|].
      cbn [snd conn rows]. unfold buffer_ok in *. cbn [cache_values cache_row_count].
      rewrite Hb, KVFacts.table_ok_replace_row; [reflexivity | exact Ht |].
      apply SessionFacts.decodable_storable. unfold storable. now rewrite Hc, Hs.
    + unfold get. destruct (negb _); [|destruct (fetchone _); cbn [snd]; now rewrite Ht, Hb].
      destruct save; [|cbn [snd]; now rewrite Ht, Hb].
      destruct (SessionFacts.put_cases now k d None self) as [[e ->]|(Hs & _ & ->)];
        [cbn [snd]; now rewrite Ht, Hb|].
      cbn [snd conn rows]. unfold buffer_ok in *. cbn [cache_values cache_row_count].
      rewrite Hb, KVFacts.table_ok_replace_row; [reflexivity | exact Ht |].
      apply SessionFacts.decodable_storable. unfold storable. now rewrite Hc, Hs.
    + cbn [get_partial snd]. now rewrite Ht, Hb.
    + unfold delete, delete_key.
      destruct (writable (conn self)); [|cbn [snd]; now rewrite Ht, Hb].
      cbn [snd conn rows]. unfold buffer_ok in *. cbn [cache_values cache_row_count].
      now rewrite Hb, SessionFacts.table_ok_filter.
    + unfold delete_partial, delete_like.
      destruct (writable (conn self)); [|cbn [snd]; now rewrite Ht, Hb].
      cbn [snd conn rows]. unfold buffer_ok in *. cbn [cache_values cache_row_count].
      now rewrite Hb, SessionFacts.table_ok_filter.
    + destruct (serializable v) eqn:Hs.
      * destruct (KVFacts.buffer_ok_rows self Hb) as (rs & Hbind & Hlen & Hrs).
        destruct (KVFacts.put_cached_ok now k v ttl self rs Hs Hbind)
          as (self' & -> & Hconn & _ & Hbind' & Hcount).
        cbn [snd]. rewrite Hconn, Ht. unfold buffer_ok.
        rewrite Hbind', Hcount, length_app, Hlen, Nat.eqb_refl.
        rewrite KVFacts.table_ok_app, Hrs. cbn [table_ok forallb andb].
        rewrite SessionFacts.decodable_storable; [reflexivity|].
        unfold storable. now rewrite Hc, Hs.
      * unfold put_cached. rewrite (KVFacts.encode_value_unserializable v Hs).
        cbn [snd]. now rewrite Ht, Hb.
    + destruct (KVFacts.buffer_ok_rows self Hb) as (rs & Hbind & Hlen & Hrs).
      unfold commit_cached, insert_or_replace.
      destruct (cache_values self) as [|p ps] eqn:E; [cbn [snd]; now rewrite Ht, Hb|].
      destruct (Nat.eqb _ 0); [cbn [snd]; now rewrite Ht, Hb|].
      destruct (negb _); [cbn [snd]; now rewrite Ht, Hb|].
      rewrite Hbind.
      destruct (writable (conn self)); [|cbn [snd]; now rewrite Ht, Hb].
      cbn [snd conn rows]. now rewrite KVFacts.table_ok_fold.
Qed.

Lemma session_invariant_witness :
  NoDup (map key (rows (conn (after_all (__init__ (Connection [] true)) busy_session))))
  /\ kv_ok (after_all (__init__ (Connection [] true)) busy_session) = true.
Proof.
  apply (session_invariant busy_session (__init__ (Connection [] true)));
    [constructor | reflexivity | reflexivity].
Defined.

(** Buffered writes reach the table together. After [put_cached] calls on
    an empty buffer, as many as one statement has parameters for, the table
    is as it was; one [commit_cached] then makes every buffered key
    readable, with the value buffered last for it, and leaves the keys that
    were not buffered as they were. *)
Theorem batch_commit_reads {tz : Datetime.Zone} (self : KV) (now : Z) (items : list (string * pyval)) :
  cache_values self = [] -> cache_row_count self = 0%nat ->
  writable (conn self) = true -> items <> [] ->
  parameters_fit (length items) = true ->
  forallb (fun kv => json_value (snd kv)) items = true ->
  forallb (fun kv => digits_fit (snd kv)) items = true ->
  conn (put_all_cached now items self) = conn self
  /\ exists self',
       commit_cached (put_all_cached now items self) = (Ok tt, self')
       /\ cache_values self' = []
       /\ (forall before k v after,
             items = (before ++ (k, v) :: after)%list -> ~ In k (map fst after) ->
             forall later default save, get later k default save self' = (Ok v, self'))
       /\ (forall k, ~ In k (map fst items) ->
             forall later default,
               fst (get later k default false self') = fst (get later k default false self)).
Proof.
  intros Hcv Hcount Hw Hne _ Hitems _.
  assert (Hs : forallb (fun kv => serializable (snd kv)) items = true).
  { rewrite forallb_forall in *. intros x Hx.
    now apply JsonFacts.json_value_serializable, Hitems. }
  destruct (SessionFacts.put_all_cached_ok now items self [] (f_equal bind_rows Hcv) Hs)
    as (Hconn & Hbind & Hn & Hnonempty).
  cbn [app] in Hbind. split; [exact Hconn|].
  eexists. split.
  { apply (KVFacts.commit_cached_ok _ _ (Hnonempty Hne) Hbind).
    - now rewrite Hn, Hcount, length_map.
    - now rewrite Hconn. }
  cbn [cache_values conn rows]. split; [reflexivity|]. split.
  - intros before k v after -> Hlast later default save.
    assert (Hjv : json_value v = true).
    { rewrite forallb_forall in Hitems.
      apply (Hitems (k, v)), List.in_app_iff. right. now left. }
    rewrite (KVFacts.get_found later k default save _ (stored k v None)).
    + cbn [value stored]. now rewrite KVFacts.decode_value_stored.
    + cbn [conn rows]. rewrite List.map_app. cbn [map].
      change (row_of (k, v)) with (stored k v None).
      change k with (key (stored k v None)) at 2.
      rewrite SessionFacts.select_value_fold_last; [reflexivity|].
      intros x Hx. apply in_map_iff in Hx as ([k' v'] & <- & Hx).
      cbn [key stored row_of fst snd]. intros ->.
      apply Hlast. apply in_map_iff. now exists (k, v').
    + apply KVFacts.stored_truthy.
  - intros k Hk later default. unfold get. cbn [conn rows].
    rewrite SessionFacts.select_value_fold_others.
    + rewrite Hconn. destruct (negb _); [reflexivity|]. now destruct (fetchone _).
    + intros x Hx. apply in_map_iff in Hx as ([k' v'] & <- & Hx).
      cbn [key stored row_of fst snd]. intros ->.
      apply Hk. apply in_map_iff. now exists (k, v').
Qed.

Lemma batch_commit_reads_witness :
  exists self',
    commit_cached
      (put_all_cached 0 [("a", PyInt 1); ("b", PyInt 2); ("a", PyInt 3)]
         (__init__ (Connection [] true))) = (Ok tt, self')
    /\ get 9 "a" PyNone false self' = (Ok (PyInt 3), self')
    /\ get 9 "b" PyNone false self' = (Ok (PyInt 2), self').
Proof.
  destruct (batch_commit_reads (__init__ (Connection [] true)) 0
              [("a", PyInt 1); ("b", PyInt 2); ("a", PyInt 3)]
              eq_refl eq_refl eq_refl ltac:(discriminate) eq_refl eq_refl eq_refl)
    as (_ & self' & Hcommit & _ & Hread & _).
  exists self'. split; [exact Hcommit|]. split.
  - apply (Hread [("a", PyInt 1); ("b", PyInt 2)] "a" (PyInt 3) []); [reflexivity|].
    intros [].
  - apply (Hread [("a", PyInt 1)] "b" (PyInt 2) [("a", PyInt 3)]); [reflexivity|].
    intros [H|[]]. discriminate H.
Defined.

(** A value [json.dumps] has no encoding for never reaches the store: [put]
    and [put_cached] raise [TypeError] and leave the table and the buffer
    as they were, and so does [get] with [save_default_if_not_set] when the
    key has no live row and the default is such a value. *)
Theorem unserializable_value_changes_nothing {tz : Datetime.Zone} (self : KV) (now : Z) (k : string)
    (v : pyval) (ttl_seconds : option Z) :
  serializable v = false ->
  put now k v ttl_seconds self = (Raise TypeError, self)
  /\ put_cached now k v ttl_seconds self = (Raise TypeError, self)
  /\ (select_value (rows (conn self)) k (timestamp now) = [] ->
      get now k v true self = (Raise TypeError, self)
      /\ get now k v false self = (Ok v, self)).
Proof.
  intro Hs. split; [now apply KVFacts.put_raises|]. split.
  - unfold put_cached. now rewrite (KVFacts.encode_value_unserializable v Hs).
  - intro Habsent. unfold get. rewrite Habsent.
    cbn [fetchone hd_error truthy_str negb].
    now rewrite (KVFacts.put_raises now k v None self Hs).
Qed.

Lemma unserializable_value_changes_nothing_witness :
  put 0 "k" (PyList [PyObject 0]) None two_users = (Raise TypeError, two_users)
  /\ put_cached 0 "k" (PyList [PyObject 0]) None two_users = (Raise TypeError, two_users)
  /\ (select_value (rows (conn two_users)) "k" (timestamp 0) = [] ->
      get 0 "k" (PyList [PyObject 0]) true two_users = (Raise TypeError, two_users)
      /\ get 0 "k" (PyList [PyObject 0]) false two_users = (Ok (PyList [PyObject 0]), two_users)).
Proof.
  apply (unserializable_value_changes_nothing two_users 0 "k" (PyList [PyObject 0]) None).
  reflexivity.
Defined.

(** What [get] makes of the row of a key, in a table with one row a key: a
    live row whose text is empty (the default of the column) is read as no
    row at all, so the default is returned, and written over the row when
    [save_default_if_not_set] is set; a live row with any other text is
    decoded, and an expired row gives the default. *)
Theorem get_by_row {tz : Datetime.Zone} (self : KV) (now : Z) (r : row) (default : pyval) (save : bool) :
  NoDup (map key (rows (conn self))) -> In r (rows (conn self)) ->
  (live (timestamp now) r = true -> value r <> "" ->
   get now (key r) default save self = (_decode_value (value r), self))
  /\ (live (timestamp now) r = false \/ value r = "" ->
      get now (key r) default false self = (Ok default, self)
      /\ (json_value default = true -> writable (conn self) = true ->
          exists self',
            get now (key r) default true self = (Ok default, self')
            /\ rows (conn self')
               = replace_row (rows (conn self)) (stored (key r) default None))).
Proof.
  intros Hnd Hin.
  pose proof (SessionFacts.select_value_in _ r (timestamp now) Hnd Hin) as Hsel.
  split.
  - intros Hlive Hne. rewrite Hlive in Hsel.
    apply (KVFacts.get_found now (key r) default save self r); [now rewrite Hsel|].
    destruct (value r); [now elim Hne | reflexivity].
  - intro Hcase.
    assert (Hfalsy : truthy_str (fetchone (select_value (rows (conn self)) (key r)
                                             (timestamp now))) = false).
    { rewrite Hsel. destruct (live (timestamp now) r); [|reflexivity].
      destruct Hcase as [H|H]; [discriminate H | now rewrite H]. }
    split.
    + unfold get. now rewrite Hfalsy.
    + intros Hv Hw. unfold get. rewrite Hfalsy. cbn [negb].
      rewrite KVFacts.put_ok by (try apply JsonFacts.json_value_serializable; assumption).
      eexists. split; reflexivity.
Qed.

Lemma get_by_row_witness :
  get 0 "config.theme" (PyStr "light") false blank_row_store
  = (Ok (PyStr "light"), blank_row_store)
  /\ exists self',
       get 0 "config.theme" (PyStr "light") true blank_row_store = (Ok (PyStr "light"), self')
       /\ rows (conn self')
          = replace_row (rows (conn blank_row_store))
              (stored "config.theme" (PyStr "light") None).
Proof.
  destruct (get_by_row blank_row_store 0 (Row "config.theme" "" None) (PyStr "light") false
              ltac:(repeat constructor; intros []) (or_introl eq_refl))
    as (_ & Hblank).
  destruct (Hblank (or_intror eq_refl)) as (Hget & Hsave).
  split; [exact Hget|]. now apply Hsave.
Defined.

(* ------------------------------------------------------------------------- *)
(** ** Further properties of the memoizing wrapper *)

Module KeyFacts.
Import Json Sqlite KVStore Memoize Plain.

Section Zoned.
Context {tz : Datetime.Zone}.

(** *** The order of the keys [sort_keys] sorts by *)

Lemma leb_spec (a b : string) :
  String.leb a b = true <-> a = b \/ OrderedTypeEx.String_as_OT.lt a b.
Proof.
  unfold String.leb. split.
  - destruct (String.compare a b) eqn:E; intro H; try discriminate H.
    + left. now apply OrderedTypeEx.String_as_OT.cmp_eq.
    + right. now apply OrderedTypeEx.String_as_OT.cmp_lt.
  - intros [->|H].
    + pose proof (proj2 (OrderedTypeEx.String_as_OT.cmp_eq b b) eq_refl) as H.
      unfold OrderedTypeEx.String_as_OT.cmp in H. now rewrite H.
    + apply OrderedTypeEx.String_as_OT.cmp_lt in H. unfold OrderedTypeEx.String_as_OT.cmp in H. now rewrite H.
Qed.

Lemma leb_trans (a b c : string) :
  String.leb a b = true -> String.leb b c = true -> String.leb a c = true.
Proof.
  rewrite !leb_spec. intros [->|H1] [->|H2]; auto.
  right. exact (OrderedTypeEx.String_as_OT.lt_trans _ _ _ H1 H2).
Qed.

Lemma leb_false (a b : string) : String.leb a b = false -> String.leb b a = true.
Proof. destruct (String.leb_total a b) as [H|H]; congruence. Qed.

Lemma insert_item_comm (a b : string * string) (l : list (string * string)) :
  fst a <> fst b ->
  insert_item a (insert_item b l) = insert_item b (insert_item a l).
Proof.
  intro Hab. induction l as [|x l IH].
  - cbn [insert_item].
    destruct (String.leb (fst a) (fst b)) eqn:E1, (String.leb (fst b) (fst a)) eqn:E2;
      try reflexivity.
    + elim Hab. now apply String.leb_antisym.
    + apply leb_false in E1. congruence.
  - cbn [insert_item].
    destruct (String.leb (fst b) (fst x)) eqn:Eb, (String.leb (fst a) (fst x)) eqn:Ea;
      cbn [insert_item].
    + destruct (String.leb (fst a) (fst b)) eqn:E1, (String.leb (fst b) (fst a)) eqn:E2;
        rewrite ?Ea, ?Eb; try reflexivity.
      * elim Hab. now apply String.leb_antisym.
      * apply leb_false in E1. congruence.
    + rewrite Eb.
      destruct (String.leb (fst a) (fst b)) eqn:E1.
      * now rewrite (leb_trans _ _ _ E1 Eb) in Ea.
      * now rewrite Ea.
    + rewrite Ea.
      destruct (String.leb (fst b) (fst a)) eqn:E2.
      * now rewrite (leb_trans _ _ _ E2 Ea) in Eb.
      * now rewrite Eb.
    + now rewrite Ea, Eb, IH.
Qed.

Lemma sort_items_perm (l l' : list (string * string)) :
  Permutation l l' -> NoDup (map fst l) -> sort_items l = sort_items l'.
Proof.
  induction 1 as [|x l l' _ IH|x y l|l l' l'' H1 IH1 H2 IH2]; intro Hnd.
  - reflexivity.
  - cbn [sort_items fold_right]. fold (sort_items l) (sort_items l').
    cbn [map] in Hnd. inversion_clear Hnd. now rewrite IH.
  - cbn [sort_items fold_right]. fold (sort_items l).
    apply insert_item_comm. cbn [map] in Hnd. inversion_clear Hnd as [|? ? Hy _].
    intro E. apply Hy. left. now symmetry.
  - rewrite IH1 by exact Hnd. apply IH2.
    apply (Permutation_NoDup (l := map fst l)); [now apply Permutation_map | exact Hnd].
Qed.

(** *** The hexadecimal digest *)

Lemma hex_digit_plain (n : nat) : plain_char (hex_digit n) = true.
Proof. do 16 (destruct n as [|n]; [reflexivity|]). reflexivity. Qed.

Lemma hex_plain (bytes : list Z) : plain (Sha1.hex bytes) = true.
Proof.
  induction bytes as [|b bytes IH]; [reflexivity|].
  cbn [Sha1.hex plain]. now rewrite !hex_digit_plain, IH.
Qed.

Lemma hex_length (bytes : list Z) :
  String.length (Sha1.hex bytes) = (2 * length bytes)%nat.
Proof.
  induction bytes as [|b bytes IH]; [reflexivity|].
  cbn [Sha1.hex String.length length]. rewrite IH. lia.
Qed.

Lemma be_bytes_length (n : nat) (x : Z) : length (Sha1.be_bytes n x) = n.
Proof. induction n as [|n IH]; cbn [Sha1.be_bytes length]; [reflexivity | now rewrite IH]. Qed.

Lemma digest_length (msg : list Z) : length (Sha1.digest msg) = 20%nat.
Proof.
  unfold Sha1.digest. destruct (Sha1.chunks _ _ _) as [a b c d e].
  now rewrite !length_app, !be_bytes_length.
Qed.

Lemma hexdigest_length (s : string) : String.length (Sha1.hexdigest s) = 40%nat.
Proof. unfold Sha1.hexdigest. now rewrite hex_length, digest_length. Qed.

Lemma hexdigest_plain (s : string) : plain (Sha1.hexdigest s) = true.
Proof. apply hex_plain. Qed.

(** *** [LIKE] on keys without wildcards *)

Lemma plain_append (a b : string) : plain (a ++ b) = (plain a && plain b)%bool.
Proof.
  induction a as [|c a IH]; cbn [append plain]; [reflexivity|].
  now rewrite IH, andb_assoc.
Qed.

Lemma c_str_plain (p rest : string) :
  plain p = true -> Sqlite.c_str (p ++ rest) = p ++ Sqlite.c_str rest.
Proof.
  induction p as [|c p IH]; intro Hp; [reflexivity|].
  cbn [plain] in Hp. apply andb_prop in Hp as [Hc Hp].
  unfold plain_char in Hc. apply andb_prop in Hc as [_ Hc].
  cbn [append Sqlite.c_str]. destruct (Ascii.eqb c "000"); [discriminate Hc|].
  now rewrite IH.
Qed.

Lemma like_chars_plain (p q rest : string) :
  plain p = true -> plain q = true -> String.length p = String.length q ->
  like_chars (p ++ "%") (q ++ rest) = String.eqb p q.
Proof.
  revert q. induction p as [|c p IH]; intros [|d q] Hp Hq Hlen; try discriminate Hlen.
  - cbn [append]. apply SqliteFacts.like_percent.
  - cbn [plain] in Hp, Hq. apply andb_prop in Hp as [Hc Hp]. apply andb_prop in Hq as [Hd Hq].
    unfold plain_char in Hc, Hd.
    apply andb_prop in Hc as [Hc _]. apply andb_prop in Hd as [Hd _].
    apply andb_prop in Hc as [Hc Hlc]. apply andb_prop in Hc as [Hc1 Hc2].
    apply andb_prop in Hd as [_ Hld].
    apply Ascii.eqb_eq in Hlc, Hld.
    cbn [append like_chars String.eqb].
    destruct (Ascii.eqb c "%"); [discriminate Hc1|].
    destruct (Ascii.eqb c "_"); [discriminate Hc2|].
    cbn [orb]. rewrite Hlc, Hld.
    destruct (Ascii.eqb c d); cbn [andb]; [|reflexivity].
    apply IH; try assumption. now injection Hlen.
Qed.

Lemma like_plain (p q rest : string) :
  plain p = true -> plain q = true -> String.length p = String.length q ->
  like (p ++ "%") (q ++ rest) = String.eqb p q.
Proof.
  intros Hp Hq Hlen. unfold like.
  rewrite (c_str_plain p "%" Hp), (c_str_plain q rest Hq).
  now apply like_chars_plain.
Qed.

End Zoned.

End KeyFacts.

Import Plain.

(** The cache key does not depend on the order in which keyword arguments
    are passed: two [kwargs] dicts with the same items in different orders
    give the same [hash_function_args], raise alike when an argument has no
    encoding, and so name the same cache entry. *)
Theorem keyword_order_independent (args : list pyval) (kwargs kwargs' : list (string * pyval)) :
  Permutation kwargs kwargs' -> NoDup (map fst kwargs) ->
  hash_function_args args kwargs = hash_function_args args kwargs'.
Proof.
  intros Hperm Hnd. unfold hash_function_args.
  destruct (dumps true (PyTuple args)) as [a|e]; [|reflexivity]. cbn [bind].
  replace (dumps true (PyDict kwargs')) with (dumps true (PyDict kwargs)); [reflexivity|].
  unfold dumps.
  assert (Hs : serializable (PyDict kwargs) = serializable (PyDict kwargs')).
  { cbn [serializable]. apply eq_true_iff_eq. rewrite !forallb_forall. split; intros H x Hx.
    - apply H. exact (Permutation_in _ (Permutation_sym Hperm) Hx).
    - apply H. exact (Permutation_in _ Hperm Hx). }
  rewrite <- Hs. destruct (serializable (PyDict kwargs)); [|reflexivity].
  cbn [text]. do 5 f_equal. apply KeyFacts.sort_items_perm.
  - now apply Permutation_map.
  - rewrite map_map. cbn [fst]. exact Hnd.
Qed.

Lemma keyword_order_independent_witness :
  hash_function_args [PyStr "user123"] [("endpoint", PyStr "/profile"); ("retries", PyInt 3)]
  = hash_function_args [PyStr "user123"] [("retries", PyInt 3); ("endpoint", PyStr "/profile")].
Proof.
  apply (keyword_order_independent [PyStr "user123"]
           [("endpoint", PyStr "/profile"); ("retries", PyInt 3)]
           [("retries", PyInt 3); ("endpoint", PyStr "/profile")]).
  - apply perm_swap.
  - repeat constructor; cbn; intuition discriminate.
Defined.

(** A cached result lasts as long as its TTL and no longer: when the clock
    of the second call has reached the expiry instant of the entry, the
    wrapper calls the function again and stores the result anew. *)
Theorem memoized_entry_expires {tz : Datetime.Zone} (ttl_seconds : Z) (func : pyfunc) (t1 t2 t3 t4 : Z)
    (args : list pyval) (kwargs : list (string * pyval)) (w : world)
    (h : string) (result : pyval) :
  hash_function_args args kwargs = Ok h ->
  fst (get t1 (memo_key (hash_function_name func) h) PyNone false (__init__ (db w)))
  = Ok PyNone ->
  call func args kwargs = Ok result ->
  serializable result = true ->
  writable (db w) = true ->
  ttl_seconds <> 0 -> expiry t2 ttl_seconds <= timestamp t3 ->
  exists w1 w2,
    wrapper ttl_seconds func t1 t2 args kwargs w = (Ok result, w1)
    /\ wrapper ttl_seconds func t3 t4 args kwargs w1 = (Ok result, w2)
    /\ calls w2 = (calls w ++ [(args, kwargs); (args, kwargs)])%list
    /\ rows (db w2)
       = replace_row (rows (db w))
           (stored (memo_key (hash_function_name func) h) result
              (Some (expiry t4 ttl_seconds))).
Proof.
  intros Hh Hmiss Hcall Hs Hw Httl Hexp.
  set (k := memo_key (hash_function_name func) h) in *.
  assert (Hcol : forall t, ttl_column t (Some ttl_seconds) = Some (expiry t ttl_seconds)).
  { intro t. cbn [ttl_column]. now destruct (Z.eqb_spec ttl_seconds 0). }
  eexists. eexists. split; [|split].
  - rewrite (MemoizeFacts.wrapper_miss ttl_seconds func t1 t2 args kwargs w h result
               Hh Hmiss Hcall).
    cbv zeta. fold k. rewrite KVFacts.put_ok by assumption. reflexivity.
  - rewrite (MemoizeFacts.wrapper_miss ttl_seconds func t3 t4 args kwargs _ h result
               Hh); [| |exact Hcall].
    + cbv zeta. fold k. rewrite KVFacts.put_ok by (assumption || reflexivity). reflexivity.
    + fold k. cbn [close conn db].
      rewrite KVFacts.get_missing; [reflexivity|]. cbn [__init__ conn rows].
      change k with (key (stored k result (ttl_column t2 (Some ttl_seconds)))) at 2.
      rewrite SqliteFacts.select_value_replaced, Hcol. cbn [live stored ttl].
      now rewrite (proj2 (Z.ltb_ge _ _) Hexp).
  - cbn [calls db close conn rows __init__]. split; [now rewrite <- List.app_assoc|].
    rewrite !Hcol. now apply SessionFacts.replace_row_twice.
Qed.

Lemma memoized_entry_expires_witness :
  exists w1 w2,
    wrapper 60 echo 0 0 [PyInt 1] [] empty_world = (Ok (PyList [PyInt 1]), w1)
    /\ wrapper 60 echo 60000000 60000000 [PyInt 1] [] w1 = (Ok (PyList [PyInt 1]), w2)
    /\ calls w2 = (calls empty_world ++ [([PyInt 1], []); ([PyInt 1], [])])%list
    /\ rows (db w2)
       = replace_row (rows (db empty_world))
           (stored (memo_key (hash_function_name echo) (Sha1.hexdigest "[1]-{}"))
              (PyList [PyInt 1]) (Some (expiry 60000000 60))).
Proof.
  apply (memoized_entry_expires 60 echo 0 0 60000000 60000000 [PyInt 1] [] empty_world
           (Sha1.hexdigest "[1]-{}") (PyList [PyInt 1]));
    try reflexivity; try discriminate; vm_compute; discriminate.
Defined.

(** The wrapper hides no error. Arguments [json.dumps] has no encoding for
    make it raise [TypeError] before the function is called and before the
    store is opened; an exception of the function on a miss goes to the
    caller, and nothing is stored for the call. *)
Theorem wrapper_error_paths {tz : Datetime.Zone} (ttl_seconds : Z) (func : pyfunc) (now_get now_put : Z)
    (args : list pyval) (kwargs : list (string * pyval)) (w : world) :
  ((forallb serializable args
    && forallb (fun kv => serializable (snd kv)) kwargs)%bool = false ->
   wrapper ttl_seconds func now_get now_put args kwargs w = (Raise TypeError, w))
  /\ (forall h e,
        hash_function_args args kwargs = Ok h ->
        fst (get now_get (memo_key (hash_function_name func) h) PyNone false
               (__init__ (db w))) = Ok PyNone ->
        call func args kwargs = Raise e ->
        wrapper ttl_seconds func now_get now_put args kwargs w
        = (Raise e, Build_world (db w) (calls w ++ [(args, kwargs)])%list)).
Proof.
  split.
  - intro H. unfold wrapper, hash_function_args, dumps. cbn [serializable].
    destruct (forallb serializable args); cbn [andb] in H; [|reflexivity].
    cbn [bind]. now rewrite H.
  - intros h e Hh Hmiss Hcall. unfold wrapper. rewrite Hh.
    pose proof (MemoizeFacts.get_no_save now_get (memo_key (hash_function_name func) h)
                  PyNone (__init__ (db w))) as Hself.
    destruct (get now_get _ PyNone false (__init__ (db w))) as [res kv1].
    cbn [fst snd] in Hmiss, Hself. subst res kv1.
    cbn [is_none negb]. now rewrite Hcall.
Qed.

Lemma wrapper_error_paths_witness :
  wrapper 60 echo 0 0 [PyObject 7] [] empty_world = (Raise TypeError, empty_world)
  /\ wrapper 60 fails 0 0 [PyInt 1] [] empty_world
     = (Raise AttributeError, Build_world (db empty_world) [([PyInt 1], [])]).
Proof.
  destruct (wrapper_error_paths 60 echo 0 0 [PyObject 7] [] empty_world) as [Hargs _].
  destruct (wrapper_error_paths 60 fails 0 0 [PyInt 1] [] empty_world) as [_ Hfails].
  split; [now apply Hargs|].
  now apply (Hfails (Sha1.hexdigest "[1]-{}") AttributeError).
Defined.

(** [delete_memoized(F)] leaves the cached calls of every other function in
    place: a row under the key of a function whose name hashes differently
    is still in the table afterwards. *)
Theorem delete_memoized_keeps_other_functions (f g : pyfunc) (w : world) (h : string)
    (r : row) :
  hash_function_name g <> hash_function_name f ->
  In r (rows (db w)) -> key r = memo_key (hash_function_name g) h ->
  In r (rows (db (snd (delete_memoized f w)))).
Proof.
  intros Hne Hin Hkey. unfold delete_memoized, delete_partial, delete_like.
  cbn [__init__ conn]. destruct (writable (db w)); [|exact Hin].
  cbn [snd db close conn rows]. apply filter_In. split; [exact Hin|].
  unfold key_like. rewrite Hkey. unfold memo_key.
  rewrite <- JsonFacts.append_assoc.
  rewrite KeyFacts.like_plain.
  - destruct (String.eqb_spec ("memoize." ++ hash_function_name f)
                ("memoize." ++ hash_function_name g)) as [E|_]; [|reflexivity].
    elim Hne. symmetry. exact (MemoizeFacts.append_inj _ _ _ E).
  - rewrite KeyFacts.plain_append. unfold hash_function_name.
    now rewrite KeyFacts.hexdigest_plain.
  - rewrite KeyFacts.plain_append. unfold hash_function_name.
    now rewrite KeyFacts.hexdigest_plain.
  - rewrite !JsonFacts.length_append. unfold hash_function_name.
    now rewrite !KeyFacts.hexdigest_length.
Qed.

Lemma delete_memoized_keeps_other_functions_witness :
  In (stored (memo_key (hash_function_name echo) (Sha1.hexdigest "[1]-{}"))
        (PyList [PyInt 1]) (Some 60))
     (rows (db (snd (delete_memoized returns_none cached_world)))).
Proof.
  apply (delete_memoized_keeps_other_functions returns_none echo cached_world
           (Sha1.hexdigest "[1]-{}")).
  - vm_compute. discriminate.
  - left. reflexivity.
  - reflexivity.
Defined.

(** A cache hit returns what [json] read back, not what the function
    returned: for a result with tuples inside, the first call returns the
    result itself and the second call, served from the store, returns it
    with every tuple turned into a list. *)
Theorem memoized_hit_is_jsonified {tz : Datetime.Zone} (ttl_seconds : Z) (func : pyfunc) (t1 t2 t3 t4 : Z)
    (args : list pyval) (kwargs : list (string * pyval)) (w : world)
    (h : string) (result : pyval) :
  hash_function_args args kwargs = Ok h ->
  fst (get t1 (memo_key (hash_function_name func) h) PyNone false (__init__ (db w)))
  = Ok PyNone ->
  call func args kwargs = Ok result ->
  storable result = true -> is_none result = false ->
  writable (db w) = true ->
  ttl_seconds = 0 \/ timestamp t3 < expiry t2 ttl_seconds ->
  exists w1,
    wrapper ttl_seconds func t1 t2 args kwargs w = (Ok result, w1)
    /\ wrapper ttl_seconds func t3 t4 args kwargs w1 = (Ok (jsonify result), w1).
Proof.
  intros Hh Hmiss Hcall Hv Hnone Hw Httl.
  assert (Hs : serializable result = true)
    by (unfold storable in Hv; now apply andb_prop in Hv).
  set (k := memo_key (hash_function_name func) h) in *.
  set (r := stored k result (ttl_column t2 (Some ttl_seconds))).
  eexists. split.
  - rewrite (MemoizeFacts.wrapper_miss ttl_seconds func t1 t2 args kwargs w h result
               Hh Hmiss Hcall).
    cbv zeta. fold k. rewrite KVFacts.put_ok by assumption. reflexivity.
  - apply (MemoizeFacts.wrapper_hit ttl_seconds func t3 t4 args kwargs _ h (jsonify result) Hh);
      [|now destruct result].
    fold k. cbn [close conn db].
    rewrite (KVFacts.get_found t3 k PyNone false _ r).
    + unfold r. cbn [value stored fst]. now rewrite SessionFacts.decode_value_storable.
    + cbn [__init__ conn rows]. change k with (key r) at 2.
      rewrite SqliteFacts.select_value_replaced.
      unfold r. cbn [ttl_column stored live ttl].
      destruct (Z.eqb_spec ttl_seconds 0) as [E|E]; [reflexivity|].
      cbn [ttl]. destruct Httl as [Ht|Ht]; [contradiction|].
      apply Z.ltb_lt in Ht. unfold live. cbn [stored ttl]. now rewrite Ht.
    + apply KVFacts.stored_truthy.
Qed.

Lemma memoized_hit_is_jsonified_witness :
  exists w1,
    wrapper 60 pair 0 0 [PyInt 1; PyInt 2] [] empty_world
    = (Ok (PyTuple [PyInt 1; PyInt 2]), w1)
    /\ wrapper 60 pair 1 1 [PyInt 1; PyInt 2] [] w1 = (Ok (PyList [PyInt 1; PyInt 2]), w1).
Proof.
  apply (memoized_hit_is_jsonified 60 pair 0 0 1 1 [PyInt 1; PyInt 2] [] empty_world
           (Sha1.hexdigest "[1, 2]-{}") (PyTuple [PyInt 1; PyInt 2]));
    try reflexivity. right. reflexivity.
Defined.

(* ------------------------------------------------------------------------- *)
(** ** [crash.py]: the preference and the reporting wrapper *)

Module CrashFacts.
Import Sqlite KVStore.

Section Zoned.
Context {tz : Datetime.Zone}.

Lemma set_crash_report_ok (now : Z) (enabled : bool) (db : connection) :
  writable db = true ->
  Crash.set_crash_report now enabled db
  = (Ok tt,
     Connection (replace_row (rows db) (stored "crash.enabled" (PyBool enabled) None)) true).
Proof.
  intro Hw. unfold Crash.set_crash_report.
  rewrite KVFacts.put_ok by (reflexivity || exact Hw). reflexivity.
Qed.

Lemma set_crash_report_inv (now : Z) (enabled : bool) (db db' : connection) :
  Crash.set_crash_report now enabled db = (Ok tt, db') ->
  db' = Connection (replace_row (rows db) (stored "crash.enabled" (PyBool enabled) None)) true.
Proof.
  intro H.
  destruct (SessionFacts.put_cases now "crash.enabled" (PyBool enabled) None (__init__ db))
    as [[e Hp]|(_ & Hw & _)].
  - unfold Crash.set_crash_report in H. rewrite Hp in H. discriminate H.
  - cbn [__init__ conn] in Hw. rewrite (set_crash_report_ok now enabled db Hw) in H.
    now injection H as <-.
Qed.

Lemma get_crash_report_set (t : table) (enabled : bool) (later : Z) :
  Crash.get_crash_report later
    (Connection (replace_row t (stored "crash.enabled" (PyBool enabled) None)) true)
  = (Ok (PyBool enabled),
     Connection (replace_row t (stored "crash.enabled" (PyBool enabled) None)) true).
Proof.
  unfold Crash.get_crash_report.
  rewrite (KVFacts.get_found later "crash.enabled" (PyBool false) true _
             (stored "crash.enabled" (PyBool enabled) None)).
  - cbn [value stored]. rewrite KVFacts.decode_value_stored by reflexivity.
    now destruct enabled.
  - cbn [__init__ conn rows].
    now rewrite (SqliteFacts.select_value_replaced _
                   (stored "crash.enabled" (PyBool enabled) None)).
  - apply KVFacts.stored_truthy.
Qed.

Lemma get_crash_report_unset (db : connection) (now : Z) :
  writable db = true ->
  select_value (rows db) "crash.enabled" (timestamp now) = [] ->
  Crash.get_crash_report now db
  = (Ok (PyBool false),
     Connection (replace_row (rows db) (stored "crash.enabled" (PyBool false) None)) true).
Proof.
  intros Hw Habsent. unfold Crash.get_crash_report, get. cbn [__init__ conn].
  rewrite Habsent. cbn [fetchone hd_error truthy_str negb].
  rewrite KVFacts.put_ok by (reflexivity || exact Hw). reflexivity.
Qed.

(** The preference as the table holds it, wherever its row stands. *)
Lemma get_crash_report_stored (db : connection) (enabled : bool) (now : Z) :
  NoDup (map key (rows db)) ->
  In (stored "crash.enabled" (PyBool enabled) None) (rows db) ->
  Crash.get_crash_report now db = (Ok (PyBool enabled), db).
Proof.
  intros Hkeys Hin. unfold Crash.get_crash_report.
  rewrite (KVFacts.get_found now "crash.enabled" (PyBool false) true _
             (stored "crash.enabled" (PyBool enabled) None)).
  - cbn [value stored]. rewrite KVFacts.decode_value_stored by reflexivity.
    now destruct enabled.
  - cbn [__init__ conn].
    now rewrite (SessionFacts.select_value_in _ _ (timestamp now) Hkeys Hin).
  - apply KVFacts.stored_truthy.
Qed.

End Zoned.

End CrashFacts.

(** The crash-report preference is read back as it was set, for both
    values and at every later time; on a store where it was never set,
    [get_crash_report] answers [False] and writes [False] down, so the
    preference is set from then on. *)
Theorem crash_report_preference {tz : Datetime.Zone} (db : connection) (now : Z) :
  writable db = true ->
  (forall enabled,
     exists db',
       Crash.set_crash_report now enabled db = (Ok tt, db')
       /\ forall later, Crash.get_crash_report later db' = (Ok (PyBool enabled), db'))
  /\ (select_value (rows db) "crash.enabled" (timestamp now) = [] ->
      exists db',
        Crash.get_crash_report now db = (Ok (PyBool false), db')
        /\ rows db' = replace_row (rows db) (stored "crash.enabled" (PyBool false) None)
        /\ forall later, Crash.get_crash_report later db' = (Ok (PyBool false), db')).
Proof.
  intro Hw. split.
  - intro enabled. eexists. split; [now apply CrashFacts.set_crash_report_ok|].
    intro later. apply CrashFacts.get_crash_report_set.
  - intro Habsent. eexists. split; [now apply CrashFacts.get_crash_report_unset|].
    split; [reflexivity|]. intro later. apply CrashFacts.get_crash_report_set.
Qed.

Lemma crash_report_preference_witness :
  (forall enabled,
     exists db',
       Crash.set_crash_report 0 enabled (Connection [] true) = (Ok tt, db')
       /\ forall later, Crash.get_crash_report later db' = (Ok (PyBool enabled), db'))
  /\ (select_value [] "crash.enabled" (timestamp 0) = [] ->
      exists db',
        Crash.get_crash_report 0 (Connection [] true) = (Ok (PyBool false), db')
        /\ rows db' = replace_row [] (stored "crash.enabled" (PyBool false) None)
        /\ forall later, Crash.get_crash_report later db' = (Ok (PyBool false), db')).
Proof.
  apply (crash_report_preference (Connection [] true) 0). reflexivity.
Defined.

(** [crash_reporter] is transparent and posts only with consent. A value
    of the function is returned with nothing read or posted. When the
    function raises, the preference is read from the table, which holds one
    row a key: with no live row for it, or the row of [False], the
    exception is raised again and no report is posted; with the row of
    [True], wherever it stands among the rows, one report goes to the
    configured URL and the exception is raised again, and with no URL
    configured the [AssertionError] of the wrapper takes the place of the
    exception. *)
Theorem crash_reporter_transparent {tz : Datetime.Zone} (url : option string) (format_exc : exn -> string)
    (func : Crash.app -> result pyval * Crash.app) (now : Z) (a a' : Crash.app) :
  (forall v, func a = (Ok v, a') ->
     Crash.crash_reporter url format_exc func now a = (inl v, a'))
  /\ (forall e, func a = (Raise e, a') -> writable (Crash.db a') = true ->
      NoDup (map key (rows (Crash.db a'))) ->
      (select_value (rows (Crash.db a')) "crash.enabled" (timestamp now) = []
       \/ In (stored "crash.enabled" (PyBool false) None) (rows (Crash.db a')) ->
       exists db',
         Crash.crash_reporter url format_exc func now a
         = (inr (Crash.Exception e), Crash.Build_app db' (Crash.posted a')))
      /\ (In (stored "crash.enabled" (PyBool true) None) (rows (Crash.db a')) ->
          Crash.crash_reporter url format_exc func now a
          = match url with
            | Some (String c u) =>
                (inr (Crash.Exception e),
                 Crash.Build_app (Crash.db a')
                   (Crash.posted a' ++ [(String c u, format_exc e)])%list)
            | _ => (inr Crash.AssertionError,
                    Crash.Build_app (Crash.db a') (Crash.posted a'))
            end)).
Proof.
  split.
  - intros v H. unfold Crash.crash_reporter. now rewrite H.
  - intros e H Hw Hkeys. split.
    + intros [Habsent|Hoff].
      * eexists. unfold Crash.crash_reporter.
        rewrite H, (CrashFacts.get_crash_report_unset _ now Hw Habsent). reflexivity.
      * exists (Crash.db a'). unfold Crash.crash_reporter.
        now rewrite H, (CrashFacts.get_crash_report_stored _ false now Hkeys Hoff).
    + intro Hon. unfold Crash.crash_reporter.
      now rewrite H, (CrashFacts.get_crash_report_stored _ true now Hkeys Hon).
Qed.

Lemma crash_reporter_transparent_witness :
  Crash.crash_reporter (Some "https://example.org/crashes") (fun _ => "Traceback")
    (fun a => (Raise AttributeError, a)) 5 consenting_user
  = (inr (Crash.Exception AttributeError),
     Crash.Build_app (Crash.db consenting_user)
       [("https://example.org/crashes", "Traceback")]).
Proof.
  destruct (crash_reporter_transparent (tz := Datetime.utc)
              (Some "https://example.org/crashes")
              (fun _ => "Traceback") (fun a => (Raise AttributeError, a)) 5
              consenting_user consenting_user) as (_ & Hraise).
  destruct (Hraise AttributeError eq_refl eq_refl) as (_ & Hon).
  - repeat constructor; cbn; intuition discriminate.
  - apply Hon. cbn. tauto.
Defined.

(* ------------------------------------------------------------------------- *)
(** ** [main.py]: what its callers make of the store *)

Module MainFacts.
Import Sqlite KVStore.

Section Zoned.
Context {tz : Datetime.Zone}.

Lemma filter_filter_none (A : Type) (f g : A -> bool) (l : list A) :
  (forall x, f x = true -> g x = false) -> filter f (filter g l) = [].
Proof.
  intro H. apply SqliteFacts.filter_none. intros x Hx.
  apply filter_In in Hx as [_ Hg].
  destruct (f x) eqn:Hf; [|reflexivity]. now rewrite (H x Hf) in Hg.
Qed.

Lemma filter_filter_same (A : Type) (f g : A -> bool) (l : list A) :
  (forall x, f x = true -> g x = true) -> filter f (filter g l) = filter f l.
Proof.
  intro H. induction l as [|x l IH]; [reflexivity|].
  cbn [filter]. destruct (g x) eqn:Hg.
  - cbn [filter]. now rewrite IH.
  - rewrite IH. destruct (f x) eqn:Hf; [|reflexivity].
    now rewrite (H x Hf) in Hg.
Qed.

(** Keys the pattern matches are not found after [DELETE ... LIKE]. *)
Lemma select_value_deleted (t : table) (beginning k : string) (now_seconds : Z) :
  like (beginning ++ "%") k = true ->
  select_value (filter (fun r => negb (key_like beginning r)) t) k now_seconds = [].
Proof.
  intro Hk. unfold select_value. rewrite filter_filter_none; [reflexivity|].
  intros x Hx. apply andb_true_iff in Hx as [Hkey _].
  apply String.eqb_eq in Hkey. unfold key_like. now rewrite Hkey, Hk.
Qed.

(** Keys the pattern does not match are found as before. *)
Lemma select_value_kept (t : table) (beginning k : string) (now_seconds : Z) :
  like (beginning ++ "%") k = false ->
  select_value (filter (fun r => negb (key_like beginning r)) t) k now_seconds
  = select_value t k now_seconds.
Proof.
  intro Hk. unfold select_value. rewrite filter_filter_same; [reflexivity|].
  intros x Hx. apply andb_true_iff in Hx as [Hkey _].
  apply String.eqb_eq in Hkey. unfold key_like. now rewrite Hkey, Hk.
Qed.

(** What [get] answers depends on the rows of the key only, as long as the
    store can be written to. *)
Lemma get_same_rows (self self' : KV) (now : Z) (k : string) (default : pyval)
    (save : bool) :
  select_value (rows (conn self')) k (timestamp now)
  = select_value (rows (conn self)) k (timestamp now) ->
  writable (conn self) = true -> writable (conn self') = true ->
  fst (get now k default save self') = fst (get now k default save self).
Proof.
  intros Hrows Hw Hw'. unfold get. rewrite Hrows.
  destruct (negb (truthy_str (fetchone (select_value (rows (conn self)) k (timestamp now)))));
    [|now destruct (fetchone _)].
  destruct save; [|reflexivity].
  destruct (SessionFacts.put_cases now k default None self) as [[e He]|(Hs & _ & Hp)].
  - destruct (serializable default) eqn:Hs.
    + rewrite (KVFacts.put_ok now k default None self Hs Hw) in He. discriminate He.
    + now rewrite !KVFacts.put_raises by exact Hs.
  - rewrite Hp, (KVFacts.put_ok now k default None self' Hs Hw'). reflexivity.
Qed.

End Zoned.

End MainFacts.

(** [setup_bw] never skips the set-up: on a store that can be written to,
    whatever it holds under ["sealed.setup_done"], [bw help] is run.  When
    the command succeeds the flag reads [True] afterwards; when it fails,
    [setup_bw] raises with the traceback in its message and the flag reads
    [False], also where it read [True] before. *)
Theorem setup_bw_never_skips {tz : Datetime.Zone} (cli : Type) (run_bw : list string -> cli -> (string + string) * cli)
    (now_first now_second : Z) (db : connection) (c : cli) :
  writable db = true ->
  exists db',
    snd (Main.setup_bw cli run_bw now_first now_second db c) = snd (run_bw ["help"] c)
    /\ snd (fst (Main.setup_bw cli run_bw now_first now_second db c)) = db'
    /\ (forall output,
          fst (run_bw ["help"] c) = inr output ->
          fst (fst (Main.setup_bw cli run_bw now_first now_second db c)) = inl tt
          /\ forall later default save,
               get later "sealed.setup_done" default save (__init__ db')
               = (Ok (PyBool true), __init__ db'))
    /\ (forall traceback,
          fst (run_bw ["help"] c) = inl traceback ->
          fst (fst (Main.setup_bw cli run_bw now_first now_second db c))
          = inr (Main.SetupFailed
                   ("failed to setup (False) bitwarden with error: " ++ traceback))
          /\ forall later default save,
               get later "sealed.setup_done" default save (__init__ db')
               = (Ok (PyBool false), __init__ db')).
Proof.
  intro Hw. unfold Main.setup_bw, Main.bitwarden_setup.
  destruct (get_after_put (__init__ db) now_first 0 "sealed.setup_done" (PyBool false)
              PyNone None false eq_refl Hw) as (kv1 & Hput1 & Hrows1 & Hw1 & _).
  rewrite Hput1. cbn [Crash.py_or Crash.truthy falsy negb].
  destruct (run_bw ["help"] c) as [[traceback|output] c'] eqn:Hrun;
    cbn [Main.success Main.data negb Main.str_of_bool fst snd].
  - exists (close kv1). split; [reflexivity|]. split; [reflexivity|]. split.
    + intros output Ho. discriminate Ho.
    + intros tb Htb. injection Htb as <-. split; [reflexivity|].
      intros later default save.
      destruct (get_after_put (__init__ db) now_first later "sealed.setup_done"
                  (PyBool false) default None save eq_refl Hw)
        as (kv1' & Hput1' & _ & _ & Hget & _).
      rewrite Hput1 in Hput1'. injection Hput1' as <-.
      specialize (Hget eq_refl).
      destruct kv1 as [c1 cv1 n1].
      unfold put in Hput1. cbn in Hput1. rewrite Hw in Hput1.
      injection Hput1 as <- <- <-. exact Hget.
  - destruct (get_after_put kv1 now_second 0 "sealed.setup_done" (PyBool true)
                PyNone None false eq_refl Hw1) as (kv2 & Hput2 & _ & _ & _).
    rewrite Hput2. cbn [fst snd].
    exists (close kv2). split; [reflexivity|]. split; [reflexivity|]. split.
    + intros out _. split; [reflexivity|].
      intros later default save.
      destruct (get_after_put kv1 now_second later "sealed.setup_done"
                  (PyBool true) default None save eq_refl Hw1)
        as (kv2' & Hput2' & _ & _ & Hget & _).
      rewrite Hput2 in Hput2'. injection Hput2' as <-.
      specialize (Hget eq_refl).
      destruct kv1 as [c1 cv1 n1].
      unfold put in Hput1. cbn in Hput1. rewrite Hw in Hput1.
      injection Hput1 as <- <- <-.
      unfold put in Hput2. cbn in Hput2.
      destruct kv2 as [c2 cv2 n2]. injection Hput2 as <- <- <-. exact Hget.
    + intros tb Htb. discriminate Htb.
Qed.

Lemma setup_bw_never_skips_witness :
  fst (fst (Main.setup_bw nat missing_client 0 0 set_up_store 0%nat))
  = inr (Main.SetupFailed
           "failed to setup (False) bitwarden with error: Traceback: bw not found")
  /\ snd (Main.setup_bw nat missing_client 0 0 set_up_store 0%nat) = 1%nat.
Proof.
  destruct (setup_bw_never_skips nat missing_client 0 0 set_up_store 0%nat eq_refl)
    as (db' & Hclient & _ & _ & Hfail).
  split; [|exact Hclient].
  apply (Hfail "Traceback: bw not found" eq_refl).
Defined.

(** [cleanup] on a store that can be written to returns [None] and posts no
    report.  Afterwards every key that matches ['bw%'], the session code
    among them, reads as missing, and every other key reads as before, so
    the server URL and the crash-report preference stay as they were. *)
Theorem cleanup_keeps_settings {tz : Datetime.Zone} (CRASH_REPORT_URL_ : option string)
    (format_exc : exn -> string) (now : Z) (a : Crash.app) :
  writable (Crash.db a) = true ->
  exists a',
    Main.cleanup CRASH_REPORT_URL_ format_exc now a = (inl PyNone, a')
    /\ Crash.posted a' = Crash.posted a
    /\ (forall later k default,
          like "bw%" k = true ->
          get later k default false (__init__ (Crash.db a'))
          = (Ok default, __init__ (Crash.db a')))
    /\ (forall later k default save,
          like "bw%" k = false ->
          fst (get later k default save (__init__ (Crash.db a')))
          = fst (get later k default save (__init__ (Crash.db a))))
    /\ forall later,
         fst (Crash.get_crash_report later (Crash.db a'))
         = fst (Crash.get_crash_report later (Crash.db a)).
Proof.
  intro Hw.
  assert (Hkept : forall later k default save,
             like "bw%" k = false ->
             fst (get later k default save
                    (__init__ (Connection
                                 (filter (fun r => negb (key_like "bw" r)) (rows (Crash.db a)))
                                 true)))
             = fst (get later k default save (__init__ (Crash.db a)))).
  { intros later k default save Hk. apply MainFacts.get_same_rows.
    - cbn [__init__ conn rows]. now apply (MainFacts.select_value_kept _ "bw").
    - exact Hw.
    - reflexivity. }
  unfold Main.cleanup, Crash.crash_reporter, delete_partial, delete_like.
  cbn [__init__ conn]. rewrite Hw. cbn [close conn Crash.posted].
  eexists. split; [reflexivity|]. cbn [Crash.db Crash.posted].
  split; [reflexivity|]. split; [|split].
  - intros later k default Hk. apply KVFacts.get_missing.
    cbn [__init__ conn rows].
    now rewrite (MainFacts.select_value_deleted _ "bw" k).
  - exact Hkept.
  - intro later. unfold Crash.get_crash_report.
    specialize (Hkept later "crash.enabled" (PyBool false) true eq_refl).
    destruct (get later "crash.enabled" (PyBool false) true (__init__ (Connection _ true)))
      as [r1 kv1].
    destruct (get later "crash.enabled" (PyBool false) true (__init__ (Crash.db a)))
      as [r2 kv2].
    cbn [fst] in Hkept. subst r2. now destruct r1.
Qed.

Lemma cleanup_keeps_settings_witness :
  exists a',
    Main.cleanup None (fun _ => "Traceback") 0 logged_in = (inl PyNone, a')
    /\ Crash.posted a' = Crash.posted logged_in
    /\ (forall later k default,
          like "bw%" k = true ->
          get later k default false (__init__ (Crash.db a'))
          = (Ok default, __init__ (Crash.db a')))
    /\ (forall later k default save,
          like "bw%" k = false ->
          fst (get later k default save (__init__ (Crash.db a')))
          = fst (get later k default save (__init__ (Crash.db logged_in))))
    /\ forall later,
         fst (Crash.get_crash_report later (Crash.db a'))
         = fst (Crash.get_crash_report later (Crash.db logged_in)).
Proof.
  apply (cleanup_keeps_settings None (fun _ => "Traceback") 0 logged_in). reflexivity.
Defined.

(* ------------------------------------------------------------------------- *)
(** ** [ut_components/__init__.py]: [setup] and the order of imports *)

Module PackageFacts.
Import Package.

Section Zoned.
Context {tz : Datetime.Zone}.

Lemma import_config_crash (i : interpreter) :
  crash_module (import_config i) = crash_module i.
Proof. unfold import_config. now destruct (config_module i). Qed.

Lemma import_config_package (i : interpreter) : package (import_config i) = package i.
Proof. unfold import_config. now destruct (config_module i). Qed.

Lemma execute_keeps_crash (s : statement) (i : interpreter) (url : option string) :
  crash_module i = Some url -> crash_module (execute i s) = Some url.
Proof.
  intro H. destruct s; cbn [execute crash_module].
  - exact H.
  - unfold import_crash. now rewrite H.
  - now rewrite import_config_crash.
Qed.

Lemma run_keeps_crash (program : list statement) :
  forall (i : interpreter) (url : option string),
    crash_module i = Some url -> crash_module (run program i) = Some url.
Proof.
  induction program as [|s program IH]; intros i url H; [exact H|].
  cbn [run fold_left]. apply IH. now apply execute_keeps_crash.
Qed.

Lemma run_not_imported (program : list statement) :
  forall i : interpreter,
    forallb (fun s => negb (imports_crash s)) program = true ->
    crash_module i = None -> crash_module (run program i) = None.
Proof.
  induction program as [|s program IH]; intros i Hp H; [exact H|].
  cbn [forallb] in Hp. apply andb_true_iff in Hp as [Hs Hp].
  cbn [run fold_left]. apply IH; [exact Hp|].
  destruct s; cbn [execute crash_module]; [exact H|discriminate Hs|].
  now rewrite import_config_crash.
Qed.

Lemma run_not_set (program : list statement) :
  forall i : interpreter,
    forallb (fun s => negb (calls_setup s)) program = true ->
    package (run program i) = package i.
Proof.
  induction program as [|s program IH]; intros i Hp; [reflexivity|].
  cbn [forallb] in Hp. apply andb_true_iff in Hp as [Hs Hp].
  cbn [run fold_left]. rewrite IH by exact Hp.
  destruct s; cbn [execute package]; [discriminate Hs| |apply import_config_package].
  unfold import_crash. destruct (crash_module i); [reflexivity|].
  now rewrite import_config_package.
Qed.

Lemma run_app (before after : list statement) (i : interpreter) :
  run (before ++ after) i = run after (run before i).
Proof. apply fold_left_app. Qed.

Lemma execute_keeps_config (s : statement) (i : interpreter) (name : option string) :
  config_module i = Some name -> config_module (execute i s) = Some name.
Proof.
  intro H. destruct s; cbn [execute config_module].
  - exact H.
  - unfold import_crash. destruct (crash_module i); [exact H|].
    unfold import_config. cbn [config_module]. now rewrite H.
  - unfold import_config. now rewrite H.
Qed.

Lemma run_keeps_config (program : list statement) :
  forall (i : interpreter) (name : option string),
    config_module i = Some name -> config_module (run program i) = Some name.
Proof.
  induction program as [|s program IH]; intros i name H; [exact H|].
  cbn [run fold_left]. apply IH. now apply execute_keeps_config.
Qed.

(** Without a [setup] call, [config.py] can only have bound [None]. *)
Lemma run_config_unset (program : list statement) :
  forall i : interpreter,
    forallb (fun s => negb (calls_setup s)) program = true ->
    package i = unset -> (config_module i = None \/ config_module i = Some None) ->
    config_module (run program i) = None \/ config_module (run program i) = Some None.
Proof.
  induction program as [|s program IH]; intros i Hp Hu Hc; [exact Hc|].
  cbn [forallb] in Hp. apply andb_true_iff in Hp as [Hs Hp].
  cbn [run fold_left]. apply IH; [exact Hp | |].
  - destruct s; cbn [execute package]; [discriminate Hs| |now rewrite import_config_package].
    unfold import_crash. destruct (crash_module i); [exact Hu|].
    now rewrite import_config_package.
  - destruct s; cbn [execute config_module]; [discriminate Hs| |].
    + unfold import_crash. destruct (crash_module i); [exact Hc|].
      unfold import_config. cbn [config_module package].
      destruct (config_module i) as [n|] eqn:E; cbn [config_module].
      * exact Hc.
      * right. now rewrite Hu.
    + unfold import_config.
      destruct (config_module i) as [n|] eqn:E; cbn [config_module].
      * rewrite E. exact Hc.
      * right. now rewrite Hu.
Qed.

(** When [crash.py] is first imported, [config.py] has been or is. *)
Lemma first_import_config (before after : list statement) :
  forallb (fun s => negb (imports_crash s)) before = true ->
  config_module (run (before ++ ImportCrash :: after) python)
  = Some match config_module (run before python) with
         | Some name => name
         | None => APP_NAME_ (package (run before python))
         end.
Proof.
  intro Hb. rewrite run_app. cbn [run fold_left execute].
  apply run_keeps_config. unfold import_crash.
  rewrite (run_not_imported before python Hb eq_refl).
  unfold import_config. cbn [config_module package].
  now destruct (config_module (run before python)).
Qed.

(** The first import of [crash.py] binds the URL the package has then. *)
Lemma first_import (before after : list statement) :
  forallb (fun s => negb (imports_crash s)) before = true ->
  crash_module (run (before ++ ImportCrash :: after) python)
  = Some (CRASH_REPORT_URL_ (package (run before python))).
Proof.
  intro Hb. rewrite run_app. cbn [run fold_left execute].
  apply run_keeps_crash. unfold import_crash.
  rewrite (run_not_imported before python Hb eq_refl).
  now rewrite import_config_crash.
Qed.

End Zoned.

End PackageFacts.

(** [crash.py] and [config.py] keep what the package held when they were
    first imported: [setup] calls that follow the import change nothing for
    them.  In a program that imports [crash.py] before it calls [setup] for
    the first time, [KV()] cannot open, and a decorated function that raises
    ends in the [AssertionError] of [get_config_path], with nothing read and
    no report posted, whatever the later [setup] calls give.  In a program
    where [KV()] opens and the package had no URL at the import, a decorated
    function that raises while crash reports are switched on ends in the
    [AssertionError] of the wrapper, with no report posted, whatever URLs
    the later [setup] calls give. *)
Theorem setup_after_import_is_not_seen {tz : Datetime.Zone} (before after : list Package.statement) :
  forallb (fun s => negb (Package.imports_crash s)) before = true ->
  Package.crash_module (Package.run (before ++ Package.ImportCrash :: after) Package.python)
  = Some (Package.CRASH_REPORT_URL_ (Package.package (Package.run before Package.python)))
  /\ Package.config_module
       (Package.run (before ++ Package.ImportCrash :: after) Package.python)
     = Some match Package.config_module (Package.run before Package.python) with
            | Some name => name
            | None => Package.APP_NAME_ (Package.package (Package.run before Package.python))
            end
  /\ (forallb (fun s => negb (Package.calls_setup s)) before = true ->
      forall format_exc func now a a' e,
        func a = (Raise e, a') ->
        Package.crash_reporter
          (Package.run (before ++ Package.ImportCrash :: after) Package.python)
          format_exc func now a
        = Some (inr Crash.AssertionError, a'))
  /\ (Package.opens (Package.run (before ++ Package.ImportCrash :: after) Package.python)
      = true ->
      Package.CRASH_REPORT_URL_ (Package.package (Package.run before Package.python)) = None ->
      forall format_exc func now a a' e db',
        func a = (Raise e, a') ->
        Crash.get_crash_report now (Crash.db a') = (Ok (PyBool true), db') ->
        Package.crash_reporter
          (Package.run (before ++ Package.ImportCrash :: after) Package.python)
          format_exc func now a
        = Some (inr Crash.AssertionError, Crash.Build_app db' (Crash.posted a'))).
Proof.
  intro Hb.
  pose proof (PackageFacts.first_import before after Hb) as Hcrash.
  pose proof (PackageFacts.first_import_config before after Hb) as Hconfig.
  split; [exact Hcrash|]. split; [exact Hconfig|]. split.
  - intros Hs format_exc func now a a' e Hf.
    unfold Package.crash_reporter, Package.opens. rewrite Hcrash, Hconfig, Hf.
    rewrite (PackageFacts.run_not_set before Package.python Hs).
    destruct (PackageFacts.run_config_unset before Package.python Hs eq_refl
                (or_introl eq_refl)) as [E|E]; now rewrite E.
  - intros Hopens Hurl format_exc func now a a' e db' Hf Hon.
    unfold Package.crash_reporter. rewrite Hcrash, Hopens, Hurl.
    unfold Crash.crash_reporter. now rewrite Hf, Hon.
Qed.

Lemma setup_after_import_is_not_seen_witness :
  Package.crash_reporter
    (Package.run [Package.ImportCrash;
                  Package.Setup "MyApp" (Some "https://api.myapp.com/crashes")]
       Package.python)
    (fun _ => "Traceback") (fun a => (Raise AttributeError, a)) 5 consenting_user
  = Some (inr Crash.AssertionError, consenting_user)
  /\ Package.crash_reporter
       (Package.run [Package.Setup "MyApp" None; Package.ImportCrash;
                     Package.Setup "MyApp" (Some "https://api.myapp.com/crashes")]
          Package.python)
       (fun _ => "Traceback") (fun a => (Raise AttributeError, a)) 5 consenting_user
     = Some (inr Crash.AssertionError, consenting_user).
Proof.
  split.
  - destruct (setup_after_import_is_not_seen (tz := Datetime.utc) []
                [Package.Setup "MyApp" (Some "https://api.myapp.com/crashes")] eq_refl)
      as (_ & _ & H & _).
    now apply (H eq_refl (fun _ => "Traceback") (fun a => (Raise AttributeError, a)) 5
                 consenting_user consenting_user AttributeError).
  - destruct (setup_after_import_is_not_seen (tz := Datetime.utc)
                [Package.Setup "MyApp" None]
                [Package.Setup "MyApp" (Some "https://api.myapp.com/crashes")] eq_refl)
      as (_ & _ & _ & H).
    now apply (H eq_refl eq_refl (fun _ => "Traceback") (fun a => (Raise AttributeError, a)) 5
                 consenting_user consenting_user AttributeError (Crash.db consenting_user)).
Defined.
